(** * LocalRAG: the chunker and the vector store, embedded and verified

    A shallow embedding of [tree_sitter_chunker.py] and [vector_store.py].
    Python values are modelled as follows: [int] as [Z], [str] as [string],
    [float] as the binary64 numbers of [PrimFloat], [list] as [list],
    [dict] as stdpp's [gmap], [Optional] as [option], and a raised
    exception as the [Raise] branch of [result]. *)

From Stdlib Require Import ZArith Ascii String DecimalString Floats.
From stdpp Require Import base option list sorting gmap strings.

Set Warnings "-register-all,-inexact-float".

Local Open Scope Z_scope.

(** ** Python primitives *)

Module Py.

(** Exceptions the modelled code can raise. *)
Inductive exn : Type :=
| IndexError
| KeyError
| TypeError
| ValueError
| UnboundLocalError
| FileNotFoundError
| DuplicateIDError.

Inductive result (A : Type) : Type :=
| Ok (a : A)
| Raise (e : exn).
Arguments Ok {A} a.
Arguments Raise {A} e.

Definition bind {A B} (m : result A) (k : A -> result B) : result B :=
  match m with
  | Ok a => k a
  | Raise e => Raise e
  end.

(** [for x in xs: st = body(st, x)], stopping at the first exception. *)
Fixpoint for_each {A S} (body : S -> A -> result S) (xs : list A) (st : S)
  : result S :=
  match xs with
  | [] => Ok st
  | x :: xs' => bind (body st x) (for_each body xs')
  end.

(** [len] of a list and of a string. *)
Definition len {A} (l : list A) : Z := Z.of_nat (length l).
Definition str_len (s : string) : Z := Z.of_nat (String.length s).

(** The line-feed character. *)
Definition LF : ascii := Ascii.ascii_of_nat 10.
Definition nl : string := String LF EmptyString.

(** [s.split('\n')]: never empty, one more piece than there are line feeds. *)
Fixpoint split_nl (s : string) : list string :=
  match s with
  | EmptyString => [EmptyString]
  | String c s' =>
      if Ascii.eqb c LF then EmptyString :: split_nl s'
      else match split_nl s' with
           | [] => [String c EmptyString]
           | h :: t => String c h :: t
           end
  end.

(** [sep.join(l)] *)
Fixpoint join (sep : string) (l : list string) : string :=
  match l with
  | [] => EmptyString
  | [x] => x
  | x :: rest => x +:+ sep +:+ join sep rest
  end.

(** String slices with non-negative bounds: [s[a:]], [s[:b]], [s[a:b]]. *)
Fixpoint str_drop (n : nat) (s : string) : string :=
  match n, s with
  | O, _ => s
  | S _, EmptyString => EmptyString
  | S n', String _ s' => str_drop n' s'
  end.

Fixpoint str_take (n : nat) (s : string) : string :=
  match n, s with
  | O, _ => EmptyString
  | S _, EmptyString => EmptyString
  | S n', String c s' => String c (str_take n' s')
  end.

Definition str_slice (a b : nat) (s : string) : string :=
  str_take (b - a) (str_drop a s).

(** [sub in s] *)
Fixpoint str_contains (sub s : string) : bool :=
  String.prefix sub s ||
  match s with
  | EmptyString => false
  | String _ s' => str_contains sub s'
  end.

(** [s.strip(chars)] *)
Fixpoint lstrip (chars : list ascii) (s : string) : string :=
  match s with
  | EmptyString => EmptyString
  | String c s' => if bool_decide (c ∈ chars) then lstrip chars s' else s
  end.

Fixpoint rstrip (chars : list ascii) (s : string) : string :=
  match s with
  | EmptyString => EmptyString
  | String c s' =>
      match rstrip chars s' with
      | EmptyString =>
          if bool_decide (c ∈ chars) then EmptyString
          else String c EmptyString
      | r => String c r
      end
  end.

Definition strip (chars : list ascii) (s : string) : string :=
  rstrip chars (lstrip chars s).

(** [str(i)] for an [int]. *)
Definition str_of_int (i : Z) : string :=
  NilZero.string_of_int (Z.to_int i).

(** List slice [l[lo:hi]] with Python's treatment of negative and
    out-of-range bounds. *)
Definition slice_index (n i : Z) : Z :=
  if i <? 0 then Z.max 0 (n + i) else Z.min i n.

Definition slice {A} (l : list A) (lo hi : Z) : list A :=
  let lo' := slice_index (len l) lo in
  let hi' := slice_index (len l) hi in
  take (Z.to_nat (hi' - lo')) (drop (Z.to_nat lo') l).

(** [range(start, stop, step)]; a zero step raises [ValueError]. *)
Definition range (start stop step : Z) : result (list Z) :=
  if step =? 0 then Raise ValueError
  else
    let n := if 0 <? step then (stop - start + step - 1) / step
             else (start - stop - step - 1) / (- step) in
    Ok (map (fun k => start + Z.of_nat k * step) (seq 0 (Z.to_nat n))).

(** [l[i]] for a non-negative index. *)
Definition getitem {A} (l : list A) (i : nat) : result A :=
  match l !! i with
  | Some x => Ok x
  | None => Raise IndexError
  end.

(** Truth value of an [Optional[str]]: [None] and the empty string are
    false. *)
Definition truthy (o : option string) : bool :=
  match o with
  | Some (String _ _) => true
  | _ => false
  end.

(** [o or ''] *)
Definition or_empty (o : option string) : string :=
  if truthy o then default EmptyString o else EmptyString.

(** [enumerate(l)] *)
Fixpoint enumerate_from {A} (i : Z) (l : list A) : list (Z * A) :=
  match l with
  | [] => []
  | x :: l' => (i, x) :: enumerate_from (i + 1) l'
  end.
Definition enumerate {A} (l : list A) : list (Z * A) := enumerate_from 0 l.

End Py.

Import Py.

Global Arguments Py.bind {A B} !m k /.
Global Arguments len : simpl never.
Global Arguments str_len : simpl never.

Notation "'let!' x ':=' m 'in' k" := (Py.bind m (fun x => k))
  (at level 10, x name, m at level 100, k at level 200).

(** ** Configuration ([config.py]) *)

Record TreeSitterConfig : Type := {
  chunk_by_functions : bool;
  chunk_by_classes : bool;
  chunk_by_methods : bool;
  include_docstrings : bool;
  min_chunk_size : Z;
  max_chunk_size : Z;
  overlap_size : Z;
  include_imports : bool;
}.

(** The defaults of [TreeSitterConfig]. *)
Definition default_config : TreeSitterConfig := {|
  chunk_by_functions := true;
  chunk_by_classes := true;
  chunk_by_methods := true;
  include_docstrings := true;
  min_chunk_size := 50;
  max_chunk_size := 2000;
  overlap_size := 200;
  include_imports := true;
|}.

Module ChromaDBConfig.
Record t : Type := {
  top_k : Z;
  similarity_threshold : float;
}.

(** The defaults of [ChromaDBConfig]. *)
Definition default : t := {|
  top_k := 8;
  similarity_threshold := 0.1%float;
|}.
End ChromaDBConfig.

(** ** Chunks *)

(** A metadata value: what a chunk's [metadata] dict and a stored or
    exported record hold. *)
Inductive value : Type :=
| VStr (s : string)
| VInt (i : Z)
| VBool (b : bool).

Abbreviation Metadata := (gmap string value).

(** What the code takes from outside: [hashlib.md5(..).hexdigest()] and
    [pathlib]'s [Path.suffix]. *)
Class Env : Type := {
  md5_hexdigest : string -> string;
  path_suffix : string -> string;
}.

Record CodeChunk : Type := mkCodeChunk {
  content : string;
  chunk_type : string;
  language : string;
  file_path : string;
  start_line : Z;
  end_line : Z;
  name : option string;
  parent_context : option string;
  metadata : Metadata;
  chunk_id : string;
}.

Section Chunk.
Context {env : Env}.

(** [CodeChunk._generate_id], from the fields it reads. *)
Definition _generate_id (language chunk_type file_path : string)
    (start_line : Z) (content : string) : string :=
  let content_hash :=
    md5_hexdigest (file_path +:+ ":" +:+ str_of_int start_line +:+ ":" +:+ content) in
  language +:+ "_" +:+ chunk_type +:+ "_" +:+ str_slice 0 12 content_hash.

(** The dataclass constructor followed by [__post_init__]: a missing
    [metadata] becomes the empty dict and a missing [chunk_id] is
    generated. *)
Definition new_CodeChunk (content chunk_type language file_path : string)
    (start_line end_line : Z) (name parent_context : option string)
    (metadata : option Metadata) (chunk_id : option string) : CodeChunk :=
  {| content := content;
     chunk_type := chunk_type;
     language := language;
     file_path := file_path;
     start_line := start_line;
     end_line := end_line;
     name := name;
     parent_context := parent_context;
     metadata := default ∅ metadata;
     chunk_id :=
       match chunk_id with
       | Some i => i
       | None => _generate_id language chunk_type file_path start_line content
       end |}.

End Chunk.

(** ** The chunker ([tree_sitter_chunker.py]) *)

(** A syntax-tree node as the chunker reads it: its type, the field of
    its parent it fills (what [child_by_field_name] looks up), its start
    and end points (row, column) and its children. *)
Inductive Node : Type :=
| mkNode (type : string) (field : option string)
         (start_point end_point : nat * nat) (children : list Node).

Definition type (n : Node) : string :=
  match n with mkNode t _ _ _ _ => t end.
Definition field (n : Node) : option string :=
  match n with mkNode _ f _ _ _ => f end.
Definition start_point (n : Node) : nat * nat :=
  match n with mkNode _ _ s _ _ => s end.
Definition end_point (n : Node) : nat * nat :=
  match n with mkNode _ _ _ e _ => e end.
Definition children (n : Node) : list Node :=
  match n with mkNode _ _ _ _ cs => cs end.

Definition child_by_field_name (n : Node) (f : string) : option Node :=
  List.find (fun c => bool_decide (field c = Some f)) (children n).

(** [self]: the configuration and the parsers that were loaded, by
    language; a parser maps the source text to the root node. *)
Record TreeSitterChunker : Type := {
  config : TreeSitterConfig;
  parsers : gmap string (string -> Node);
}.

(** The file system: the text [f.read()] returns for a path. *)
Abbreviation Files := (gmap string string).

Definition read_file (fs : Files) (file_path : string) : result string :=
  match fs !! file_path with
  | Some text => Ok text
  | None => Raise FileNotFoundError
  end.

Section Chunker.
Context {env : Env}.
Variable self : TreeSitterChunker.

(** [_get_node_text] *)
Definition _get_node_text (node : option Node) (code_lines : list string)
  : result string :=
  match node with
  | None => Ok EmptyString
  | Some node =>
      let '(start_row, start_col) := start_point node in
      let '(end_row, end_col) := end_point node in
      if (start_row =? end_row)%nat then
        let! line := getitem code_lines start_row in
        Ok (str_slice start_col end_col line)
      else
        let! first := getitem code_lines start_row in
        let! text :=
          for_each
            (fun text row =>
               let! line := getitem code_lines row in
               Ok (text +:+ nl +:+ line))
            (seq (start_row + 1) (end_row - (start_row + 1)))
            (str_drop start_col first) in
        let! last := getitem code_lines end_row in
        Ok (text +:+ nl +:+ str_take end_col last)
  end.

(** [_get_node_content]: the whole lines [start_line .. end_line]. *)
Definition _get_node_content (node : Node) (code_lines : list string)
  : string :=
  let start_line := Z.of_nat (start_point node).1 in
  let end_line := Z.of_nat (end_point node).1 in
  join nl (slice code_lines start_line (end_line + 1)).

Definition quote_chars : list ascii :=
  [Ascii.ascii_of_nat 34; Ascii.ascii_of_nat 39].

(** [_extract_docstring] *)
Definition _extract_docstring (node : Node) (code_lines : list string)
  : result (option string) :=
  match child_by_field_name node "body" with
  | Some body =>
      if 0 <? len (children body) then
        let! first_child := getitem (children body) 0 in
        if bool_decide (type first_child = "expression_statement") then
          let! string_node := getitem (children first_child) 0 in
          if bool_decide (type string_node = "string") then
            let! text := _get_node_text (Some string_node) code_lines in
            Ok (Some (strip quote_chars text))
          else Ok None
        else Ok None
      else Ok None
  | None => Ok None
  end.

Definition triple_quote : string :=
  let q := Ascii.ascii_of_nat 34 in String q (String q (String q EmptyString)).

(** [_extract_function_chunk]. The local [docstring] is bound only when
    [include_docstrings] is set; reading it unbound raises. *)
Definition _extract_function_chunk (node : Node) (code_lines : list string)
    (file_path : string) (parent_class : option string)
    (chunks : list CodeChunk) : result (list CodeChunk) :=
  let! func_name := _get_node_text (child_by_field_name node "name") code_lines in
  let func_content := _get_node_content node code_lines in
  let! bound :=
    if include_docstrings (config self) then
      let! docstring := _extract_docstring node code_lines in
      if truthy docstring
         && negb (str_contains (default EmptyString docstring) func_content)
      then Ok (Some docstring,
               triple_quote +:+ default EmptyString docstring +:+ triple_quote
                 +:+ nl +:+ func_content)
      else Ok (Some docstring, func_content)
    else Ok (None, func_content) in
  let func_content := bound.2 in
  let chunk_type := if truthy parent_class then "method" else "function" in
  let! has_docstring :=
    match bound.1 with
    | Some docstring => Ok (truthy docstring)
    | None => Raise UnboundLocalError
    end in
  Ok (chunks ++
      [new_CodeChunk func_content chunk_type "python" file_path
         (Z.of_nat (start_point node).1) (Z.of_nat (end_point node).1)
         (Some func_name) parent_class
         (Some {[ "has_docstring" := VBool has_docstring ]}) None]).

(** [_extract_python_chunks]: the nested [traverse], threading the list
    it appends to. *)
Fixpoint traverse_python (code_lines : list string) (file_path : string)
    (node : Node) (parent_class : option string) (chunks : list CodeChunk)
  : result (list CodeChunk) :=
  match node with
  | mkNode _ _ _ _ node_children =>
      let! chunks :=
        if bool_decide (type node = "class_definition")
           && chunk_by_classes (config self) then
          let! class_name :=
            _get_node_text (child_by_field_name node "name") code_lines in
          let class_content := _get_node_content node code_lines in
          let chunks :=
            chunks ++
            [new_CodeChunk class_content "class" "python" file_path
               (Z.of_nat (start_point node).1) (Z.of_nat (end_point node).1)
               (Some class_name) None None None] in
          if chunk_by_methods (config self) then
            for_each
              (fun chunks child =>
                 if bool_decide (type child = "function_definition") then
                   _extract_function_chunk child code_lines file_path
                     (Some class_name) chunks
                 else Ok chunks)
              node_children chunks
          else Ok chunks
        else if bool_decide (type node = "function_definition")
                && chunk_by_functions (config self) then
          _extract_function_chunk node code_lines file_path parent_class chunks
        else Ok chunks in
      (fix traverse_children (cs : list Node) (chunks : list CodeChunk)
         : result (list CodeChunk) :=
         match cs with
         | [] => Ok chunks
         | child :: cs' =>
             let! chunks :=
               traverse_python code_lines file_path child parent_class chunks in
             traverse_children cs' chunks
         end) node_children chunks
  end.

Definition _extract_python_chunks (root_node : Node)
    (code_lines : list string) (file_path : string)
  : result (list CodeChunk) :=
  traverse_python code_lines file_path root_node None [].

(** [_extract_javascript_chunks] *)
Fixpoint traverse_javascript (code_lines : list string)
    (file_path language : string) (node : Node)
    (parent_class : option string) (chunks : list CodeChunk)
  : result (list CodeChunk) :=
  match node with
  | mkNode _ _ _ _ node_children =>
      let! chunks :=
        if bool_decide (type node ∈ ["function_declaration"; "function"])
           && chunk_by_functions (config self) then
          let! text :=
            _get_node_text (child_by_field_name node "name") code_lines in
          let func_name :=
            if truthy (Some text) then text else "anonymous" in
          let func_content := _get_node_content node code_lines in
          Ok (chunks ++
              [new_CodeChunk func_content "function" language file_path
                 (Z.of_nat (start_point node).1)
                 (Z.of_nat (end_point node).1)
                 (Some func_name) None None None])
        else if bool_decide (type node = "class_declaration")
                && chunk_by_classes (config self) then
          let! class_name :=
            _get_node_text (child_by_field_name node "name") code_lines in
          let class_content := _get_node_content node code_lines in
          Ok (chunks ++
              [new_CodeChunk class_content "class" language file_path
                 (Z.of_nat (start_point node).1)
                 (Z.of_nat (end_point node).1)
                 (Some class_name) None None None])
        else Ok chunks in
      (fix traverse_children (cs : list Node) (chunks : list CodeChunk)
         : result (list CodeChunk) :=
         match cs with
         | [] => Ok chunks
         | child :: cs' =>
             let! chunks :=
               traverse_javascript code_lines file_path language child
                 parent_class chunks in
             traverse_children cs' chunks
         end) node_children chunks
  end.

Definition _extract_javascript_chunks (root_node : Node)
    (code_lines : list string) (file_path language : string)
  : result (list CodeChunk) :=
  traverse_javascript code_lines file_path language root_node None [].

(** [_extract_java_chunks] *)
Fixpoint traverse_java (code_lines : list string) (file_path : string)
    (node : Node) (parent_class : option string) (chunks : list CodeChunk)
  : result (list CodeChunk) :=
  match node with
  | mkNode _ _ _ _ node_children =>
      let! chunks :=
        if bool_decide (type node = "class_declaration")
           && chunk_by_classes (config self) then
          let! class_name :=
            _get_node_text (child_by_field_name node "name") code_lines in
          let class_content := _get_node_content node code_lines in
          Ok (chunks ++
              [new_CodeChunk class_content "class" "java" file_path
                 (Z.of_nat (start_point node).1)
                 (Z.of_nat (end_point node).1)
                 (Some class_name) None None None])
        else if bool_decide (type node = "method_declaration")
                && chunk_by_methods (config self) then
          let! method_name :=
            _get_node_text (child_by_field_name node "name") code_lines in
          let method_content := _get_node_content node code_lines in
          Ok (chunks ++
              [new_CodeChunk method_content "method" "java" file_path
                 (Z.of_nat (start_point node).1)
                 (Z.of_nat (end_point node).1)
                 (Some method_name) parent_class None None])
        else Ok chunks in
      (fix traverse_children (cs : list Node) (chunks : list CodeChunk)
         : result (list CodeChunk) :=
         match cs with
         | [] => Ok chunks
         | child :: cs' =>
             let! chunks :=
               traverse_java code_lines file_path child parent_class chunks in
             traverse_children cs' chunks
         end) node_children chunks
  end.

Definition _extract_java_chunks (root_node : Node)
    (code_lines : list string) (file_path : string)
  : result (list CodeChunk) :=
  traverse_java code_lines file_path root_node None [].

(** [import_types.get(language, [])] *)
Definition import_types (language : string) : list string :=
  if bool_decide (language = "python") then
    ["import_statement"; "import_from_statement"]
  else if bool_decide (language = "javascript") then ["import_statement"]
  else if bool_decide (language = "java") then ["import_declaration"]
  else [].

(** [_extract_imports]: one pass over [root_node.children]. *)
Definition _extract_imports (root_node : Node) (code_lines : list string)
    (file_path language : string) : list CodeChunk :=
  fold_left
    (fun chunks node =>
       if bool_decide (type node ∈ import_types language) then
         chunks ++
         [new_CodeChunk (_get_node_content node code_lines) "import"
            language file_path
            (Z.of_nat (start_point node).1) (Z.of_nat (end_point node).1)
            None None None None]
       else chunks)
    (children root_node) [].

(** [_detect_language] *)
Definition extension_map : list (string * string) :=
  [(".py", "python"); (".js", "javascript"); (".ts", "typescript");
   (".jsx", "javascript"); (".tsx", "typescript"); (".java", "java");
   (".cpp", "cpp"); (".cc", "cpp"); (".hpp", "cpp"); (".h", "cpp")].

Definition _detect_language (file_path : string) : string :=
  match List.find (fun kv => bool_decide (kv.1 = path_suffix file_path))
          extension_map with
  | Some kv => kv.2
  | None => "unknown"
  end.

(** [_is_valid_chunk] *)
Definition _is_valid_chunk (chunk : CodeChunk) : bool :=
  let content_len := str_len (content chunk) in
  (min_chunk_size (config self) <=? content_len)
  && (content_len <=? max_chunk_size (config self)).

(** [_fallback_chunking]: the state of its loop and one iteration. *)
Record fallback_state : Type := {
  fb_chunks : list CodeChunk;
  current_chunk : list string;
  current_size : Z;
}.

Definition fallback_step (file_path language : string)
    (st : fallback_state) (item : Z * string) : fallback_state :=
  let '(i, line) := item in
  let current_chunk := current_chunk st ++ [line] in
  let current_size := current_size st + str_len line in
  if max_chunk_size (config self) <=? current_size then
    {| fb_chunks :=
         fb_chunks st ++
         [new_CodeChunk (join nl current_chunk) "text_block" language
            file_path (i - len current_chunk + 1) i None None None None];
       current_chunk := [];
       current_size := 0 |}
  else
    {| fb_chunks := fb_chunks st;
       current_chunk := current_chunk;
       current_size := current_size |}.

Definition _fallback_chunking (fs : Files) (file_path language : string)
  : result (list CodeChunk) :=
  let! content := read_file fs file_path in
  let lines := split_nl content in
  let st :=
    fold_left (fallback_step file_path language) (enumerate lines)
      {| fb_chunks := []; current_chunk := []; current_size := 0 |} in
  match current_chunk st with
  | [] => Ok (fb_chunks st)
  | _ :: _ =>
      Ok (fb_chunks st ++
          [new_CodeChunk (join nl (current_chunk st)) "text_block" language
             file_path (len lines - len (current_chunk st))
             (len lines - 1) None None None None])
  end.

(** [chunk_file]. The path is taken as [pathlib] writes it back with
    [str(file_path)]; what the method prints is left out. *)
Definition chunk_file (fs : Files) (file_path : string)
    (language : option string) : result (list CodeChunk) :=
  let language :=
    match language with
    | None => _detect_language file_path
    | Some language => language
    end in
  match parsers self !! language with
  | None => _fallback_chunking fs file_path language
  | Some parser =>
      let! code := read_file fs file_path in
      let root_node := parser code in
      let code_lines := split_nl code in
      let chunks :=
        if include_imports (config self) then
          _extract_imports root_node code_lines file_path language
        else [] in
      let! chunks :=
        if bool_decide (language = "python") then
          let! found := _extract_python_chunks root_node code_lines file_path in
          Ok (chunks ++ found)
        else if bool_decide (language ∈ ["javascript"; "typescript"]) then
          let! found :=
            _extract_javascript_chunks root_node code_lines file_path language in
          Ok (chunks ++ found)
        else if bool_decide (language = "java") then
          let! found := _extract_java_chunks root_node code_lines file_path in
          Ok (chunks ++ found)
        else Ok chunks in
      Ok (List.filter _is_valid_chunk chunks)
  end.

End Chunker.

(** ** The vector store ([vector_store.py]) *)

(** What [collection.query] returns: one row per query text in each list. *)
Record QueryResult : Type := {
  ids : list (list string);
  distances : list (list float);
  documents : list (list string);
  metadatas : list (list Metadata);
}.

(** A stored record, which is also the exported one:
    [{'id': .., 'content': .., 'metadata': ..}]. *)
Record ChunkRecord : Type := {
  rec_id : string;
  rec_content : string;
  rec_metadata : Metadata;
}.

(** The ChromaDB collection, taken from outside: [collection.add],
    [collection.query] and [collection.get] with documents and metadatas.
    [collection.add] either writes and returns, or raises and writes
    nothing (ChromaDB raises [DuplicateIDError] when one call names an id
    twice). *)
Class Store : Type := {
  Collection : Type;
  collection_add :
    Collection -> list string -> list string -> list Metadata ->
    result Collection;
  collection_query :
    Collection -> list string -> Z -> option Metadata -> result QueryResult;
  collection_get : Collection -> list ChunkRecord;
}.

(** One entry of [search]'s result list. *)
Record SearchHit : Type := {
  hit_chunk_id : string;
  hit_content : string;
  hit_metadata : Metadata;
  similarity : float;
  rank : Z;
}.

Section VectorStore.
Context {env : Env} {store : Store}.

(** The metadata dict [add_chunks] builds for a chunk: the seven fixed
    keys, overridden by the chunk's own [metadata]. *)
Definition chunk_metadata (chunk : CodeChunk) : Metadata :=
  metadata chunk ∪
  list_to_map
    [("chunk_type", VStr (chunk_type chunk));
     ("language", VStr (language chunk));
     ("file_path", VStr (file_path chunk));
     ("start_line", VInt (start_line chunk));
     ("end_line", VInt (end_line chunk));
     ("name", VStr (or_empty (name chunk)));
     ("parent_context", VStr (or_empty (parent_context chunk)))].

(** One iteration of the batch loop of [add_chunks]: the state is the
    collection and [total_added]. *)
Definition add_batch (chunks : list CodeChunk) (batch_size : Z)
    (st : Collection * Z) (i : Z) : result (Collection * Z) :=
  let batch := slice chunks i (i + batch_size) in
  let ids := map chunk_id batch in
  let documents := map content batch in
  let metadatas := map chunk_metadata batch in
  let! collection := collection_add st.1 ids documents metadatas in
  Ok (collection, st.2 + len batch).

(** [add_chunks]: the collection after the call and the returned count.
    An exception of [collection.add] ends the loop and is passed on; the
    result is then the exception alone, since none of the callers
    modelled here catches it and goes on with the collection. *)
Definition add_chunks (collection : Collection) (chunks : list CodeChunk)
    (batch_size : Z) : result (Collection * Z) :=
  match chunks with
  | [] => Ok (collection, 0)
  | _ :: _ =>
      let! starts := range 0 (len chunks) batch_size in
      for_each (add_batch chunks batch_size) starts (collection, 0)
  end.

(** One iteration of the result loop of [search]. *)
Definition search_step (results : QueryResult) (similarity_threshold : float)
    (retrieved_chunks : list SearchHit) (item : Z * string)
  : result (list SearchHit) :=
  let '(i, chunk_id) := item in
  let! row := getitem (distances results) 0 in
  let! distance := getitem row (Z.to_nat i) in
  let similarity := (1 - distance)%float in
  if (similarity_threshold <=? similarity)%float then
    let! row := getitem (documents results) 0 in
    let! document := getitem row (Z.to_nat i) in
    let! row := getitem (metadatas results) 0 in
    let! metadata := getitem row (Z.to_nat i) in
    Ok (retrieved_chunks ++
        [{| hit_chunk_id := chunk_id;
            hit_content := document;
            hit_metadata := metadata;
            similarity := similarity;
            rank := i + 1 |}])
  else Ok retrieved_chunks.

(** [search]. The time it measures is only printed and is left out. *)
Definition search (config : ChromaDBConfig.t) (collection : Collection)
    (query : string) (top_k : option Z) (filter_dict : option Metadata)
    (similarity_threshold : option float) : result (list SearchHit) :=
  let top_k := default (ChromaDBConfig.top_k config) top_k in
  let similarity_threshold :=
    default (ChromaDBConfig.similarity_threshold config)
      similarity_threshold in
  let! results := collection_query collection [query] (top_k * 2) filter_dict in
  let! found := getitem (ids results) 0 in
  let! retrieved_chunks :=
    match found with
    | [] => Ok []
    | _ :: _ =>
        for_each (search_step results similarity_threshold)
          (enumerate found) []
    end in
  Ok (slice retrieved_chunks 0 top_k).

(** [export_chunks]: the records written to the file. *)
Definition export_chunks (collection : Collection) : list ChunkRecord :=
  collection_get collection.

(** [import_chunks] reads the metadata values without looking at
    their types, and the dataclass takes whatever it is given. The
    [CodeChunk] record of this development has typed fields, so a value
    of another type than the field's cannot be put into it: there the
    model has no answer, [None]; where it has one, [Some], the answer is
    the code's. A missing key is [KeyError] for [metadata[key]] and
    [None] for [metadata.get(key)], as in the code. *)
Definition get_str (metadata : Metadata) (key : string)
  : option (result string) :=
  match metadata !! key with
  | Some (VStr s) => Some (Ok s)
  | Some _ => None
  | None => Some (Raise KeyError)
  end.

Definition get_int (metadata : Metadata) (key : string)
  : option (result Z) :=
  match metadata !! key with
  | Some (VInt i) => Some (Ok i)
  | Some _ => None
  | None => Some (Raise KeyError)
  end.

(** [metadata.get(key)] *)
Definition get_opt_str (metadata : Metadata) (key : string)
  : option (result (option string)) :=
  match metadata !! key with
  | Some (VStr s) => Some (Ok (Some s))
  | Some _ => None
  | None => Some (Ok None)
  end.

(** Sequencing where the model may have no answer. *)
Definition bind_typed {A B} (m : option (result A))
    (k : A -> option (result B)) : option (result B) :=
  match m with
  | Some (Ok a) => k a
  | Some (Raise e) => Some (Raise e)
  | None => None
  end.

Fixpoint for_each_typed {A S} (body : S -> A -> option (result S))
    (xs : list A) (st : S) : option (result S) :=
  match xs with
  | [] => Some (Ok st)
  | x :: xs' => bind_typed (body st x) (for_each_typed body xs')
  end.

(** The [CodeChunk] that [import_chunks] builds from one record. *)
Definition chunk_of_record (chunk_data : ChunkRecord)
  : option (result CodeChunk) :=
  let metadata := rec_metadata chunk_data in
  bind_typed (get_str metadata "chunk_type") (fun chunk_type =>
  bind_typed (get_str metadata "language") (fun language =>
  bind_typed (get_str metadata "file_path") (fun file_path =>
  bind_typed (get_int metadata "start_line") (fun start_line =>
  bind_typed (get_int metadata "end_line") (fun end_line =>
  bind_typed (get_opt_str metadata "name") (fun name =>
  bind_typed (get_opt_str metadata "parent_context") (fun parent_context =>
  Some (Ok (new_CodeChunk (rec_content chunk_data) chunk_type language
              file_path start_line end_line name parent_context None
              (Some (rec_id chunk_data))))))))))).

(** [import_chunks]: the collection after the call. *)
Definition import_chunks (collection : Collection)
    (chunks_data : list ChunkRecord) : option (result Collection) :=
  bind_typed
    (for_each_typed
       (fun chunks chunk_data =>
          bind_typed (chunk_of_record chunk_data) (fun chunk =>
          Some (Ok (chunks ++ [chunk]))))
       chunks_data [])
    (fun chunks =>
       Some (let! added := add_chunks collection chunks 100 in Ok added.1)).

End VectorStore.

Global Arguments bind_typed {A B} !m k /.

(** ** Vocabulary of the statements *)

(** Characters of a list of lines, line feeds not counted: what the
    fallback chunker's [current_size] adds up. *)
Definition total_len (ls : list string) : Z :=
  foldr (fun l acc => str_len l + acc) 0 ls.

(** A string without a line feed. *)
Fixpoint no_newline (s : string) : Prop :=
  match s with
  | EmptyString => True
  | String c s' => c <> LF /\ no_newline s'
  end.

Section FallbackSpec.
Context {env : Env}.
Variables (max_size : Z) (file_path language : string).

(** The [text_block] chunk for the lines [g] that start at line [start]. *)
Definition text_block (start : Z) (g : list string) : CodeChunk :=
  new_CodeChunk (join nl g) "text_block" language file_path
    start (start + len g - 1) None None None None.

(** The chunks of consecutive groups of lines, the first group starting
    at line [start]. *)
Fixpoint chunks_of_groups (start : Z) (gs : list (list string))
  : list CodeChunk :=
  match gs with
  | [] => []
  | g :: gs' => text_block start g :: chunks_of_groups (start + len g) gs'
  end.

(** A group that was flushed by the loop: its lines reach [max_size],
    and did not before its last line was added. *)
Definition flushed (g : list string) : Prop :=
  max_size <= total_len g /\
  (removelast g = [] \/ total_len (removelast g) < max_size).

(** A group left over at the end of the file. *)
Definition remainder (g : list string) : Prop :=
  g <> [] /\ total_len g < max_size.

(** Every group is flushed, except that the last may be a remainder. *)
Fixpoint windowed (gs : list (list string)) : Prop :=
  match gs with
  | [] => True
  | [g] => flushed g \/ remainder g
  | g :: gs' => flushed g /\ windowed gs'
  end.

(** The loop invariant: the chunks emitted so far are the chunks of
    flushed groups [gs], which together with the accumulator are the
    lines read so far. *)
Record fallback_inv (pre : list string) (st : fallback_state)
    (gs : list (list string)) : Prop := {
  inv_chunks : fb_chunks st = chunks_of_groups 0 gs;
  inv_nonempty : Forall (fun g => g <> []) gs;
  inv_lines : concat gs ++ current_chunk st = pre;
  inv_size : current_size st = total_len (current_chunk st);
  inv_flushed : Forall flushed gs;
  inv_below :
    current_chunk st = [] \/ total_len (current_chunk st) < max_size;
}.

End FallbackSpec.

(** Chunk spans that follow one another without gap or overlap, from
    line [start] up to line [stop] (exclusive). *)
Fixpoint contiguous (start : Z) (chunks : list CodeChunk) (stop : Z) : Prop :=
  match chunks with
  | [] => start = stop
  | c :: cs =>
      start_line c = start /\ start_line c <= end_line c /\
      contiguous (end_line c + 1) cs stop
  end.

(** ** Sample environment and inputs, to evaluate the definitions on *)

(** A stand-in digest of 32 characters that depends on the length of its
    input only, and the text from the last dot on as the suffix. *)
Definition sample_digest (s : string) : string :=
  str_take 32 (str_of_int (str_len s) +:+ "00000000000000000000000000000000").

Fixpoint sample_suffix (s : string) : string :=
  match s with
  | EmptyString => EmptyString
  | String c s' =>
      match sample_suffix s' with
      | EmptyString => if Ascii.eqb c "." then s else EmptyString
      | r => r
      end
  end.

Definition sample_env : Env :=
  {| md5_hexdigest := sample_digest; path_suffix := sample_suffix |}.

(** A chunker with the default configuration and no parser loaded, and
    one with small size bounds. *)
Definition plain_chunker : TreeSitterChunker :=
  {| config := default_config; parsers := ∅ |}.

Definition small_config : TreeSitterConfig := {|
  chunk_by_functions := true;
  chunk_by_classes := true;
  chunk_by_methods := true;
  include_docstrings := true;
  min_chunk_size := 2;
  max_chunk_size := 4;
  overlap_size := 0;
  include_imports := true;
|}.

Definition small_chunker : TreeSitterChunker :=
  {| config := small_config; parsers := ∅ |}.

(** A Python file with one class that has one method,

      class Bar:
          def baz(self, left, right):
              total = left + right
              return total * 2

    and its syntax tree as the Python grammar builds it: the methods of a
    class are children of the [block] that is the class's [body], not of
    the [class_definition] node itself. *)
Definition class_code : string :=
  "class Bar:" +:+ nl +:+
  "    def baz(self, left, right):" +:+ nl +:+
  "        total = left + right" +:+ nl +:+
  "        return total * 2" +:+ nl.

Definition leaf (type : string) (field : option string)
    (start_point end_point : nat * nat) : Node :=
  mkNode type field start_point end_point [].

Definition method_node : Node :=
  mkNode "function_definition" None (1, 4)%nat (3, 24)%nat
    [leaf "def" None (1, 4)%nat (1, 7)%nat;
     leaf "identifier" (Some "name") (1, 8)%nat (1, 11)%nat;
     mkNode "parameters" (Some "parameters") (1, 11)%nat (1, 30)%nat
       [leaf "(" None (1, 11)%nat (1, 12)%nat;
        leaf "identifier" None (1, 12)%nat (1, 16)%nat;
        leaf "," None (1, 16)%nat (1, 17)%nat;
        leaf "identifier" None (1, 18)%nat (1, 22)%nat;
        leaf "," None (1, 22)%nat (1, 23)%nat;
        leaf "identifier" None (1, 24)%nat (1, 29)%nat;
        leaf ")" None (1, 29)%nat (1, 30)%nat];
     leaf ":" None (1, 30)%nat (1, 31)%nat;
     mkNode "block" (Some "body") (2, 8)%nat (3, 24)%nat
       [mkNode "expression_statement" None (2, 8)%nat (2, 28)%nat
          [mkNode "assignment" None (2, 8)%nat (2, 28)%nat
             [leaf "identifier" (Some "left") (2, 8)%nat (2, 13)%nat;
              leaf "=" None (2, 14)%nat (2, 15)%nat;
              mkNode "binary_operator" (Some "right") (2, 16)%nat (2, 28)%nat
                [leaf "identifier" (Some "left") (2, 16)%nat (2, 20)%nat;
                 leaf "+" (Some "operator") (2, 21)%nat (2, 22)%nat;
                 leaf "identifier" (Some "right") (2, 23)%nat (2, 28)%nat]]];
        mkNode "return_statement" None (3, 8)%nat (3, 24)%nat
          [leaf "return" None (3, 8)%nat (3, 14)%nat;
           mkNode "binary_operator" None (3, 15)%nat (3, 24)%nat
             [leaf "identifier" (Some "left") (3, 15)%nat (3, 20)%nat;
              leaf "*" (Some "operator") (3, 21)%nat (3, 22)%nat;
              leaf "integer" (Some "right") (3, 23)%nat (3, 24)%nat]]]].

Definition class_tree : Node :=
  mkNode "module" None (0, 0)%nat (4, 0)%nat
    [mkNode "class_definition" None (0, 0)%nat (3, 24)%nat
       [leaf "class" None (0, 0)%nat (0, 5)%nat;
        leaf "identifier" (Some "name") (0, 6)%nat (0, 9)%nat;
        leaf ":" None (0, 9)%nat (0, 10)%nat;
        mkNode "block" (Some "body") (1, 4)%nat (3, 24)%nat [method_node]]].

(** The same class on a tree that would hang the method directly under
    the [class_definition] node. *)
Definition flat_class_tree : Node :=
  mkNode "module" None (0, 0)%nat (4, 0)%nat
    [mkNode "class_definition" None (0, 0)%nat (3, 24)%nat
       [leaf "class" None (0, 0)%nat (0, 5)%nat;
        leaf "identifier" (Some "name") (0, 6)%nat (0, 9)%nat;
        leaf ":" None (0, 9)%nat (0, 10)%nat;
        method_node]].

(** A chunker with the default configuration whose Python parser returns
    [class_tree]. *)
Definition class_chunker : TreeSitterChunker :=
  {| config := default_config;
     parsers := {[ "python" := fun _ : string => class_tree ]} |}.

(** What identifies a chunk to a reader: type, name and enclosing class. *)
Definition chunk_summary (c : CodeChunk)
  : string * option string * option string :=
  (chunk_type c, name c, parent_context c).

Definition summaries (r : result (list CodeChunk))
  : result (list (string * option string * option string)) :=
  let! chunks := r in Ok (map chunk_summary chunks).

(** A Python file with an import at the top and one inside a function,

      import os
      def f():
          import sys

    and its syntax tree. *)
Definition import_code : string :=
  "import os" +:+ nl +:+
  "def f():" +:+ nl +:+
  "    import sys" +:+ nl.

Definition import_tree : Node :=
  mkNode "module" None (0, 0)%nat (3, 0)%nat
    [mkNode "import_statement" None (0, 0)%nat (0, 9)%nat
       [leaf "import" None (0, 0)%nat (0, 6)%nat;
        mkNode "dotted_name" (Some "name") (0, 7)%nat (0, 9)%nat
          [leaf "identifier" None (0, 7)%nat (0, 9)%nat]];
     mkNode "function_definition" None (1, 0)%nat (2, 14)%nat
       [leaf "def" None (1, 0)%nat (1, 3)%nat;
        leaf "identifier" (Some "name") (1, 4)%nat (1, 5)%nat;
        mkNode "parameters" (Some "parameters") (1, 5)%nat (1, 7)%nat
          [leaf "(" None (1, 5)%nat (1, 6)%nat;
           leaf ")" None (1, 6)%nat (1, 7)%nat];
        leaf ":" None (1, 7)%nat (1, 8)%nat;
        mkNode "block" (Some "body") (2, 4)%nat (2, 14)%nat
          [mkNode "import_statement" None (2, 4)%nat (2, 14)%nat
             [leaf "import" None (2, 4)%nat (2, 10)%nat;
              mkNode "dotted_name" (Some "name") (2, 11)%nat (2, 14)%nat
                [leaf "identifier" None (2, 11)%nat (2, 14)%nat]]]]].

(** A chunker that keeps short chunks and whose Python parser returns
    [import_tree]. *)
Definition import_chunker : TreeSitterChunker :=
  {| config := {|
       chunk_by_functions := true;
       chunk_by_classes := true;
       chunk_by_methods := true;
       include_docstrings := true;
       min_chunk_size := 1;
       max_chunk_size := 2000;
       overlap_size := 200;
       include_imports := true;
     |};
     parsers := {[ "python" := fun _ : string => import_tree ]} |}.

(** A node that the code's own table takes for an import, and the chunk
    emitted for one. *)
Definition is_import (language : string) (node : Node) : bool :=
  bool_decide (type node ∈ import_types language).

(** The import nodes as the statement of C8 names them, written out and
    not read from the code's table: [import_statement] and
    [import_from_statement] in Python, [import_statement] in JavaScript,
    [import_declaration] in Java, nothing in any other language. *)
Definition listed_import (language type : string) : bool :=
  (String.eqb language "python"
   && (String.eqb type "import_statement"
       || String.eqb type "import_from_statement"))
  || (String.eqb language "javascript" && String.eqb type "import_statement")
  || (String.eqb language "java" && String.eqb type "import_declaration").

(** The import statements of the grammars: the listed ones, the
    [from __future__ import ..] of Python, which the Python grammar makes
    a node type of its own, and the [import_statement] of TypeScript. *)
Definition grammar_import (language type : string) : bool :=
  listed_import language type
  || (String.eqb language "python"
      && String.eqb type "future_import_statement")
  || (String.eqb language "typescript" && String.eqb type "import_statement").

(** A Python file that is one import from [__future__],

      from __future__ import annotations

    its syntax tree, and a chunker that keeps short chunks and whose
    Python parser returns that tree. *)
Definition future_code : string := "from __future__ import annotations".

Definition future_tree : Node :=
  mkNode "module" None (0, 0)%nat (0, 34)%nat
    [mkNode "future_import_statement" None (0, 0)%nat (0, 34)%nat
       [leaf "from" None (0, 0)%nat (0, 4)%nat;
        leaf "__future__" None (0, 5)%nat (0, 15)%nat;
        leaf "import" None (0, 16)%nat (0, 22)%nat;
        mkNode "dotted_name" (Some "name") (0, 23)%nat (0, 34)%nat
          [leaf "identifier" None (0, 23)%nat (0, 34)%nat]]].

Definition future_chunker : TreeSitterChunker :=
  {| config := config import_chunker;
     parsers := {[ "python" := fun _ : string => future_tree ]} |}.

Definition import_chunk {env : Env} (code_lines : list string)
    (file_path language : string) (node : Node) : CodeChunk :=
  new_CodeChunk (_get_node_content node code_lines) "import" language
    file_path (Z.of_nat (start_point node).1) (Z.of_nat (end_point node).1)
    None None None None.

(** [after] is [before] with chunks that satisfy [P] appended. *)
Definition grows (P : CodeChunk -> Prop) (before after : list CodeChunk)
  : Prop :=
  exists added, after = before ++ added /\ Forall P added.

(** The chunk types the tree traversals emit. *)
Definition structural (c : CodeChunk) : Prop :=
  chunk_type c ∈ ["class"; "function"; "method"].

(** A tree shaped as the Python grammar shapes it in this respect: no
    [function_definition] node lies directly under a [class_definition]
    node (the methods lie under the class's [body] block). *)
Fixpoint grammar_shaped (node : Node) : Prop :=
  match node with
  | mkNode t _ _ _ node_children =>
      (t = "class_definition" ->
       Forall (fun child => type child <> "function_definition") node_children) /\
      (fix all_shaped (cs : list Node) : Prop :=
         match cs with
         | [] => True
         | child :: cs' => grammar_shaped child /\ all_shaped cs'
         end) node_children
  end.

(** ** Vocabulary of the statements about the vector store *)

#[global] Instance value_eq_dec : EqDecision value.
Proof. solve_decision. Defined.

(** The first row of each list of a query result: the answer to the one
    query text [search] sends. *)
Definition first_rows (r : QueryResult)
  : option (list string * list float * list string * list Metadata) :=
  match ids r, distances r, documents r, metadatas r with
  | found :: _, ds :: _, docs :: _, metas :: _ => Some (found, ds, docs, metas)
  | _, _, _, _ => None
  end.

(** Rows that hold one distance, document and metadata dict per id. *)
Definition aligned (found : list string) (ds : list float)
    (docs : list string) (metas : list Metadata) : Prop :=
  length ds = length found /\ length docs = length found /\
  length metas = length found.

(** The candidates of a query answer in the store's order, the one at
    0-based position [i - 1] with rank [i] and similarity [1 - distance]. *)
Fixpoint candidates_from (i : Z) (found : list string) (ds : list float)
    (docs : list string) (metas : list Metadata) : list SearchHit :=
  match found, ds, docs, metas with
  | id :: found', d :: ds', doc :: docs', meta :: metas' =>
      {| hit_chunk_id := id;
         hit_content := doc;
         hit_metadata := meta;
         similarity := (1 - d)%float;
         rank := i + 1 |}
      :: candidates_from (i + 1) found' ds' docs' metas'
  | _, _, _, _ => []
  end.

Definition passes (threshold : float) (hit : SearchHit) : bool :=
  (threshold <=? similarity hit)%float.

(** The store's reading of a [where] dict of plain values: every key
    listed holds the value listed. *)
Definition where_matches (filter_dict : option Metadata) (m : Metadata)
  : bool :=
  match filter_dict with
  | None => true
  | Some w => bool_decide (map_Forall (fun k v => m !! k = Some v) w)
  end.

(** What [search] relies on from [collection.query]: the answer has a row
    for the query text, with one distance, document and metadata dict per
    id, and every id in it is the id of a stored record that the filter
    lets through. *)
Record query_contract {store : Store} : Prop := {
  query_rows :
    forall collection texts n filter_dict r,
      collection_query collection texts n filter_dict = Ok r ->
      exists found ds docs metas,
        first_rows r = Some (found, ds, docs, metas) /\
        aligned found ds docs metas;
  query_sound :
    forall collection texts n filter_dict r found ds docs metas id,
      collection_query collection texts n filter_dict = Ok r ->
      first_rows r = Some (found, ds, docs, metas) ->
      id ∈ found ->
      exists record,
        record ∈ collection_get collection /\
        rec_id record = id /\
        where_matches filter_dict (rec_metadata record) = true;
}.
Global Arguments query_contract : clear implicits.

(** Batches of [n] items, the last one possibly smaller but not empty. *)
Definition batched {A} (n : Z) (batches : list (list A)) : Prop :=
  forall k batch,
    batches !! k = Some batch ->
    0 < len batch <= n /\ (S k < length batches -> len batch = n)%nat.

(** The store write for one batch: one call of [collection.add] with the
    ids, contents and metadata dicts of the batch. *)
Definition add_one {env : Env} {store : Store} (collection : Collection)
    (batch : list CodeChunk) : result Collection :=
  collection_add collection (map chunk_id batch) (map content batch)
    (map chunk_metadata batch).

(** The schema of an exported record: strings and integers under the
    keys [import_chunks] reads, the two optional names absent or strings. *)
Definition has_str (m : Metadata) (key : string) : Prop :=
  exists s, m !! key = Some (VStr s).
Definition has_int (m : Metadata) (key : string) : Prop :=
  exists i, m !! key = Some (VInt i).
Definition opt_str (m : Metadata) (key : string) : Prop :=
  m !! key = None \/ has_str m key.

Definition exported_schema (record : ChunkRecord) : Prop :=
  let m := rec_metadata record in
  has_str m "chunk_type" /\ has_str m "language" /\ has_str m "file_path" /\
  has_int m "start_line" /\ has_int m "end_line" /\
  opt_str m "name" /\ opt_str m "parent_context".

(** The record the store holds for a chunk that [add_chunks] wrote. *)
Definition record_of_chunk {env : Env} {store : Store} (chunk : CodeChunk)
  : ChunkRecord :=
  {| rec_id := chunk_id chunk;
     rec_content := content chunk;
     rec_metadata := chunk_metadata chunk |}.

(** A store to evaluate the definitions on: the records in the order they
    are ranked in, each with the distance it is reported at; a query
    returns the first [n] records the filter lets through and, like
    ChromaDB, raises [TypeError] when asked for no results or fewer. *)
Definition sample_query (collection : list (ChunkRecord * float))
    (texts : list string) (n : Z) (filter_dict : option Metadata)
  : result QueryResult :=
  if n <=? 0 then Raise TypeError
  else
    let rows :=
      take (Z.to_nat n)
        (List.filter
           (fun row => where_matches filter_dict (rec_metadata row.1))
           collection) in
    Ok {| ids := [map (fun row => rec_id row.1) rows];
          distances := [map snd rows];
          documents := [map (fun row => rec_content row.1) rows];
          metadatas := [map (fun row => rec_metadata row.1) rows] |}.

Fixpoint sample_rows (ids documents : list string) (metadatas : list Metadata)
  : list (ChunkRecord * float) :=
  match ids, documents, metadatas with
  | id :: ids', doc :: documents', meta :: metadatas' =>
      ({| rec_id := id; rec_content := doc; rec_metadata := meta |}, 0.5%float)
      :: sample_rows ids' documents' metadatas'
  | _, _, _ => []
  end.

(** [collection.add] as ChromaDB does it: a call that names an id twice
    raises [DuplicateIDError] and writes nothing; otherwise the records
    are written, except those whose id is stored already, which are left
    as they are. *)
Definition sample_add (collection : list (ChunkRecord * float))
    (ids documents : list string) (metadatas : list Metadata)
  : result (list (ChunkRecord * float)) :=
  if bool_decide (NoDup ids) then
    Ok (collection ++
        List.filter
          (fun row =>
             negb (bool_decide
                     (rec_id row.1 ∈ map (fun old => rec_id old.1) collection)))
          (sample_rows ids documents metadatas))
  else Raise DuplicateIDError.

Definition sample_store : Store := {|
  Collection := list (ChunkRecord * float);
  collection_add := sample_add;
  collection_query := sample_query;
  collection_get collection := map fst collection;
|}.

(** Three stored records A, B and C, reported at distances 0.1, 0.95 and
    0.4. *)
Definition sample_record (id language : string) : ChunkRecord :=
  {| rec_id := id;
     rec_content := "def " +:+ id +:+ "(): pass";
     rec_metadata :=
       list_to_map
         [("chunk_type", VStr "function"); ("language", VStr language);
          ("file_path", VStr "a.py"); ("start_line", VInt 0);
          ("end_line", VInt 0); ("name", VStr id);
          ("parent_context", VStr EmptyString)] |}.

Definition sample_collection : list (ChunkRecord * float) :=
  [(sample_record "A" "python", 0.1%float);
   (sample_record "B" "python", 0.95%float);
   (sample_record "C" "python", 0.4%float)].

(** The keys [add_chunks] writes itself. *)
Definition fixed_keys : list string :=
  ["chunk_type"; "language"; "file_path"; "start_line"; "end_line"; "name";
   "parent_context"].

(** The answer of the sample store for [sample_collection] without filter. *)
Definition sample_results : QueryResult := {|
  ids := [map (fun row => rec_id row.1) sample_collection];
  distances := [map snd sample_collection];
  documents := [map (fun row => rec_content row.1) sample_collection];
  metadatas := [map (fun row => rec_metadata row.1) sample_collection];
|}.

(** Five chunks to add in batches; their contents differ in length, so
    that the stand-in digest gives them five ids. *)
Definition sample_chunks {env : Env} : list CodeChunk :=
  map
    (fun i =>
       new_CodeChunk ("def f" +:+ str_of_int i +:+ "(): pass") "function"
         "python" "a.py" i i (Some ("f" +:+ str_of_int i)) None None None)
    [0; 10; 200; 3000; 40000].

(** ** More of the chunker: the parsers it loads *)

(** The grammars [_initialize_parsers] asks for, in the order it stores
    them. *)
Definition grammar_names : list string := ["python"; "javascript"; "java"].

Section InitializeParsers.
(** From outside: importing a grammar package and wrapping it,
    [Language(ts<name>.language())], and [Parser(lang)]; either may
    raise. *)
Context {Lang : Type}.
Variable load_language : string -> result Lang.
Variable make_parser : Lang -> result (string -> Node).

(** The loop over [self.languages.items()]: what is in [self.parsers]
    when it ends or is cut short by an exception. *)
Fixpoint parsers_loop (languages : list (string * Lang))
    (parsers : gmap string (string -> Node)) : gmap string (string -> Node) :=
  match languages with
  | [] => parsers
  | (lang_name, lang) :: rest =>
      match make_parser lang with
      | Ok parser => parsers_loop rest (<[lang_name := parser]> parsers)
      | Raise _ => parsers
      end
  end.

(** [_initialize_parsers]: [self.parsers] after the [try] block, whose
    [except] branch only prints. *)
Definition _initialize_parsers : gmap string (string -> Node) :=
  match
    for_each
      (fun languages lang_name =>
         let! lang := load_language lang_name in
         Ok (languages ++ [(lang_name, lang)]))
      grammar_names []
  with
  | Ok languages => parsers_loop languages ∅
  | Raise _ => ∅
  end.

(** [TreeSitterChunker.__init__] *)
Definition new_TreeSitterChunker (config : TreeSitterConfig)
  : TreeSitterChunker :=
  {| config := config; parsers := _initialize_parsers |}.

End InitializeParsers.

(** A node of type [function_definition] somewhere in the tree. *)
Fixpoint has_function_definition (node : Node) : bool :=
  match node with
  | mkNode t _ _ _ node_children =>
      bool_decide (t = "function_definition")
      || existsb has_function_definition node_children
  end.

(** The chunk types the code gives out. *)
Definition chunk_types : list string :=
  ["import"; "class"; "function"; "method"; "text_block"].

(** What every chunk that [chunk_file] builds has: the language and path
    it was built for, the id generated from its own fields, one of the
    five chunk types, a start line that is not negative, and no metadata
    but the [has_docstring] flag of functions and methods. *)
Definition produced {env : Env} (lang path : string) (c : CodeChunk) : Prop :=
  language c = lang /\
  file_path c = path /\
  chunk_id c
  = _generate_id (language c) (chunk_type c) (file_path c) (start_line c)
      (content c) /\
  chunk_type c ∈ chunk_types /\
  0 <= start_line c /\
  (metadata c = ∅ \/ exists b, metadata c = {[ "has_docstring" := VBool b ]}).

(** The chunk types the extraction of each language can give out. *)
Definition language_kinds (lang : string) : list string :=
  if bool_decide (lang = "python") then
    ["import"; "class"; "function"; "method"]
  else if bool_decide (lang = "javascript") then ["import"; "function"; "class"]
  else if bool_decide (lang = "typescript") then ["function"; "class"]
  else if bool_decide (lang = "java") then ["import"; "class"; "method"]
  else [].

(** What a chunk says about its parent: in Python a chunk is a [method]
    exactly when it has a non-empty parent class; elsewhere no chunk has
    a parent. *)
Definition parent_recorded (lang : string) (c : CodeChunk) : Prop :=
  if bool_decide (lang = "python") then
    chunk_type c = "method" <-> truthy (parent_context c) = true
  else parent_context c = None.

(** ** The indexing loop ([rag_pipeline.py]) *)

(** From outside, [pathlib]: the files under a root that match a pattern,
    [Path.rglob], and the components of a path, [Path.parts]. *)
Class FileTree : Type := {
  rglob : string -> string -> list string;
  parts : string -> list string;
}.

(** The counters of the statistics [index_codebase] returns; its time
    stamps are left out. *)
Record IndexStats : Type := {
  files_processed : Z;
  chunks_created : Z;
  errors : Z;
}.

Definition default_file_extensions : list string :=
  [".py"; ".js"; ".ts"; ".java"; ".cpp"; ".cc"; ".hpp"].

Definition default_exclude_dirs : list string :=
  ["node_modules"; "__pycache__"; ".git"; "venv"; "env"; "build"; "dist";
   ".pytest_cache"; ".vscode"; ".idea"].

Section Indexing.
Context {env : Env} {store : Store} {tree : FileTree}.
Variable chunker : TreeSitterChunker.

(** The files [index_codebase] goes through: those found for each
    extension in turn, without the ones that have an excluded directory
    among their parts. *)
Definition find_code_files (code_path : string)
    (file_extensions exclude_dirs : list string) : list string :=
  let code_files :=
    fold_left (fun code_files ext => code_files ++ rglob code_path ("*" +:+ ext))
      file_extensions [] in
  List.filter
    (fun f =>
       negb (existsb (fun excluded => bool_decide (excluded ∈ parts f))
               exclude_dirs))
    code_files.

(** One turn of the loop over the files: [try] to chunk the file, count
    it as an error on any exception. *)
Definition index_step (fs : Files) (st : list CodeChunk * IndexStats)
    (file_path : string) : list CodeChunk * IndexStats :=
  let '(all_chunks, stats) := st in
  match chunk_file chunker fs file_path None with
  | Ok chunks =>
      (all_chunks ++ chunks,
       {| files_processed := files_processed stats + 1;
          chunks_created := chunks_created stats + len chunks;
          errors := errors stats |})
  | Raise _ =>
      (all_chunks,
       {| files_processed := files_processed stats;
          chunks_created := chunks_created stats;
          errors := errors stats + 1 |})
  end.

Definition index_loop (fs : Files) (code_files : list string)
  : list CodeChunk * IndexStats :=
  fold_left (index_step fs) code_files
    ([], {| files_processed := 0; chunks_created := 0; errors := 0 |}).

(** [index_codebase]: the statistics it returns and the collection after
    the call. *)
Definition index_codebase (collection : Collection) (fs : Files)
    (code_path : string) (file_extensions exclude_dirs : option (list string))
  : result (IndexStats * Collection) :=
  let file_extensions := default default_file_extensions file_extensions in
  let exclude_dirs := default default_exclude_dirs exclude_dirs in
  let code_files := find_code_files code_path file_extensions exclude_dirs in
  let '(all_chunks, stats) := index_loop fs code_files in
  let! added := add_chunks collection all_chunks 100 in
  Ok (stats, added.1).

(** Statement vocabulary: whether a call raised, the files of a list
    that [chunk_file] fails on, and the chunks of the others, in order. *)
Definition raised {A} (r : result A) : bool :=
  match r with
  | Ok _ => false
  | Raise _ => true
  end.

Definition failed_files (fs : Files) (code_files : list string) : list string :=
  List.filter (fun f => raised (chunk_file chunker fs f None)) code_files.

Definition chunked (fs : Files) (code_files : list string) : list CodeChunk :=
  concat
    (map
       (fun f =>
          match chunk_file chunker fs f None with
          | Ok chunks => chunks
          | Raise _ => []
          end)
       code_files).

End Indexing.

(** ** The context of a prompt ([llm_interface.py]) *)

(** [str(v)] and the truth value of a metadata value. *)
Definition py_str (v : value) : string :=
  match v with
  | VStr s => s
  | VInt i => str_of_int i
  | VBool true => "True"
  | VBool false => "False"
  end.

Definition value_truthy (v : value) : bool :=
  match v with
  | VStr s => truthy (Some s)
  | VInt i => negb (i =? 0)
  | VBool b => b
  end.

(** [metadata[key]] with nothing assumed about the value's type. *)
Definition getkey (metadata : Metadata) (key : string) : result value :=
  match metadata !! key with
  | Some v => Ok v
  | None => Raise KeyError
  end.

Section BuildContext.
(** From outside: the format [:.3f] of a float. *)
Variable format_3f : float -> string.

(** The text [_build_context] writes for the chunk at 1-based position
    [i]. *)
Definition chunk_text (i : Z) (chunk : SearchHit) : result string :=
  let metadata := hit_metadata chunk in
  let! file_path := getkey metadata "file_path" in
  let! chunk_type := getkey metadata "chunk_type" in
  let! start_line := getkey metadata "start_line" in
  let! end_line := getkey metadata "end_line" in
  let! name_line :=
    match metadata !! "name" with
    | Some v =>
        if value_truthy v then
          let! name := getkey metadata "name" in Ok ("Name: " +:+ py_str name)
        else Ok EmptyString
    | None => Ok EmptyString
    end in
  let! language := getkey metadata "language" in
  Ok (nl +:+ "### Chunk " +:+ str_of_int i +:+ " (Similarity: "
      +:+ format_3f (similarity chunk) +:+ ")" +:+ nl
      +:+ "File: " +:+ py_str file_path +:+ nl
      +:+ "Type: " +:+ py_str chunk_type +:+ nl
      +:+ "Lines: " +:+ py_str start_line +:+ "-" +:+ py_str end_line +:+ nl
      +:+ name_line +:+ nl
      +:+ nl
      +:+ "```" +:+ py_str language +:+ nl
      +:+ hit_content chunk +:+ nl
      +:+ "```" +:+ nl).

(** The loop of [_build_context], which ends at the first chunk that
    does not fit. *)
Fixpoint context_loop (items : list (Z * SearchHit)) (max_chars : Z)
    (context_parts : list string) (current_chars : Z)
  : result (list string) :=
  match items with
  | [] => Ok context_parts
  | (i, chunk) :: rest =>
      let! text := chunk_text i chunk in
      if max_chars <? current_chars + str_len text then Ok context_parts
      else
        context_loop rest max_chars (context_parts ++ [text])
          (current_chars + str_len text)
  end.

(** [_build_context] *)
Definition _build_context (chunks : list SearchHit) (max_chars : Z)
  : result string :=
  let! context_parts := context_loop (enumerate_from 1 chunks) max_chars [] 0 in
  Ok (join nl context_parts).

End BuildContext.

(** ** Statistics ([vector_store.py]) *)

(** Equality of two metadata values as dict keys: [True] and [1], and
    [False] and [0], are the same key. *)
Definition key_eqb (a b : value) : bool :=
  match a, b with
  | VStr s, VStr t => bool_decide (s = t)
  | VInt i, VInt j => i =? j
  | VBool x, VBool y => bool_decide (x = y)
  | VInt i, VBool x | VBool x, VInt i => i =? (if x then 1 else 0)
  | _, _ => false
  end.

(** A dict of counts, in insertion order: [d.get(k, default)] and
    [d[k] = n]. *)
Fixpoint count_get (d : list (value * Z)) (k : value) (default : Z) : Z :=
  match d with
  | [] => default
  | (k', n) :: d' => if key_eqb k' k then n else count_get d' k default
  end.

Fixpoint count_set (d : list (value * Z)) (k : value) (n : Z)
  : list (value * Z) :=
  match d with
  | [] => [(k, n)]
  | (k', n') :: d' =>
      if key_eqb k' k then (k', n) :: d' else (k', n') :: count_set d' k n
  end.

(** The histogram loop of [get_statistics] for one key. *)
Definition histogram (key : string) (metadatas : list Metadata)
  : list (value * Z) :=
  fold_left
    (fun counts metadata =>
       let v := default (VStr "unknown") (metadata !! key) in
       count_set counts v (count_get counts v 0 + 1))
    metadatas [].

(** What [get_statistics] returns. *)
Record Statistics : Type := {
  total_chunks : Z;
  stat_collection_name : string;
  stat_embedding_model : string;
  stat_chunk_types : option (list (value * Z));
  stat_languages : option (list (value * Z));
}.

(** [get_statistics], from what the store gives it: [collection.count()]
    and the metadatas of [collection.get(limit=100)]. *)
Definition get_statistics (collection_name embedding_model : string)
    (count : Z) (sample_metadatas : list Metadata) : Statistics :=
  match sample_metadatas with
  | [] =>
      {| total_chunks := count;
         stat_collection_name := collection_name;
         stat_embedding_model := embedding_model;
         stat_chunk_types := None;
         stat_languages := None |}
  | _ :: _ =>
      {| total_chunks := count;
         stat_collection_name := collection_name;
         stat_embedding_model := embedding_model;
         stat_chunk_types := Some (histogram "chunk_type" sample_metadatas);
         stat_languages := Some (histogram "language" sample_metadatas) |}
  end.

(** Statement vocabulary: a dict of counts has no key twice, and it
    tallies the values of [key] in a list of metadatas. *)
Fixpoint distinct_keys (d : list (value * Z)) : Prop :=
  match d with
  | [] => True
  | (k, _) :: d' =>
      Forall (fun entry => key_eqb k entry.1 = false) d' /\ distinct_keys d'
  end.

Definition tallies (key : string) (metadatas : list Metadata)
    (counts : list (value * Z)) : Prop :=
  (forall v,
     count_get counts v 0
     = len (List.filter
              (fun metadata =>
                 key_eqb (default (VStr "unknown") (metadata !! key)) v)
              metadatas)) /\
  foldr (fun entry total => entry.2 + total) 0 counts = len metadatas /\
  Forall (fun entry => 0 < entry.2) counts /\
  distinct_keys counts.

(** ** Filtered searches ([vector_store.py]) *)

Section FilteredSearch.
Context {env : Env} {store : Store}.
Variables (config : ChromaDBConfig.t) (collection : Collection).

Definition search_by_file (file_path query : string) (top_k : Z)
  : result (list SearchHit) :=
  search config collection query (Some top_k)
    (Some {[ "file_path" := VStr file_path ]}) None.

Definition search_by_language (language query : string) (top_k : Z)
  : result (list SearchHit) :=
  search config collection query (Some top_k)
    (Some {[ "language" := VStr language ]}) None.

Definition search_functions (query : string) (top_k : Z)
  : result (list SearchHit) :=
  search config collection query (Some top_k)
    (Some {[ "chunk_type" := VStr "function" ]}) None.

Definition search_classes (query : string) (top_k : Z)
  : result (list SearchHit) :=
  search config collection query (Some top_k)
    (Some {[ "chunk_type" := VStr "class" ]}) None.

End FilteredSearch.

(** ** The searches of the pipeline ([rag_pipeline.py]) *)

Section PipelineSearch.
Context {env : Env} {store : Store}.
Variables (config : ChromaDBConfig.t) (collection : Collection).

(** [{key: value} if value else None] *)
Definition filter_if_given (key : string) (given : option string)
  : option Metadata :=
  if truthy given then Some {[ key := VStr (default EmptyString given) ]}
  else None.

(** Step 1 of [query]: the chunks it retrieves. [search] gets [top_k]
    and [filter_dict] only when the arguments are truthy. *)
Definition query_retrieved_chunks (question : string) (top_k : option Z)
    (language_filter : option string) : result (list SearchHit) :=
  search config collection question
    (match top_k with
     | Some k => if k =? 0 then None else Some k
     | None => None
     end)
    (filter_if_given "language" language_filter) None.

(** [find_similar_code] *)
Definition find_similar_code (code_snippet : string) (top_k : Z)
    (language : option string) : result (list SearchHit) :=
  search config collection code_snippet (Some top_k)
    (filter_if_given "language" language) None.

(** [search_by_functionality] *)
Definition search_by_functionality (description : string)
    (chunk_type : option string) (top_k : Z) : result (list SearchHit) :=
  search config collection description (Some top_k)
    (filter_if_given "chunk_type" chunk_type) None.

End PipelineSearch.

(** ** Sample inputs for the parts above *)

(** A JavaScript file of one line of 50 characters,

      function add(left, right) { return left + right; }

    and its syntax tree: the keyword [function] is the first child of
    the declaration, a node whose type is the keyword itself. *)
Definition js_function_code : string :=
  "function add(left, right) { return left + right; }".

Definition js_function_tree : Node :=
  mkNode "program" None (0, 0)%nat (0, 50)%nat
    [mkNode "function_declaration" None (0, 0)%nat (0, 50)%nat
       [leaf "function" None (0, 0)%nat (0, 8)%nat;
        leaf "identifier" (Some "name") (0, 9)%nat (0, 12)%nat;
        mkNode "formal_parameters" (Some "parameters") (0, 12)%nat (0, 25)%nat
          [leaf "(" None (0, 12)%nat (0, 13)%nat;
           leaf "identifier" None (0, 13)%nat (0, 17)%nat;
           leaf "," None (0, 17)%nat (0, 18)%nat;
           leaf "identifier" None (0, 19)%nat (0, 24)%nat;
           leaf ")" None (0, 24)%nat (0, 25)%nat];
        mkNode "statement_block" (Some "body") (0, 26)%nat (0, 50)%nat
          [leaf "{" None (0, 26)%nat (0, 27)%nat;
           mkNode "return_statement" None (0, 28)%nat (0, 48)%nat
             [leaf "return" None (0, 28)%nat (0, 34)%nat;
              mkNode "binary_expression" None (0, 35)%nat (0, 47)%nat
                [leaf "identifier" (Some "left") (0, 35)%nat (0, 39)%nat;
                 leaf "+" (Some "operator") (0, 40)%nat (0, 41)%nat;
                 leaf "identifier" (Some "right") (0, 42)%nat (0, 47)%nat];
              leaf ";" None (0, 47)%nat (0, 48)%nat];
           leaf "}" None (0, 49)%nat (0, 50)%nat]]].

(** A chunker with the default configuration whose JavaScript parser
    returns that tree, and a file tree that holds the file. *)
Definition js_chunker : TreeSitterChunker :=
  {| config := default_config;
     parsers := {[ "javascript" := fun _ : string => js_function_tree ]} |}.

Definition js_file_tree : FileTree := {|
  rglob root pattern :=
    if bool_decide (pattern = "*.js") then ["repo/a.js"] else [];
  parts path := ["repo"; "a.js"];
|}.

(** A chunker without docstring handling whose Python parser returns
    [class_tree]. *)
Definition plain_docstring_chunker : TreeSitterChunker :=
  {| config := {|
       chunk_by_functions := true;
       chunk_by_classes := true;
       chunk_by_methods := true;
       include_docstrings := false;
       min_chunk_size := 50;
       max_chunk_size := 2000;
       overlap_size := 200;
       include_imports := true;
     |};
     parsers := {[ "python" := fun _ : string => class_tree ]} |}.

(** A file tree with three files, one of them under [node_modules]. *)
Definition sample_tree : FileTree := {|
  rglob root pattern :=
    if bool_decide (pattern = "*.py") then ["repo/b.py"; "repo/missing.py"]
    else if bool_decide (pattern = "*.js") then ["repo/node_modules/x.js"]
    else [];
  parts path :=
    if bool_decide (path = "repo/node_modules/x.js") then
      ["repo"; "node_modules"; "x.js"]
    else if bool_decide (path = "repo/b.py") then ["repo"; "b.py"]
    else ["repo"; "missing.py"];
|}.

(** Grammar loading that succeeds, with parsers that return
    [class_tree]. *)
Definition sample_load_language (lang_name : string) : result string :=
  Ok lang_name.
Definition sample_make_parser (lang : string) : result (string -> Node) :=
  Ok (fun _ : string => class_tree).

(** A stand-in for the format [:.3f]. *)
Definition sample_format_3f (x : float) : string := "0.900".

(** Two hits as [search] returns them. *)
Definition sample_hit (id : string) (rank : Z) : SearchHit :=
  {| hit_chunk_id := id;
     hit_content := "def " +:+ id +:+ "(): pass";
     hit_metadata := rec_metadata (sample_record id "python");
     similarity := 0.9%float;
     rank := rank |}.

(** The keys [import_chunks] reads with [metadata[key]]. *)
Definition required_keys : list string :=
  ["chunk_type"; "language"; "file_path"; "start_line"; "end_line"].

(** A record without one metadata key. *)
Definition without_key (key : string) (record : ChunkRecord) : ChunkRecord :=
  {| rec_id := rec_id record;
     rec_content := rec_content record;
     rec_metadata := delete key (rec_metadata record) |}.

(** ** Strings and lines *)

Lemma str_app_nil_l (s : string) : EmptyString +:+ s = s.
Proof. reflexivity. Qed.

Lemma str_app_cons (c : ascii) (s t : string) :
  String c s +:+ t = String c (s +:+ t).
Proof. reflexivity. Qed.

Lemma str_app_nil_r (s : string) : s +:+ EmptyString = s.
Proof.
  induction s as [|c s IH]; [done|]. by rewrite str_app_cons, IH.
Qed.

Lemma str_app_assoc (a b c : string) : (a +:+ b) +:+ c = a +:+ b +:+ c.
Proof.
  induction a as [|x a IH]; [done|]. by rewrite !str_app_cons, IH.
Qed.

Lemma str_len_cons (c : ascii) (s : string) :
  str_len (String c s) = 1 + str_len s.
Proof. unfold str_len. simpl String.length. lia. Qed.

Lemma str_len_app (a b : string) : str_len (a +:+ b) = str_len a + str_len b.
Proof.
  induction a as [|x a IH]; [done|].
  rewrite str_app_cons, !str_len_cons, IH. lia.
Qed.

Lemma split_nl_nonempty (s : string) : split_nl s <> [].
Proof.
  induction s as [|c s IH]; simpl; [done|].
  destruct (Ascii.eqb c LF); [done|]. by destruct (split_nl s).
Qed.

Lemma join_cons (sep x : string) (l : list string) :
  l <> [] -> join sep (x :: l) = x +:+ sep +:+ join sep l.
Proof. by destruct l. Qed.

Lemma join_cons_char (sep : string) (c : ascii) (h : string) (t : list string) :
  join sep (String c h :: t) = String c (join sep (h :: t)).
Proof. by destruct t. Qed.

(** Splitting at line feeds and joining with line feeds gives the text back. *)
Lemma join_split_nl (s : string) : join nl (split_nl s) = s.
Proof.
  induction s as [|c s IH]; simpl; [done|].
  destruct (Ascii.eqb_spec c LF) as [->|Hc].
  - rewrite join_cons by apply split_nl_nonempty. by rewrite IH.
  - pose proof (split_nl_nonempty s) as Hne.
    destruct (split_nl s) as [|h t]; [done|].
    by rewrite join_cons_char, IH.
Qed.

Lemma join_app (sep : string) (l1 l2 : list string) :
  l1 <> [] -> l2 <> [] ->
  join sep (l1 ++ l2) = join sep l1 +:+ sep +:+ join sep l2.
Proof.
  intros H1 H2. induction l1 as [|x l1 IH]; [done|].
  destruct l1 as [|y l1].
  - simpl app. by rewrite join_cons.
  - change ((x :: y :: l1) ++ l2) with (x :: ((y :: l1) ++ l2)).
    rewrite join_cons by done. rewrite IH by done.
    rewrite (join_cons sep x (y :: l1)) by done.
    by rewrite !str_app_assoc.
Qed.

(** Joining the joined groups is joining all their lines. *)
Lemma join_concat (sep : string) (gs : list (list string)) :
  Forall (fun g => g <> []) gs ->
  join sep (map (join sep) gs) = join sep (concat gs).
Proof.
  induction 1 as [|g gs Hg Hgs IH]; [done|].
  destruct gs as [|g' gs].
  - simpl. by rewrite app_nil_r.
  - change (map (join sep) (g :: g' :: gs))
      with (join sep g :: map (join sep) (g' :: gs)).
    rewrite join_cons by done. rewrite IH.
    change (concat (g :: g' :: gs)) with (g ++ concat (g' :: gs)).
    rewrite join_app; [done | done |].
    inversion Hgs; subst. simpl. by destruct g'.
Qed.

Lemma split_nl_no_newline (s : string) : no_newline s -> split_nl s = [s].
Proof.
  induction s as [|c s IH]; simpl; [done|]. intros [Hc Hs].
  destruct (Ascii.eqb_spec c LF); [done|]. by rewrite IH.
Qed.

Lemma split_nl_line (l rest : string) :
  no_newline l -> split_nl (l +:+ nl +:+ rest) = l :: split_nl rest.
Proof.
  induction l as [|c l IH].
  - intros _. by rewrite str_app_nil_l.
  - intros [Hc Hl]. rewrite str_app_cons. simpl.
    destruct (Ascii.eqb_spec c LF); [done|]. by rewrite IH.
Qed.

Lemma total_len_app (l1 l2 : list string) :
  total_len (l1 ++ l2) = total_len l1 + total_len l2.
Proof. induction l1 as [|x l1 IH]; simpl; lia. Qed.

Lemma total_len_nonneg (l : list string) : 0 <= total_len l.
Proof. induction l as [|x l IH]; simpl; unfold str_len in *; lia. Qed.

Lemma len_app {A} (l1 l2 : list A) : len (l1 ++ l2) = len l1 + len l2.
Proof. unfold len. rewrite length_app. lia. Qed.

Lemma slice_middle {A} (l1 g l2 : list A) :
  slice (l1 ++ g ++ l2) (len l1) (len l1 + len g) = g.
Proof.
  unfold slice, slice_index. rewrite !len_app. unfold len.
  rewrite !(proj2 (Z.ltb_ge _ _)) by lia.
  rewrite !Z.min_l by lia.
  replace (Z.to_nat (Z.of_nat (length l1) + Z.of_nat (length g)
                        - Z.of_nat (length l1))) with (length g) by lia.
  rewrite Nat2Z.id, drop_app_length. by rewrite take_app_length.
Qed.

(** ** The fallback chunker *)

Section FallbackProofs.
Context {env : Env}.
Variable self : TreeSitterChunker.
Variables (file_path language : string).

Local Abbreviation max_size := (max_chunk_size (config self)).
Local Abbreviation groups := (chunks_of_groups file_path language).
Local Abbreviation fallback_inv := (fallback_inv max_size file_path language).

Lemma chunks_of_groups_app (start : Z) (gs : list (list string))
    (g : list string) :
  groups start (gs ++ [g])
  = groups start gs ++ [text_block file_path language (start + len (concat gs)) g].
Proof.
  revert start. induction gs as [|g' gs IH]; intros start; simpl.
  - by rewrite Z.add_0_r.
  - by rewrite IH, len_app, Z.add_assoc.
Qed.

Lemma fallback_step_inv (pre : list string) (st : fallback_state)
    (gs : list (list string)) (line : string) :
  fallback_inv pre st gs ->
  exists gs',
    fallback_inv (pre ++ [line])
      (fallback_step self file_path language st (len pre, line)) gs'.
Proof.
  intros [Hc Hne Hl Hs Hf Hb]. unfold fallback_step.
  destruct (Z.leb_spec max_size (current_size st + str_len line)) as [Hge|Hlt].
  - exists (gs ++ [current_chunk st ++ [line]]). split; simpl.
    + rewrite chunks_of_groups_app, Hc. do 2 f_equal.
      unfold text_block. f_equal; rewrite <- Hl, !len_app; unfold len; simpl; lia.
    + apply Forall_app. split; [done|]. constructor; [|done].
      by destruct (current_chunk st).
    + rewrite concat_app. simpl. rewrite !app_nil_r, <- Hl.
      by rewrite app_assoc.
    + done.
    + apply Forall_app. split; [done|]. constructor; [|done]. split.
      * rewrite total_len_app. simpl. lia.
      * rewrite removelast_last. destruct Hb; [by left | by right].
    + by left.
  - exists gs. split; simpl; try done.
    + by rewrite <- Hl, app_assoc.
    + rewrite total_len_app. simpl. lia.
    + right. rewrite total_len_app. simpl. lia.
Qed.

Lemma fallback_loop_inv (ls pre : list string) (st : fallback_state)
    (gs : list (list string)) :
  fallback_inv pre st gs ->
  exists gs',
    fallback_inv (pre ++ ls)
      (fold_left (fallback_step self file_path language)
         (enumerate_from (len pre) ls) st) gs'.
Proof.
  revert pre st gs. induction ls as [|line ls IH]; intros pre st gs Hinv.
  - exists gs. by rewrite app_nil_r.
  - simpl. destruct (fallback_step_inv pre st gs line Hinv) as [gs1 H1].
    replace (len pre + 1) with (len (pre ++ [line]))
      by (rewrite len_app; unfold len; simpl; lia).
    destruct (IH _ _ _ H1) as [gs2 H2]. exists gs2.
    by rewrite <- app_assoc in H2.
Qed.

Lemma windowed_flushed (gs : list (list string)) :
  Forall (flushed max_size) gs -> windowed max_size gs.
Proof.
  induction 1 as [|g gs Hg Hgs IH]; [done|].
  destruct gs; simpl; [by left | done].
Qed.

Lemma windowed_snoc (gs : list (list string)) (g : list string) :
  Forall (flushed max_size) gs -> remainder max_size g ->
  windowed max_size (gs ++ [g]).
Proof.
  intros Hgs Hg. induction Hgs as [|g' gs Hg' Hgs IH]; simpl; [by right|].
  destruct gs; simpl in *; done.
Qed.

(** The chunks the fallback chunker returns are the chunks of a split of
    the file's lines into non-empty consecutive groups, each flushed on
    reaching [max_chunk_size] except for a remainder at the end. *)
Lemma fallback_groups (fs : Files) (text : string) :
  fs !! file_path = Some text ->
  exists gs,
    _fallback_chunking self fs file_path language = Ok (groups 0 gs) /\
    Forall (fun g => g <> []) gs /\
    concat gs = split_nl text /\
    windowed max_size gs.
Proof.
  intros Hfile. unfold _fallback_chunking, read_file. rewrite Hfile. simpl.
  destruct (fallback_loop_inv (split_nl text) [] 
              {| fb_chunks := []; current_chunk := []; current_size := 0 |} [])
    as [gs [Hc Hne Hl Hs Hf Hb]].
  { split; simpl; try done. by left. }
  simpl in Hl. unfold enumerate.
  change (len []) with 0 in Hc, Hne, Hl, Hs, Hf, Hb |- *.
  set (st := fold_left _ _ _) in *.
  destruct (current_chunk st) as [|l cur] eqn:Hcur.
  - exists gs. rewrite app_nil_r in Hl. split_and!; try done.
    + by rewrite Hc.
    + by apply windowed_flushed.
  - exists (gs ++ [l :: cur]). split_and!.
    + rewrite chunks_of_groups_app, Hc. do 3 f_equal.
      unfold text_block. f_equal; rewrite <- Hl, !len_app; lia.
    + apply Forall_app. split; [done|]. by constructor.
    + rewrite concat_app. simpl. by rewrite app_nil_r.
    + apply windowed_snoc; [done|]. split; [done|].
      by destruct Hb.
Qed.

Lemma contiguous_groups (start : Z) (gs : list (list string)) :
  Forall (fun g => g <> []) gs ->
  contiguous start (groups start gs) (start + len (concat gs)).
Proof.
  intros Hne. revert start.
  induction Hne as [|g gs Hg Hgs IH]; intros start; simpl.
  - unfold len. simpl. lia.
  - split_and!; [done | |].
    + destruct g; [done|]. unfold len. simpl. lia.
    + replace (start + len g - 1 + 1) with (start + len g) by lia.
      replace (start + len (g ++ concat gs))
        with (start + len g + len (concat gs)) by (rewrite len_app; lia).
      apply IH.
Qed.

Lemma groups_content (gs : list (list string)) (start : Z) :
  map content (groups start gs) = map (join nl) gs.
Proof.
  revert start. induction gs as [|g gs IH]; intros start; simpl; [done|].
  by rewrite IH.
Qed.

Lemma groups_lines (pre : list string) (gs : list (list string)) :
  Forall
    (fun c =>
       chunk_type c = "text_block" /\
       content c
       = join nl (slice (pre ++ concat gs) (start_line c) (end_line c + 1)))
    (groups (len pre) gs).
Proof.
  revert pre. induction gs as [|g gs IH]; intros pre; simpl; [done|].
  constructor.
  - split; [done|]. simpl.
    replace (len pre + len g - 1 + 1) with (len pre + len g) by lia.
    by rewrite slice_middle.
  - specialize (IH (pre ++ g)). rewrite len_app, <- app_assoc in IH. exact IH.
Qed.

End FallbackProofs.

Lemma contiguous_later (chunks : list CodeChunk) (start stop : Z) (k : nat)
    (c : CodeChunk) :
  contiguous start chunks stop -> chunks !! k = Some c -> start <= start_line c.
Proof.
  revert start k. induction chunks as [|d cs IH]; intros start k Hc Hk; [done|].
  destruct Hc as (Hd & Hdle & Hrest). destruct k as [|k]; simpl in Hk.
  - injection Hk as <-. lia.
  - specialize (IH _ _ Hrest Hk). lia.
Qed.

(** Contiguous spans hold every line number of their range exactly once. *)
Lemma contiguous_covers_once (chunks : list CodeChunk) (start stop i : Z) :
  contiguous start chunks stop -> start <= i < stop ->
  exists k c,
    chunks !! k = Some c /\ start_line c <= i <= end_line c /\
    forall k' c',
      chunks !! k' = Some c' -> start_line c' <= i <= end_line c' -> k' = k.
Proof.
  revert start. induction chunks as [|c cs IH]; intros start Hc Hi; simpl in Hc.
  - lia.
  - destruct Hc as (Hs & Hle & Hrest).
    assert (Hlater : forall k' c', cs !! k' = Some c' -> end_line c < start_line c').
    { intros k' c' Hk. pose proof (contiguous_later _ _ _ _ _ Hrest Hk). lia. }
    destruct (Z_le_gt_dec i (end_line c)) as [Hin|Hout].
    + exists 0%nat, c. split; [done|]. split; [lia|].
      intros [|k'] c' Hk Hr; [done|]. simpl in Hk.
      specialize (Hlater _ _ Hk). lia.
    + destruct (IH _ Hrest ltac:(lia)) as (k & d & Hk & Hr & Huniq).
      exists (S k), d. split; [done|]. split; [done|].
      intros [|k'] c' Hk' Hr'.
      * simpl in Hk'. injection Hk' as <-. lia.
      * f_equal. by apply (Huniq k' c').
Qed.

(** ** Claims about the fallback chunker *)

(** C10. The [text_block] chunks of the fallback chunker have spans that
    start at line 0, follow one another without gap or overlap and end at
    the last line, so that every line number of the file lies in exactly
    one chunk; each chunk holds the lines of its span joined by line
    feeds, and the contents joined by single line feeds are the file text
    as read. *)
Theorem fallback_spans_tile_file {env : Env} (self : TreeSitterChunker)
    (fs : Files) (file_path language text : string) :
  fs !! file_path = Some text ->
  exists chunks,
    _fallback_chunking self fs file_path language = Ok chunks /\
    contiguous 0 chunks (len (split_nl text)) /\
    (forall i, 0 <= i < len (split_nl text) ->
       exists k c,
         chunks !! k = Some c /\ start_line c <= i <= end_line c /\
         forall k' c',
           chunks !! k' = Some c' -> start_line c' <= i <= end_line c' ->
           k' = k) /\
    Forall
      (fun c =>
         chunk_type c = "text_block" /\
         content c
         = join nl (slice (split_nl text) (start_line c) (end_line c + 1)))
      chunks /\
    join nl (map content chunks) = text.
Proof.
  intros Hfile.
  destruct (fallback_groups self file_path language fs text Hfile)
    as (gs & Hrun & Hne & Hlines & _).
  exists (chunks_of_groups file_path language 0 gs).
  assert (Hcont : contiguous 0 (chunks_of_groups file_path language 0 gs)
                    (len (split_nl text))).
  { rewrite <- Hlines.
    exact (contiguous_groups file_path language 0 gs Hne). }
  split; [done|]. split; [done|]. split.
  { intros i Hi. by apply (contiguous_covers_once _ 0 (len (split_nl text))). }
  split.
  - pose proof (groups_lines file_path language [] gs) as Hg.
    rewrite app_nil_l, Hlines in Hg. exact Hg.
  - by rewrite groups_content, join_concat, Hlines, join_split_nl.
Qed.





Section FallbackOnSamples.
#[local] Existing Instance sample_env.

Lemma fallback_spans_tile_file_witness :
  ({[ "notes.txt" := "ab" +:+ nl +:+ "cdef" +:+ nl +:+ "g" ]} : Files)
    !! "notes.txt" = Some ("ab" +:+ nl +:+ "cdef" +:+ nl +:+ "g") /\
  exists chunks,
    _fallback_chunking small_chunker
      {[ "notes.txt" := "ab" +:+ nl +:+ "cdef" +:+ nl +:+ "g" ]}
      "notes.txt" "unknown" = Ok chunks /\
    contiguous 0 chunks 3 /\
    join nl (map content chunks) = "ab" +:+ nl +:+ "cdef" +:+ nl +:+ "g".
Proof.
  assert (Hfile :
    ({[ "notes.txt" := "ab" +:+ nl +:+ "cdef" +:+ nl +:+ "g" ]} : Files)
      !! "notes.txt" = Some ("ab" +:+ nl +:+ "cdef" +:+ nl +:+ "g"))
    by reflexivity.
  split; [exact Hfile|].
  destruct (fallback_spans_tile_file small_chunker
              _ "notes.txt" "unknown" _ Hfile)
    as (chunks & Hrun & Hcont & _ & _ & Hjoin).
  exists chunks. split; [exact Hrun|]. split; [exact Hcont | exact Hjoin].
Defined.



End FallbackOnSamples.

(** ** Claims about chunk identity and the size bounds *)

Lemma str_take_length (n : nat) (s : string) :
  String.length (str_take n s) = Nat.min n (String.length s).
Proof.
  revert s. induction n as [|n IH]; intros [|c s]; simpl; try done.
  by rewrite IH.
Qed.

(** C3, as amended. The generated [chunk_id] is the language and the chunk
    type joined by underscores, followed by the first twelve characters of
    the digest of [file_path:start_line:content]; so two chunks with the
    same language, chunk type, file path, start line and content get the
    same id, whatever their other fields. *)
Theorem generated_id_is_prefix_and_digest {env : Env}
    (content chunk_type language file_path : string) (start_line : Z) :
  (forall end_line end_line' name name' parent_context parent_context'
          metadata metadata',
     chunk_id (new_CodeChunk content chunk_type language file_path start_line
                 end_line name parent_context metadata None)
     = chunk_id (new_CodeChunk content chunk_type language file_path
                   start_line end_line' name' parent_context' metadata' None)) /\
  (forall end_line name parent_context metadata,
     chunk_id (new_CodeChunk content chunk_type language file_path start_line
                 end_line name parent_context metadata None)
     = language +:+ "_" +:+ chunk_type +:+ "_" +:+
       str_take 12
         (md5_hexdigest
            (file_path +:+ ":" +:+ str_of_int start_line +:+ ":" +:+ content))) /\
  (forall digest,
     String.length (str_take 12 digest) = Nat.min 12 (String.length digest)).
Proof.
  split; [done|]. split; [done|]. intros digest. apply str_take_length.
Qed.

(** C3, the counterexample. The id does not depend on the file path, the
    start line and the content alone: the same three with another chunk
    type give another id, as for the class chunk and the function chunk of
    the one-line JavaScript file [class A {} function f() {}], which both
    hold that whole line. *)
Lemma generated_id_depends_on_chunk_type :
  ~ (forall (env : Env) content file_path start_line
            chunk_type language end_line name parent_context metadata
            chunk_type' language' end_line' name' parent_context' metadata',
       chunk_id (new_CodeChunk content chunk_type language file_path
                   start_line end_line name parent_context metadata None)
       = chunk_id (new_CodeChunk content chunk_type' language' file_path
                     start_line end_line' name' parent_context' metadata' None)).
Proof.
  intros H.
  specialize (H sample_env "class A {} function f() {}" "a.js" 0
                "class" "javascript" 0 (Some "A") None None
                "function" "javascript" 0 (Some "f") None None).
  vm_compute in H. discriminate H.
Qed.

(** On the syntax-tree path every returned chunk is within the size
    bounds: the result is what [_is_valid_chunk] lets through. *)
Lemma chunk_file_parsed_within_bounds {env : Env} (self : TreeSitterChunker)
    (fs : Files) (file_path : string) (language : option string)
    (parser : string -> Node) (chunks : list CodeChunk) :
  parsers self !! default (_detect_language file_path) language = Some parser ->
  chunk_file self fs file_path language = Ok chunks ->
  Forall
    (fun c =>
       min_chunk_size (config self) <= str_len (content c)
       <= max_chunk_size (config self))
    chunks.
Proof.
  intros Hparser. unfold chunk_file.
  replace (match language with
           | Some language0 => language0
           | None => _detect_language file_path
           end) with (default (_detect_language file_path) language)
    by by destruct language.
  rewrite Hparser. destruct (read_file fs file_path) as [code|]; [|done].
  simpl. intros Hrun.
  assert (exists found, chunks = List.filter (_is_valid_chunk self) found)
    as [found ->].
  { repeat match type of Hrun with
           | context [if ?b then _ else _] => destruct b
           | context [Py.bind ?m _] => destruct m; simpl in Hrun
           end;
      try discriminate; injection Hrun as <-; eauto. }
  apply Forall_forall. intros c Hc.
  apply list_elem_of_In, filter_In in Hc as [_ Hc].
  unfold _is_valid_chunk in Hc. apply andb_prop in Hc as [H1 H2]. lia.
Qed.

Section BoundsOnSamples.
#[local] Existing Instance sample_env.

(** C2, the failing input. A file in a language without a parser goes
    through the fallback chunker, whose chunks [chunk_file] returns as they
    are: a chunk shorter than [min_chunk_size] with the default
    configuration, and a chunk longer than [max_chunk_size] with a small
    one. *)
Theorem chunk_file_fallback_skips_size_filter :
  chunk_file plain_chunker {[ "notes.txt" := "hi" ]} "notes.txt" None
  = Ok [text_block "notes.txt" "unknown" 0 ["hi"]] /\
  _is_valid_chunk plain_chunker (text_block "notes.txt" "unknown" 0 ["hi"])
  = false /\
  str_len (content (text_block "notes.txt" "unknown" 0 ["hi"]))
  < min_chunk_size (config plain_chunker) /\
  chunk_file small_chunker {[ "blob.bin" := "aaaaaaaaaaaa" ]} "blob.bin" None
  = Ok [text_block "blob.bin" "unknown" 0 ["aaaaaaaaaaaa"]] /\
  max_chunk_size (config small_chunker)
  < str_len (content (text_block "blob.bin" "unknown" 0 ["aaaaaaaaaaaa"])).
Proof. repeat split; reflexivity. Qed.

End BoundsOnSamples.

(** ** Claims about the syntax-tree extraction *)

Lemma Node_nested_ind (P : Node -> Prop) :
  (forall type field start_point end_point children,
     Forall P children -> P (mkNode type field start_point end_point children)) ->
  forall node, P node.
Proof.
  intros step. fix IH 1. intros [t f s e cs]. apply step.
  induction cs as [|c cs IHcs]; constructor; [apply IH | exact IHcs].
Qed.

Lemma grows_refl (P : CodeChunk -> Prop) (l : list CodeChunk) : grows P l l.
Proof. exists []. by rewrite app_nil_r. Qed.

Lemma grows_trans (P : CodeChunk -> Prop) (l1 l2 l3 : list CodeChunk) :
  grows P l1 l2 -> grows P l2 l3 -> grows P l1 l3.
Proof.
  intros (a & -> & Ha) (b & -> & Hb). exists (a ++ b).
  split; [by rewrite app_assoc | by apply Forall_app].
Qed.

Lemma grows_snoc (P : CodeChunk -> Prop) (l : list CodeChunk) (c : CodeChunk) :
  P c -> grows P l (l ++ [c]).
Proof. intros Hc. exists [c]. split; [done | by constructor]. Qed.

Lemma bind_Ok_inv {A B} (m : result A) (k : A -> result B) (b : B) :
  Py.bind m k = Ok b -> exists a, m = Ok a /\ k a = Ok b.
Proof. destruct m as [a|e]; simpl; [eauto | done]. Qed.

(** The loop over the children, for any traversal [visit] of one child. *)
Lemma traverse_children_grows (P : CodeChunk -> Prop)
    (visit : Node -> list CodeChunk -> result (list CodeChunk))
    (cs : list Node) :
  Forall
    (fun child =>
       forall chunks chunks',
         visit child chunks = Ok chunks' -> grows P chunks chunks') cs ->
  forall chunks chunks',
    (fix traverse_children (cs : list Node) (chunks : list CodeChunk)
       : result (list CodeChunk) :=
       match cs with
       | [] => Ok chunks
       | child :: cs' =>
           let! chunks := visit child chunks in traverse_children cs' chunks
       end) cs chunks = Ok chunks' ->
    grows P chunks chunks'.
Proof.
  induction 1 as [|c cs Hc Hcs IH]; intros chunks chunks' Hrun.
  - injection Hrun as <-. apply grows_refl.
  - apply bind_Ok_inv in Hrun as (mid & Hmid & Hrest).
    eapply grows_trans; [by apply Hc | by apply IH].
Qed.

Section Extraction.
Context {env : Env}.
Variable self : TreeSitterChunker.

Lemma extract_function_chunk_grows (node : Node) (code_lines : list string)
    (file_path : string) (parent_class : option string)
    (chunks chunks' : list CodeChunk) :
  _extract_function_chunk self node code_lines file_path parent_class chunks
  = Ok chunks' ->
  grows structural chunks chunks'.
Proof.
  unfold _extract_function_chunk. intros Hrun.
  apply bind_Ok_inv in Hrun as (func_name & _ & Hrun).
  apply bind_Ok_inv in Hrun as (bound & _ & Hrun).
  apply bind_Ok_inv in Hrun as (has_docstring & _ & Hrun).
  injection Hrun as <-. apply grows_snoc. unfold structural. simpl.
  destruct (truthy parent_class); set_solver.
Qed.

Lemma method_sweep_grows (code_lines : list string) (file_path : string)
    (class_name : string) (cs : list Node) :
  forall chunks chunks',
    for_each
      (fun chunks child =>
         if bool_decide (type child = "function_definition") then
           _extract_function_chunk self child code_lines file_path
             (Some class_name) chunks
         else Ok chunks)
      cs chunks = Ok chunks' ->
    grows structural chunks chunks'.
Proof.
  induction cs as [|c cs IH]; intros chunks chunks' Hrun; simpl in Hrun.
  - injection Hrun as <-. apply grows_refl.
  - apply bind_Ok_inv in Hrun as (mid & Hmid & Hrun).
    eapply grows_trans; [|by apply IH].
    destruct (bool_decide (type c = "function_definition")).
    + by eapply extract_function_chunk_grows.
    + injection Hmid as <-. apply grows_refl.
Qed.

Lemma traverse_python_grows (code_lines : list string) (file_path : string)
    (node : Node) :
  forall parent_class chunks chunks',
    traverse_python self code_lines file_path node parent_class chunks
    = Ok chunks' ->
    grows structural chunks chunks'.
Proof.
  induction node as [t f s e cs IH] using Node_nested_ind.
  intros parent_class chunks chunks' Hrun. simpl in Hrun.
  apply bind_Ok_inv in Hrun as (mid & Hmid & Hrest).
  eapply grows_trans.
  2: { apply (traverse_children_grows structural
                (fun child chunks =>
                   traverse_python self code_lines file_path child
                     parent_class chunks) cs); [|exact Hrest].
       eapply Forall_impl; [exact IH|]. simpl. eauto. }
  clear Hrest IH.
  destruct (bool_decide (t = "class_definition") && chunk_by_classes (config self)).
  - apply bind_Ok_inv in Hmid as (class_name & _ & Hmid).
    eapply grows_trans; [apply grows_snoc|].
    2: { destruct (chunk_by_methods (config self)).
         - by eapply method_sweep_grows.
         - injection Hmid as <-. apply grows_refl. }
    unfold structural. simpl. set_solver.
  - destruct (bool_decide (t = "function_definition")
              && chunk_by_functions (config self)).
    + by eapply extract_function_chunk_grows.
    + injection Hmid as <-. apply grows_refl.
Qed.

Lemma method_sweep_skips (code_lines : list string) (file_path : string)
    (class_name : string) (cs : list Node) (chunks : list CodeChunk) :
  Forall (fun child => type child <> "function_definition") cs ->
  for_each
    (fun chunks child =>
       if bool_decide (type child = "function_definition") then
         _extract_function_chunk self child code_lines file_path
           (Some class_name) chunks
       else Ok chunks)
    cs chunks = Ok chunks.
Proof.
  induction 1 as [|c cs Hc Hcs IH]; simpl; [done|].
  by rewrite bool_decide_eq_false_2.
Qed.

(** On a tree shaped as the Python grammar shapes it, the traversal from
    the root (no enclosing class) emits no chunk of type [method]: the
    sweep over the direct children of a class finds no function, and the
    functions below are visited with [parent_class] still [None]. *)
Lemma traverse_python_no_method (code_lines : list string) (file_path : string)
    (node : Node) :
  grammar_shaped node ->
  forall chunks chunks',
    traverse_python self code_lines file_path node None chunks = Ok chunks' ->
    grows (fun c => chunk_type c <> "method") chunks chunks'.
Proof.
  induction node as [t f s e cs IH] using Node_nested_ind.
  intros [Hclass Hshaped] chunks chunks' Hrun. simpl in Hrun.
  apply bind_Ok_inv in Hrun as (mid & Hmid & Hrest).
  eapply grows_trans.
  2: { apply (traverse_children_grows _
                (fun child chunks =>
                   traverse_python self code_lines file_path child None chunks)
                cs); [|exact Hrest].
       clear Hrest Hmid Hclass. induction IH as [|c cs Hc Hcs IHcs];
         [constructor|].
       destruct Hshaped as [Hc' Hcs']. constructor; [by apply Hc | by apply IHcs]. }
  clear Hrest IH Hshaped.
  destruct (bool_decide_reflect (t = "class_definition")) as [Ht|Ht]; simpl in Hmid.
  - destruct (chunk_by_classes (config self)).
    + apply bind_Ok_inv in Hmid as (class_name & _ & Hmid).
      eapply grows_trans; [apply grows_snoc|].
      2: { destruct (chunk_by_methods (config self)).
           - rewrite method_sweep_skips in Hmid by auto.
             injection Hmid as <-. apply grows_refl.
           - injection Hmid as <-. apply grows_refl. }
      simpl. discriminate.
    + rewrite bool_decide_eq_false_2 in Hmid by (by rewrite Ht). simpl in Hmid.
      injection Hmid as <-. apply grows_refl.
  - destruct (bool_decide (t = "function_definition")
              && chunk_by_functions (config self)).
    + unfold _extract_function_chunk in Hmid.
      apply bind_Ok_inv in Hmid as (func_name & _ & Hmid).
      apply bind_Ok_inv in Hmid as (bound & _ & Hmid).
      apply bind_Ok_inv in Hmid as (has_docstring & _ & Hmid).
      injection Hmid as <-. apply grows_snoc. simpl. discriminate.
    + injection Hmid as <-. apply grows_refl.
Qed.

Lemma traverse_javascript_grows (code_lines : list string)
    (file_path language : string) (node : Node) :
  forall parent_class chunks chunks',
    traverse_javascript self code_lines file_path language node parent_class
      chunks = Ok chunks' ->
    grows structural chunks chunks'.
Proof.
  induction node as [t f s e cs IH] using Node_nested_ind.
  intros parent_class chunks chunks' Hrun. simpl in Hrun.
  apply bind_Ok_inv in Hrun as (mid & Hmid & Hrest).
  eapply grows_trans.
  2: { apply (traverse_children_grows structural
                (fun child chunks =>
                   traverse_javascript self code_lines file_path language
                     child parent_class chunks) cs); [|exact Hrest].
       eapply Forall_impl; [exact IH|]. simpl. eauto. }
  clear Hrest IH.
  destruct (bool_decide (t ∈ ["function_declaration"; "function"])
            && chunk_by_functions (config self)).
  - apply bind_Ok_inv in Hmid as (text & _ & Hmid).
    injection Hmid as <-. apply grows_snoc. unfold structural. simpl.
    set_solver.
  - destruct (bool_decide (t = "class_declaration")
              && chunk_by_classes (config self)).
    + apply bind_Ok_inv in Hmid as (class_name & _ & Hmid).
      injection Hmid as <-. apply grows_snoc. unfold structural. simpl.
      set_solver.
    + injection Hmid as <-. apply grows_refl.
Qed.

Lemma traverse_java_grows (code_lines : list string) (file_path : string)
    (node : Node) :
  forall parent_class chunks chunks',
    traverse_java self code_lines file_path node parent_class chunks
    = Ok chunks' ->
    grows structural chunks chunks'.
Proof.
  induction node as [t f s e cs IH] using Node_nested_ind.
  intros parent_class chunks chunks' Hrun. simpl in Hrun.
  apply bind_Ok_inv in Hrun as (mid & Hmid & Hrest).
  eapply grows_trans.
  2: { apply (traverse_children_grows structural
                (fun child chunks =>
                   traverse_java self code_lines file_path child parent_class
                     chunks) cs); [|exact Hrest].
       eapply Forall_impl; [exact IH|]. simpl. eauto. }
  clear Hrest IH.
  destruct (bool_decide (t = "class_declaration")
            && chunk_by_classes (config self)).
  - apply bind_Ok_inv in Hmid as (class_name & _ & Hmid).
    injection Hmid as <-. apply grows_snoc. unfold structural. simpl.
    set_solver.
  - destruct (bool_decide (t = "method_declaration")
              && chunk_by_methods (config self)).
    + apply bind_Ok_inv in Hmid as (method_name & _ & Hmid).
      injection Hmid as <-. apply grows_snoc. unfold structural. simpl.
      set_solver.
    + injection Hmid as <-. apply grows_refl.
Qed.

(** The import pass, with the list it appends to made explicit. *)
Lemma extract_imports_from (code_lines : list string)
    (file_path language : string) (nodes : list Node) (acc : list CodeChunk) :
  fold_left
    (fun chunks node =>
       if bool_decide (type node ∈ import_types language) then
         chunks ++
         [new_CodeChunk (_get_node_content node code_lines) "import" language
            file_path (Z.of_nat (start_point node).1)
            (Z.of_nat (end_point node).1) None None None None]
       else chunks)
    nodes acc
  = acc ++ map (import_chunk code_lines file_path language)
             (List.filter (is_import language) nodes).
Proof.
  revert acc. induction nodes as [|n nodes IH]; intros acc; simpl.
  - by rewrite app_nil_r.
  - rewrite IH. unfold is_import at 2.
    destruct (bool_decide (type n ∈ import_types language)); [|done].
    by rewrite <- app_assoc.
Qed.

(** What the extractors of [chunk_file] add to the import chunks is
    structural. *)
Lemma chunk_file_parsed_shape (fs : Files) (file_path : string)
    (language : option string) (parser : string -> Node) (code : string)
    (chunks : list CodeChunk) :
  let resolved := default (_detect_language file_path) language in
  parsers self !! resolved = Some parser ->
  fs !! file_path = Some code ->
  chunk_file self fs file_path language = Ok chunks ->
  exists found,
    Forall structural found /\
    chunks
    = List.filter (_is_valid_chunk self)
        ((if include_imports (config self) then
            _extract_imports (parser code) (split_nl code) file_path resolved
          else []) ++ found).
Proof.
  intros resolved Hparser Hfile. unfold chunk_file, read_file.
  replace (match language with
           | Some language0 => language0
           | None => _detect_language file_path
           end) with resolved by by destruct language.
  rewrite Hparser, Hfile. simpl. intros Hrun.
  apply bind_Ok_inv in Hrun as (all & Hall & Hrun). injection Hrun as <-.
  destruct (bool_decide (resolved = "python")).
  { apply bind_Ok_inv in Hall as (found & Hfound & Hall). injection Hall as <-.
    apply traverse_python_grows in Hfound as (added & -> & Hadded).
    by exists added. }
  destruct (bool_decide (resolved ∈ ["javascript"; "typescript"])).
  { apply bind_Ok_inv in Hall as (found & Hfound & Hall). injection Hall as <-.
    apply traverse_javascript_grows in Hfound as (added & -> & Hadded).
    by exists added. }
  destruct (bool_decide (resolved = "java")).
  { apply bind_Ok_inv in Hall as (found & Hfound & Hall). injection Hall as <-.
    apply traverse_java_grows in Hfound as (added & -> & Hadded).
    by exists added. }
  injection Hall as <-. exists []. by rewrite app_nil_r.
Qed.

(** So on such a tree extraction returns no [method] chunk at all. *)
Lemma extract_python_no_method_chunks (root_node : Node)
    (code_lines : list string) (file_path : string)
    (chunks : list CodeChunk) :
  grammar_shaped root_node ->
  _extract_python_chunks self root_node code_lines file_path = Ok chunks ->
  Forall (fun c => chunk_type c <> "method") chunks.
Proof.
  intros Hshaped Hrun.
  by destruct (traverse_python_no_method _ _ _ Hshaped _ _ Hrun)
    as (added & -> & Hadded).
Qed.

End Extraction.

Lemma is_import_listed (language : string) (node : Node) :
  is_import language node = listed_import language (type node).
Proof.
  unfold is_import, import_types, listed_import.
  apply eq_true_iff_eq. rewrite bool_decide_eq_true.
  repeat (rewrite orb_true_iff || rewrite andb_true_iff
          || rewrite String.eqb_eq).
  repeat case_bool_decide; subst; rewrite ?elem_of_cons, ?elem_of_nil;
    naive_solver.
Qed.


(** ** Claims about the vector store *)

Lemma slice_nonneg {A} (l : list A) (i j : Z) :
  0 <= i -> 0 <= j ->
  slice l i j = take (Z.to_nat j - Z.to_nat i) (drop (Z.to_nat i) l).
Proof.
  intros Hi Hj. unfold slice, slice_index, len.
  rewrite !(proj2 (Z.ltb_ge _ _)) by lia.
  destruct (Z_le_gt_dec (Z.of_nat (length l)) i) as [Hout|Hin].
  - rewrite !drop_ge by lia. by rewrite !take_nil.
  - rewrite (Z.min_l i) by lia.
    destruct (Z_le_gt_dec j (Z.of_nat (length l))) as [Hj'|Hj'].
    + rewrite Z.min_l by lia. f_equal. lia.
    + rewrite Z.min_r by lia.
      rewrite !take_ge; [done | |]; rewrite length_drop; lia.
Qed.

Lemma take_add_drop {A} (a b : nat) (l : list A) :
  take (a + b) l = take a l ++ take b (drop a l).
Proof.
  revert l. induction a as [|a IH]; intros [|x l]; simpl; try done.
  - by rewrite take_nil.
  - by rewrite IH.
Qed.

Lemma concat_pieces {A} (n m : nat) (l : list A) :
  concat (map (fun k => take n (drop (k * n) l)) (seq 0 m)) = take (m * n) l.
Proof.
  induction m as [|m IH]; [done|].
  rewrite seq_S, map_app, concat_app, IH. simpl. rewrite app_nil_r.
  by rewrite <- take_add_drop, (Nat.add_comm n).
Qed.

Lemma range_batches (count step : Z) :
  0 < step ->
  exists m,
    range 0 count step = Ok (map (fun k => 0 + Z.of_nat k * step) (seq 0 m)) /\
    (0 < count -> count <= Z.of_nat m * step /\ (Z.of_nat m - 1) * step < count).
Proof.
  intros Hstep. exists (Z.to_nat ((count - 0 + step - 1) / step)). split.
  - unfold range. rewrite (proj2 (Z.eqb_neq _ _)) by lia.
    by rewrite (proj2 (Z.ltb_lt _ _)) by lia.
  - intros Hcount.
    pose proof (Z.div_mod (count - 0 + step - 1) step ltac:(lia)) as Hdm.
    pose proof (Z.mod_pos_bound (count - 0 + step - 1) step Hstep) as Hmod.
    assert (0 <= (count - 0 + step - 1) / step) by (apply Z.div_pos; lia).
    rewrite Z2Nat.id by done. nia.
Qed.

Section AddChunksProofs.
Context {env : Env} {store : Store}.

Lemma add_batches_fold (chunks : list CodeChunk) (batch_size : Z)
    (starts : list Z) (st : Collection * Z) :
  let batches := map (fun i => slice chunks i (i + batch_size)) starts in
  for_each (add_batch chunks batch_size) starts st
  = let! written := for_each add_one batches st.1 in
    Ok (written, st.2 + len (concat batches)).
Proof.
  revert st. induction starts as [|i starts IH]; intros st; simpl.
  - destruct st. simpl. f_equal. f_equal. unfold len. simpl. lia.
  - unfold add_batch at 1, add_one at 1.
    destruct (collection_add st.1 _ _ _) as [written|e]; simpl; [|done].
    rewrite IH. simpl.
    destruct (for_each add_one _ written) as [written'|e]; simpl; [|done].
    f_equal. f_equal. rewrite len_app. lia.
Qed.

(** The batch loop on a list that is not empty. *)
Lemma add_chunks_nonempty (collection : Collection) (c : CodeChunk)
    (rest : list CodeChunk) (batch_size : Z) :
  0 < batch_size ->
  exists batches,
    concat batches = c :: rest /\
    batched batch_size batches /\
    add_chunks collection (c :: rest) batch_size
    = let! written := for_each add_one batches collection in
      Ok (written, len (c :: rest)).
Proof.
  intros Hsize. set (l := c :: rest).
  destruct (range_batches (len l) batch_size Hsize) as (m & Hrange & Hm).
  specialize (Hm ltac:(unfold len; simpl; lia)). destruct Hm as [Hup Hlow].
  set (n := Z.to_nat batch_size).
  assert (Hpiece : forall k : nat,
            slice l (0 + Z.of_nat k * batch_size)
              (0 + Z.of_nat k * batch_size + batch_size)
            = take n (drop (k * n) l)).
  { intros k. rewrite slice_nonneg by lia. f_equal; [|f_equal]; unfold n; nia. }
  exists (map (fun k => take n (drop (k * n) l)) (seq 0 m)).
  assert (Hconcat :
    concat (map (fun k => take n (drop (k * n) l)) (seq 0 m)) = l).
  { rewrite concat_pieces. apply take_ge. unfold len in Hup. unfold n. nia. }
  split; [exact Hconcat|]. split.
  - intros k batch Hk. rewrite length_map, length_seq.
    apply list_lookup_fmap_Some in Hk as (j & -> & Hj).
    apply lookup_seq in Hj as [-> Hlt]. simpl.
    unfold len in *. rewrite length_take, length_drop. unfold n. split; [nia|].
    intros Hnext. nia.
  - unfold add_chunks. fold l. unfold l at 1. rewrite Hrange. simpl.
    rewrite add_batches_fold. simpl. rewrite map_map.
    rewrite (map_ext _ (fun k => take n (drop (k * n) l)) Hpiece).
    by rewrite Hconcat, Z.add_0_l.
Qed.

(** C6. For a positive [batch_size], [add_chunks] cuts the list into
    consecutive batches of [batch_size] chunks, the last one possibly
    smaller, and hands the batches in turn to [collection.add], one call
    per batch with the ids, contents and metadata dicts of the batch. If
    every call returns, [add_chunks] returns the length of the list; if
    a call raises, [add_chunks] raises the same exception and the later
    batches are not handed over. For the empty list it returns 0 and the
    collection as it was, whatever the store does on a write. *)
Theorem add_chunks_batches_and_counts (collection : Collection)
    (chunks : list CodeChunk) (batch_size : Z) :
  0 < batch_size ->
  (exists batches,
     concat batches = chunks /\
     batched batch_size batches /\
     add_chunks collection chunks batch_size
     = let! written := for_each add_one batches collection in
       Ok (written, len chunks)) /\
  add_chunks collection [] batch_size = Ok (collection, 0).
Proof.
  intros Hsize. split; [|reflexivity].
  destruct chunks as [|c rest].
  - exists []. split; [reflexivity|]. split; [|reflexivity].
    intros k batch Hk. by rewrite lookup_nil in Hk.
  - by apply add_chunks_nonempty.
Qed.

End AddChunksProofs.

Lemma StronglySorted_filter {A} (R : A -> A -> Prop) (f : A -> bool)
    (l : list A) :
  StronglySorted R l -> StronglySorted R (List.filter f l).
Proof.
  induction 1 as [|x l Hl IH Hx]; simpl; [constructor|].
  destruct (f x); [|done]. constructor; [done|].
  apply Forall_forall. intros y Hy.
  apply list_elem_of_In, filter_In in Hy as [Hy _].
  rewrite Forall_forall in Hx. by apply Hx, list_elem_of_In.
Qed.

Lemma StronglySorted_take {A} (R : A -> A -> Prop) (n : nat) (l : list A) :
  StronglySorted R l -> StronglySorted R (take n l).
Proof.
  intros Hl. revert n. induction Hl as [|x l Hl IH Hx]; intros [|n]; simpl;
    try constructor; [done|].
  apply Forall_forall. intros y Hy. rewrite Forall_forall in Hx.
  apply Hx. by eapply subseteq_take.
Qed.

Lemma drop_cons_inv {A} (k : nat) (l : list A) (x : A) (t : list A) :
  drop k l = x :: t -> l !! k = Some x /\ drop (S k) l = t.
Proof.
  intros Hl. split.
  - rewrite <- (Nat.add_0_r k), <- lookup_drop. by rewrite Hl.
  - replace (S k) with (k + 1)%nat by lia. by rewrite <- drop_drop, Hl.
Qed.

Lemma getitem_Some {A} (l : list A) (i : nat) (x : A) :
  l !! i = Some x -> getitem l i = Ok x.
Proof. unfold getitem. by intros ->. Qed.

Lemma first_rows_lookup (r : QueryResult) (found : list string)
    (ds : list float) (docs : list string) (metas : list Metadata) :
  first_rows r = Some (found, ds, docs, metas) ->
  getitem (ids r) 0 = Ok found /\ getitem (distances r) 0 = Ok ds /\
  getitem (documents r) 0 = Ok docs /\ getitem (metadatas r) 0 = Ok metas.
Proof.
  unfold first_rows.
  destruct (ids r), (distances r), (documents r), (metadatas r);
    try discriminate.
  intros [= -> -> -> ->]. done.
Qed.

Section SearchProofs.
Context {env : Env} {store : Store}.

(** Every candidate of rows aligned from position [k] on carries the rank
    and the fields of its position. *)
Lemma candidates_from_spec (found : list string) (ds : list float)
    (docs : list string) (metas : list Metadata) (k : nat)
    (found' : list string) :
  length (drop k ds) = length found' ->
  length (drop k docs) = length found' ->
  length (drop k metas) = length found' ->
  drop k found = found' ->
  let hits :=
    candidates_from (Z.of_nat k) found' (drop k ds) (drop k docs)
      (drop k metas) in
  Forall (fun h => Z.of_nat k < rank h) hits /\
  StronglySorted (fun a b => rank a < rank b) hits /\
  Forall
    (fun h =>
       exists i d,
         rank h = Z.of_nat i + 1 /\ found !! i = Some (hit_chunk_id h) /\
         ds !! i = Some d /\ similarity h = (1 - d)%float /\
         docs !! i = Some (hit_content h) /\
         metas !! i = Some (hit_metadata h))
    hits.
Proof.
  revert k. induction found' as [|id rest IH]; intros k Hds Hdocs Hmetas Hfound.
  - simpl. split; [constructor|]. split; constructor.
  - destruct (drop k ds) as [|d ds'] eqn:Eds; [done|].
    destruct (drop k docs) as [|doc docs'] eqn:Edocs; [done|].
    destruct (drop k metas) as [|meta metas'] eqn:Emetas; [done|].
    pose proof (fun A => @drop_cons_inv A k) as Hat.
    apply Hat in Eds as [Hd Eds]. apply Hat in Edocs as [Hdoc Edocs].
    apply Hat in Emetas as [Hmeta Emetas]. apply Hat in Hfound as [Hid Hrest].
    destruct (IH (S k)) as (Hlow & Hsorted & Hfields).
    { rewrite Eds. simpl in Hds. lia. }
    { rewrite Edocs. simpl in Hdocs. lia. }
    { rewrite Emetas. simpl in Hmetas. lia. }
    { exact Hrest. }
    simpl. rewrite <- Eds, <- Edocs, <- Emetas.
    replace (Z.of_nat k + 1) with (Z.of_nat (S k)) by lia.
    split; [|split].
    + constructor; [simpl; lia|].
      eapply Forall_impl; [exact Hlow|]. simpl. lia.
    + constructor; [exact Hsorted|].
      eapply Forall_impl; [exact Hlow|]. simpl. lia.
    + constructor; [|exact Hfields].
      exists k, d. simpl. split_and!; try done. lia.
Qed.

(** The result loop: it appends the candidates that pass, in order. *)
Lemma search_loop (results : QueryResult) (threshold : float)
    (ds : list float) (docs : list string) (metas : list Metadata)
    (found' : list string) :
  getitem (distances results) 0 = Ok ds ->
  getitem (documents results) 0 = Ok docs ->
  getitem (metadatas results) 0 = Ok metas ->
  forall (k : nat) (acc : list SearchHit),
    length (drop k ds) = length found' ->
    length (drop k docs) = length found' ->
    length (drop k metas) = length found' ->
    for_each (search_step results threshold)
      (enumerate_from (Z.of_nat k) found') acc
    = Ok (acc ++
          List.filter (passes threshold)
            (candidates_from (Z.of_nat k) found' (drop k ds) (drop k docs)
               (drop k metas))).
Proof.
  intros Hrow_d Hrow_doc Hrow_m.
  induction found' as [|id rest IH]; intros k acc Hds Hdocs Hmetas.
  - simpl. by rewrite app_nil_r.
  - destruct (drop k ds) as [|d ds'] eqn:Eds; [done|].
    destruct (drop k docs) as [|doc docs'] eqn:Edocs; [done|].
    destruct (drop k metas) as [|meta metas'] eqn:Emetas; [done|].
    pose proof (fun A => @drop_cons_inv A k) as Hat.
    apply Hat in Eds as [Hd Eds]. apply Hat in Edocs as [Hdoc Edocs].
    apply Hat in Emetas as [Hmeta Emetas].
    apply getitem_Some in Hd, Hdoc, Hmeta.
    simpl. rewrite Hrow_d. simpl. rewrite Nat2Z.id, Hd. simpl.
    replace (Z.of_nat k + 1) with (Z.of_nat (S k)) by lia.
    unfold passes at 1. simpl.
    destruct (threshold <=? 1 - d)%float.
    + rewrite Hrow_doc. simpl. rewrite Hdoc. simpl.
      rewrite Hrow_m. simpl. rewrite Hmeta. simpl.
      rewrite IH by (rewrite ?Eds, ?Edocs, ?Emetas; simpl in *; lia).
      rewrite Eds, Edocs, Emetas, <- app_assoc. done.
    + simpl. rewrite IH by (rewrite ?Eds, ?Edocs, ?Emetas; simpl in *; lia).
      by rewrite Eds, Edocs, Emetas.
Qed.

Lemma slice_nil {A} (lo hi : Z) : slice ([] : list A) lo hi = [].
Proof. unfold slice. by rewrite drop_nil, take_nil. Qed.

Lemma candidates_none_pass (threshold : float) (found : list string)
    (ds : list float) (docs : list string) (metas : list Metadata) (i : Z) :
  Forall (fun d => (threshold <=? 1 - d)%float = false) ds ->
  List.filter (passes threshold) (candidates_from i found ds docs metas) = [].
Proof.
  intros Hds. revert i found docs metas.
  induction Hds as [|d ds Hd Hds IH]; intros i [|id found] docs metas;
    simpl; try done.
  destruct docs as [|doc docs]; [done|]. destruct metas as [|meta metas]; [done|].
  simpl. unfold passes at 1. simpl. rewrite Hd. apply IH.
Qed.

Lemma search_candidates (results : QueryResult) (threshold : float)
    (found : list string) (ds : list float) (docs : list string)
    (metas : list Metadata) :
  first_rows results = Some (found, ds, docs, metas) ->
  aligned found ds docs metas ->
  match found with
  | [] => Ok []
  | _ :: _ => for_each (search_step results threshold) (enumerate found) []
  end
  = Ok (List.filter (passes threshold) (candidates_from 0 found ds docs metas)).
Proof.
  intros Hrows (Hds & Hdocs & Hmetas).
  destruct (first_rows_lookup _ _ _ _ _ Hrows) as (Hf & Hd & Hdoc & Hm).
  destruct found as [|id rest] eqn:Efound; [done|]. rewrite <- Efound.
  pose proof (search_loop results threshold ds docs metas found
                Hd Hdoc Hm 0 []) as Hloop.
  rewrite !drop_0 in Hloop. subst found. by apply Hloop.
Qed.

(** C4. [search] turns each distance [d] of the store's answer into the
    similarity [1 - d], keeps the candidates whose similarity is at least
    the threshold in the order the store returned them, cuts that list to
    [top_k], and reports for each one it keeps the 1-based position it had
    in the store's answer as its rank: the ranks in the result increase
    strictly, and every hit carries the id, document, metadata and distance
    found at position [rank - 1] of the answer. *)
Theorem search_keeps_store_order (config : ChromaDBConfig.t)
    (collection : Collection) (query : string) (top_k : option Z)
    (filter_dict : option Metadata) (similarity_threshold : option float)
    (results : QueryResult) (found : list string) (ds : list float)
    (docs : list string) (metas : list Metadata) :
  let k := default (ChromaDBConfig.top_k config) top_k in
  let threshold :=
    default (ChromaDBConfig.similarity_threshold config) similarity_threshold in
  collection_query collection [query] (k * 2) filter_dict = Ok results ->
  first_rows results = Some (found, ds, docs, metas) ->
  aligned found ds docs metas ->
  0 <= k ->
  let kept :=
    take (Z.to_nat k)
      (List.filter (passes threshold) (candidates_from 0 found ds docs metas)) in
  search config collection query top_k filter_dict similarity_threshold
  = Ok kept /\
  StronglySorted (fun a b => rank a < rank b) kept /\
  Forall
    (fun h =>
       passes threshold h = true /\
       exists i d,
         rank h = Z.of_nat i + 1 /\ found !! i = Some (hit_chunk_id h) /\
         ds !! i = Some d /\ similarity h = (1 - d)%float /\
         docs !! i = Some (hit_content h) /\
         metas !! i = Some (hit_metadata h))
    kept.
Proof.
  intros k threshold Hquery Hrows (Hds & Hdocs & Hmetas) Hk kept.
  destruct (first_rows_lookup _ _ _ _ _ Hrows) as (Hf & Hd & Hdoc & Hm).
  destruct (candidates_from_spec found ds docs metas 0 found)
    as (_ & Hsorted & Hfields); try (by rewrite drop_0).
  simpl in Hsorted, Hfields. rewrite !drop_0 in Hsorted, Hfields.
  split; [|split].
  - unfold search. fold k. fold threshold. rewrite Hquery. simpl.
    rewrite Hf. simpl.
    rewrite (search_candidates results threshold found ds docs metas) by done.
    simpl. f_equal. rewrite slice_nonneg by lia.
    unfold kept. rewrite drop_0. f_equal. lia.
  - by apply StronglySorted_take, StronglySorted_filter.
  - apply Forall_forall. intros h Hh. unfold kept in Hh.
    apply subseteq_take, list_elem_of_In, filter_In in Hh as [Hh Hpass].
    split; [done|]. rewrite Forall_forall in Hfields.
    by apply Hfields, list_elem_of_In.
Qed.

(** C7. When the store answers a query, [search] answers too: on an empty
    store, with a filter that lets no stored record through, or when no
    candidate reaches the similarity threshold, its result is the empty
    list and not an error. *)
Theorem search_without_matches_is_empty (config : ChromaDBConfig.t)
    (collection : Collection) (query : string) (top_k : option Z)
    (filter_dict : option Metadata) (similarity_threshold : option float)
    (results : QueryResult) :
  let k := default (ChromaDBConfig.top_k config) top_k in
  let threshold :=
    default (ChromaDBConfig.similarity_threshold config) similarity_threshold in
  query_contract store ->
  collection_query collection [query] (k * 2) filter_dict = Ok results ->
  (collection_get collection = [] ->
   search config collection query top_k filter_dict similarity_threshold
   = Ok []) /\
  ((forall record,
      record ∈ collection_get collection ->
      where_matches filter_dict (rec_metadata record) = false) ->
   search config collection query top_k filter_dict similarity_threshold
   = Ok []) /\
  ((forall found ds docs metas,
      first_rows results = Some (found, ds, docs, metas) ->
      Forall (fun d => (threshold <=? 1 - d)%float = false) ds) ->
   search config collection query top_k filter_dict similarity_threshold
   = Ok []).
Proof.
  intros k threshold [Hshape Hsound] Hquery.
  destruct (Hshape _ _ _ _ _ Hquery)
    as (found & ds & docs & metas & Hrows & Hds & Hdocs & Hmetas).
  destruct (first_rows_lookup _ _ _ _ _ Hrows) as (Hf & Hd & Hdoc & Hm).
  assert (Hnone : found = [] ->
    search config collection query top_k filter_dict similarity_threshold
    = Ok []).
  { intros ->. unfold search. fold k. rewrite Hquery. simpl. rewrite Hf. simpl.
    by rewrite slice_nil. }
  split; [|split].
  - intros Hempty. apply Hnone. destruct found as [|id rest]; [done|].
    destruct (Hsound _ _ _ _ _ _ _ _ _ id Hquery Hrows) as (record & Hin & _).
    { by left. }
    rewrite Hempty in Hin. by apply elem_of_nil in Hin.
  - intros Hexcluded. apply Hnone. destruct found as [|id rest]; [done|].
    destruct (Hsound _ _ _ _ _ _ _ _ _ id Hquery Hrows)
      as (record & Hin & _ & Hmatch).
    { by left. }
    by rewrite (Hexcluded _ Hin) in Hmatch.
  - intros Hbelow. specialize (Hbelow _ _ _ _ Hrows).
    unfold search. fold k. fold threshold. rewrite Hquery. simpl.
    rewrite Hf. simpl.
    rewrite (search_candidates results threshold found ds docs metas) by done.
    simpl. by rewrite candidates_none_pass, slice_nil.
Qed.

End SearchProofs.

Section ImportProofs.
Context {env : Env} {store : Store}.

Lemma chunk_of_record_schema (record : ChunkRecord) :
  exported_schema record ->
  exists chunk,
    chunk_of_record record = Some (Ok chunk) /\
    chunk_id chunk = rec_id record /\
    content chunk = rec_content record.
Proof.
  intros ((ct & Hct) & (lang & Hlang) & (fp & Hfp) & (sl & Hsl) & (el & Hel)
          & Hname & Hparent).
  unfold chunk_of_record, get_str, get_int, get_opt_str.
  rewrite Hct, Hlang, Hfp, Hsl, Hel. simpl.
  destruct Hname as [-> | (nm & ->)], Hparent as [-> | (pc & ->)]; simpl;
    eexists; split_and!; reflexivity.
Qed.

Lemma import_loop (chunks_data : list ChunkRecord) :
  Forall exported_schema chunks_data ->
  exists chunks,
    Forall2
      (fun record chunk =>
         chunk_of_record record = Some (Ok chunk) /\
         chunk_id chunk = rec_id record /\
         content chunk = rec_content record)
      chunks_data chunks /\
    forall acc,
      for_each_typed
        (fun chunks chunk_data =>
           bind_typed (chunk_of_record chunk_data) (fun chunk =>
           Some (Ok (chunks ++ [chunk]))))
        chunks_data acc
      = Some (Ok (acc ++ chunks)).
Proof.
  induction 1 as [|record data Hrecord Hdata (chunks & Hall & Hloop)].
  - exists []. split; [constructor|]. intros acc. simpl. by rewrite app_nil_r.
  - destruct (chunk_of_record_schema record Hrecord)
      as (chunk & Hchunk & Hid & Hcontent).
    exists (chunk :: chunks). split; [by constructor|].
    intros acc. simpl. rewrite Hchunk. simpl. rewrite Hloop.
    by rewrite <- app_assoc.
Qed.

(** C9. From every exported record [import_chunks] builds a [CodeChunk]
    whose [chunk_id] is the record's stored id (and whose content is the
    record's content), whatever id the file path, start line and content
    would generate, and hands the chunks so built to [add_chunks]: what
    [import_chunks] does to the collection, or raises, is what
    [add_chunks] does with these chunks. *)
Theorem import_keeps_stored_ids (collection : Collection)
    (chunks_data : list ChunkRecord) :
  Forall exported_schema chunks_data ->
  exists chunks,
    Forall2
      (fun record chunk =>
         chunk_of_record record = Some (Ok chunk) /\
         chunk_id chunk = rec_id record /\
         content chunk = rec_content record)
      chunks_data chunks /\
    import_chunks collection chunks_data
    = Some (let! added := add_chunks collection chunks 100 in Ok added.1) /\
    forall added,
      add_chunks collection chunks 100 = Ok added ->
      import_chunks collection chunks_data = Some (Ok added.1).
Proof.
  intros Hschema.
  destruct (import_loop chunks_data Hschema) as (chunks & Hall & Hloop).
  exists chunks. split; [done|].
  assert (Himport :
    import_chunks collection chunks_data
    = Some (let! added := add_chunks collection chunks 100 in Ok added.1)).
  { unfold import_chunks. by rewrite Hloop. }
  split; [exact Himport|].
  intros added Hadd. by rewrite Himport, Hadd.
Qed.

(** The record written for a chunk whose own metadata leaves the fixed
    keys alone has the exported schema, so it can be imported again. *)
Lemma record_of_chunk_schema (chunk : CodeChunk) :
  Forall (fun key => metadata chunk !! key = None) fixed_keys ->
  exported_schema (record_of_chunk chunk).
Proof.
  intros Hfree. unfold exported_schema, opt_str, has_str, has_int.
  change (rec_metadata (record_of_chunk chunk)) with (chunk_metadata chunk).
  cbv zeta. unfold chunk_metadata.
  repeat (apply Forall_cons in Hfree as [Hkey Hfree];
          rewrite (lookup_union_r _ _ _ Hkey); clear Hkey).
  split_and!; try right; eexists; reflexivity.
Qed.

End ImportProofs.

Section StoreOnSamples.
#[local] Existing Instance sample_env.
#[local] Existing Instance sample_store.

Lemma sample_store_contract : query_contract sample_store.
Proof.
  split.
  - intros collection texts n filter_dict r. simpl. unfold sample_query.
    destruct (n <=? 0); [done|]. intros [= <-]. simpl.
    do 4 eexists. split; [reflexivity|].
    unfold aligned. by rewrite !length_map.
  - intros collection texts n filter_dict r found ds docs metas id. simpl.
    unfold sample_query. destruct (n <=? 0); [done|]. intros [= <-]. simpl.
    intros [= <- <- <- <-] Hid.
    apply list_elem_of_fmap in Hid as (row & -> & Hrow).
    apply subseteq_take, list_elem_of_In, filter_In in Hrow as [Hrow Hmatch].
    exists row.1. split; [|done].
    apply list_elem_of_fmap. exists row. split; [done|].
    by apply list_elem_of_In.
Qed.

Lemma search_keeps_store_order_witness :
  collection_query sample_collection ["baz method"] (8 * 2) None
  = Ok sample_results /\
  0 <= 8 /\
  (let! hits :=
     search ChromaDBConfig.default sample_collection "baz method" None None
       None in
   Ok (map (fun h => (hit_chunk_id h, rank h)) hits))
  = Ok [("A", 1); ("C", 3)].
Proof.
  assert (Hquery :
    collection_query sample_collection ["baz method"] (8 * 2) None
    = Ok sample_results) by reflexivity.
  assert (Hk : 0 <= 8) by lia.
  split; [exact Hquery|]. split; [exact Hk|].
  destruct (search_keeps_store_order (store := sample_store)
              ChromaDBConfig.default sample_collection
              "baz method" None None None sample_results
              (map (fun row => rec_id row.1) sample_collection)
              (map snd sample_collection)
              (map (fun row => rec_content row.1) sample_collection)
              (map (fun row => rec_metadata row.1) sample_collection)
              Hquery eq_refl
              (conj eq_refl (conj eq_refl eq_refl)) Hk) as [Hrun _].
  rewrite Hrun. vm_compute. reflexivity.
Defined.

Lemma add_chunks_batches_and_counts_witness :
  0 < 2 /\
  (exists batches : list (list CodeChunk),
     concat batches = sample_chunks /\
     batched 2 batches /\
     add_chunks (store := sample_store) [] sample_chunks 2
     = let! written := for_each add_one batches [] in Ok (written, 5)) /\
  exists written,
    add_chunks (store := sample_store) [] sample_chunks 2 = Ok (written, 5) /\
    map rec_id (collection_get written) = map chunk_id sample_chunks.
Proof.
  assert (Hsize : 0 < 2) by lia.
  split; [exact Hsize|]. split.
  - exact (proj1 (add_chunks_batches_and_counts (store := sample_store) []
                    sample_chunks 2 Hsize)).
  - eexists. split; vm_compute; reflexivity.
Defined.

(** C6, the counterexample. [chunk_file] returns two chunks for the
    one-line JavaScript function, one for the declaration and one for
    its keyword [function]; both hold the same line from the same start,
    so they have the same id. [add_chunks] hands them to [collection.add]
    in one batch, the store rejects the repeated id, and [add_chunks]
    raises instead of returning 2. *)
Lemma add_chunks_repeated_id_raises :
  0 < 100 /\
  exists first second,
    chunk_file js_chunker {[ "a.js" := js_function_code ]} "a.js" None
    = Ok [first; second] /\
    (name first, name second) = (Some "add", Some "anonymous") /\
    chunk_id first = chunk_id second /\
    add_chunks (store := sample_store) [] [first; second] 100
    = Raise DuplicateIDError.
Proof.
  split; [lia|]. do 2 eexists.
  split; [vm_compute; reflexivity|]. split; vm_compute; done.
Qed.

Lemma search_without_matches_is_empty_witness :
  query_contract sample_store /\
  collection_query ([] : list (ChunkRecord * float)) ["baz method"] (8 * 2) None
  = Ok {| ids := [[]]; distances := [[]]; documents := [[]];
          metadatas := [[]] |} /\
  search (store := sample_store) ChromaDBConfig.default [] "baz method" None
    None None
  = Ok [].
Proof.
  assert (Hquery :
    collection_query ([] : list (ChunkRecord * float)) ["baz method"] (8 * 2)
      None
    = Ok {| ids := [[]]; distances := [[]]; documents := [[]];
            metadatas := [[]] |}) by reflexivity.
  split; [exact sample_store_contract|]. split; [exact Hquery|].
  exact (proj1 (search_without_matches_is_empty (store := sample_store)
                  ChromaDBConfig.default [] "baz method" None None None _
                  sample_store_contract Hquery) eq_refl).
Defined.

Lemma import_keeps_stored_ids_witness :
  Forall exported_schema [sample_record "A" "python"; sample_record "B" "java"] /\
  exists chunks,
    Forall2
      (fun record chunk =>
         chunk_of_record record = Some (Ok chunk) /\
         chunk_id chunk = rec_id record /\
         content chunk = rec_content record)
      [sample_record "A" "python"; sample_record "B" "java"] chunks /\
    import_chunks (store := sample_store) []
      [sample_record "A" "python"; sample_record "B" "java"]
    = Some (let! added := add_chunks (store := sample_store) [] chunks 100 in
            Ok added.1) /\
    option_map
      (fun r => let! written := r in Ok (map rec_id (collection_get written)))
      (import_chunks (store := sample_store) []
         [sample_record "A" "python"; sample_record "B" "java"])
    = Some (Ok ["A"; "B"]).
Proof.
  assert (Hschema :
    Forall exported_schema
      [sample_record "A" "python"; sample_record "B" "java"]).
  { repeat constructor; try (eexists; reflexivity);
      right; eexists; reflexivity. }
  split; [exact Hschema|].
  destruct (import_keeps_stored_ids (store := sample_store) [] _ Hschema)
    as (chunks & Hall & Himport & _).
  exists chunks. split; [exact Hall|]. split; [exact Himport|].
  vm_compute. reflexivity.
Defined.

End StoreOnSamples.

Section ExtractionOnSamples.
#[local] Existing Instance sample_env.

(** C1, the failing input. For the class [Bar] with its one method [baz],
    extraction with the default configuration (method chunking enabled)
    yields the class chunk and a chunk for [baz] of type [function] with no
    [parent_context]: there is no [method] chunk.  On a tree that would
    hang the method directly under the class node, [baz] comes back twice,
    as a [method] of [Bar] and again as a [function]. *)
Theorem class_method_extracted_as_function :
  chunk_by_methods (config class_chunker) = true /\
  summaries
    (_extract_python_chunks class_chunker class_tree (split_nl class_code) "b.py")
  = Ok [("class", Some "Bar", None); ("function", Some "baz", None)] /\
  summaries (chunk_file class_chunker {[ "b.py" := class_code ]} "b.py" None)
  = Ok [("class", Some "Bar", None); ("function", Some "baz", None)] /\
  summaries
    (_extract_python_chunks class_chunker flat_class_tree
       (split_nl class_code) "b.py")
  = Ok [("class", Some "Bar", None); ("method", Some "baz", Some "Bar");
        ("function", Some "baz", None)].
Proof. repeat split; vm_compute; reflexivity. Qed.

Example class_tree_grammar_shaped : grammar_shaped class_tree.
Proof.
  vm_compute.
  repeat split; try discriminate; repeat constructor; discriminate.
Qed.



(** On the sample file the import at the top comes back as an import
    chunk, and the one inside [f] only as part of the function chunk. *)
Example import_sample_run :
  (let! chunks :=
     chunk_file import_chunker {[ "m.py" := import_code ]} "m.py" None in
   Ok (map (fun c => (chunk_type c, content c)) chunks))
  = Ok [("import", "import os");
        ("function", "def f():" +:+ nl +:+ "    import sys")].
Proof. vm_compute. reflexivity. Qed.

End ExtractionOnSamples.

Section SimilarityOnSamples.

(** A distance of 0.3 passes the default threshold 0.1 and is dropped at
    the threshold 0.8. *)
Example distance_to_similarity :
  let hit :=
    {| hit_chunk_id := "A"; hit_content := EmptyString; hit_metadata := ∅;
       similarity := (1 - 0.3)%float; rank := 1 |} in
  similarity hit = 0.7%float /\
  passes (ChromaDBConfig.similarity_threshold ChromaDBConfig.default) hit = true /\
  passes 0.8%float hit = false.
Proof. repeat split; vm_compute; reflexivity. Qed.

End SimilarityOnSamples.

(** ** More properties of the chunker *)

Section InitializeParsersProofs.
Context {env : Env} {Lang : Type}.
Variable load_language : string -> result Lang.
Variable make_parser : Lang -> result (string -> Node).

Lemma parsers_loop_keys (languages : list (string * Lang))
    (parsers : gmap string (string -> Node)) (k : string) :
  is_Some (parsers_loop make_parser languages parsers !! k) ->
  is_Some (parsers !! k) \/ k ∈ map fst languages.
Proof.
  revert parsers. induction languages as [|[lang_name lang] rest IH];
    intros parsers Hk; simpl in Hk; [by left|].
  destruct (make_parser lang) as [parser|]; [|by left].
  destruct (IH _ Hk) as [Hin|Hin].
  - destruct (decide (lang_name = k)) as [->|Hne].
    + right. simpl. by left.
    + rewrite lookup_insert_ne in Hin by done. by left.
  - right. simpl. by right.
Qed.

Lemma load_languages_names (names : list string)
    (acc languages : list (string * Lang)) :
  for_each
    (fun languages lang_name =>
       let! lang := load_language lang_name in
       Ok (languages ++ [(lang_name, lang)]))
    names acc = Ok languages ->
  map fst languages = map fst acc ++ names.
Proof.
  revert acc. induction names as [|n names IH]; intros acc Hrun; simpl in Hrun.
  - injection Hrun as <-. by rewrite app_nil_r.
  - destruct (load_language n) as [lang|]; simpl in Hrun; [|done].
    rewrite (IH _ Hrun), map_app, <- app_assoc. done.
Qed.

Lemma initialize_parsers_keys (k : string) :
  is_Some (_initialize_parsers load_language make_parser !! k) ->
  k ∈ grammar_names.
Proof.
  unfold _initialize_parsers.
  destruct (for_each _ grammar_names []) as [languages|] eqn:Hload.
  - intros Hk. apply parsers_loop_keys in Hk as [Hk|Hk].
    + rewrite lookup_empty in Hk. by destruct Hk.
    + by rewrite (load_languages_names _ _ _ Hload) in Hk.
  - rewrite lookup_empty. by intros [? ?].
Qed.

(** X1. A chunker as its constructor builds it holds parsers for Python,
    JavaScript and Java at most, so every file of another language --
    detected or given, TypeScript and C++ among them -- goes through the
    fallback chunker. *)
Theorem unloaded_language_falls_back (config : TreeSitterConfig)
    (fs : Files) (file_path : string) (language : option string) :
  let self := new_TreeSitterChunker load_language make_parser config in
  let resolved := default (_detect_language file_path) language in
  resolved ∉ grammar_names ->
  chunk_file self fs file_path language
  = _fallback_chunking self fs file_path resolved.
Proof.
  intros self resolved Hother. unfold chunk_file.
  replace (match language with
           | Some language0 => language0
           | None => _detect_language file_path
           end) with resolved by by destruct language.
  destruct (parsers self !! resolved) as [parser|] eqn:Hparser; [|done].
  exfalso. apply Hother, initialize_parsers_keys.
  change (is_Some (parsers self !! resolved)). by rewrite Hparser.
Qed.

End InitializeParsersProofs.

(** The loop over the children raises as soon as one child does. *)
Lemma traverse_children_raises
    (visit : Node -> list CodeChunk -> result (list CodeChunk))
    (cs : list Node) :
  Exists (fun child => forall chunks, exists e, visit child chunks = Raise e) cs ->
  forall chunks,
    exists e,
      (fix traverse_children (cs : list Node) (chunks : list CodeChunk)
         : result (list CodeChunk) :=
         match cs with
         | [] => Ok chunks
         | child :: cs' =>
             let! chunks := visit child chunks in traverse_children cs' chunks
         end) cs chunks = Raise e.
Proof.
  induction 1 as [c cs Hc | c cs Hcs IH]; intros chunks.
  - destruct (Hc chunks) as [e ->]. by exists e.
  - destruct (visit c chunks) as [mid|e]; simpl; [apply IH | by exists e].
Qed.

Section DocstringsOff.
Context {env : Env}.
Variable self : TreeSitterChunker.
Hypothesis docstrings_off : include_docstrings (config self) = false.

Lemma extract_function_chunk_unbound (node : Node) (code_lines : list string)
    (file_path : string) (parent_class : option string)
    (chunks : list CodeChunk) :
  _extract_function_chunk self node code_lines file_path parent_class chunks
  = match _get_node_text (child_by_field_name node "name") code_lines with
    | Ok _ => Raise UnboundLocalError
    | Raise e => Raise e
    end.
Proof.
  unfold _extract_function_chunk. rewrite docstrings_off.
  by destruct (_get_node_text _ code_lines).
Qed.

Lemma traverse_python_raises (code_lines : list string) (file_path : string)
    (node : Node) :
  chunk_by_functions (config self) = true ->
  has_function_definition node = true ->
  forall parent_class chunks,
    exists e,
      traverse_python self code_lines file_path node parent_class chunks
      = Raise e.
Proof.
  intros Hfunctions.
  induction node as [t f s e cs IH] using Node_nested_ind.
  intros Hhas parent_class chunks. simpl in Hhas. simpl.
  match goal with
  | |- exists e, Py.bind ?own _ = _ => destruct own as [mid|err] eqn:Hown
  end; [|by exists err].
  simpl. apply orb_prop in Hhas as [Hself|Hbelow].
  - exfalso. apply bool_decide_eq_true in Hself. subst t.
    simpl in Hown. rewrite Hfunctions in Hown. simpl in Hown.
    rewrite extract_function_chunk_unbound in Hown.
    by destruct (_get_node_text _ code_lines).
  - apply (traverse_children_raises
             (fun child chunks =>
                traverse_python self code_lines file_path child parent_class
                  chunks)).
    apply existsb_exists in Hbelow as (child & Hin & Hchild).
    apply Exists_exists. exists child. split; [by apply list_elem_of_In|].
    rewrite Forall_forall in IH. intros chunks0.
    by apply (IH child); [apply list_elem_of_In|].
Qed.

(** X2. With [include_docstrings] switched off, [_extract_function_chunk]
    reads its local [docstring] unbound: once it has the function's name
    it raises [UnboundLocalError]; so with function chunking on, chunk
    extraction from any Python tree that holds a function definition
    raises, and so does [chunk_file] for such a file. *)
Theorem docstrings_off_raises :
  (forall node code_lines file_path parent_class chunks func_name,
     _get_node_text (child_by_field_name node "name") code_lines = Ok func_name ->
     _extract_function_chunk self node code_lines file_path parent_class chunks
     = Raise UnboundLocalError) /\
  (chunk_by_functions (config self) = true ->
   forall root_node code_lines file_path,
     has_function_definition root_node = true ->
     exists e,
       _extract_python_chunks self root_node code_lines file_path = Raise e) /\
  (chunk_by_functions (config self) = true ->
   forall fs file_path parser code,
     parsers self !! "python" = Some parser ->
     fs !! file_path = Some code ->
     has_function_definition (parser code) = true ->
     exists e, chunk_file self fs file_path (Some "python") = Raise e).
Proof.
  split; [|split].
  - intros node code_lines file_path parent_class chunks func_name Hname.
    by rewrite extract_function_chunk_unbound, Hname.
  - intros Hfunctions root_node code_lines file_path Hhas.
    by apply traverse_python_raises.
  - intros Hfunctions fs file_path parser code Hparser Hfile Hhas.
    unfold chunk_file, read_file. rewrite Hparser, Hfile. simpl.
    destruct (traverse_python_raises (split_nl code) file_path (parser code)
                Hfunctions Hhas None []) as [e He].
    unfold _extract_python_chunks. rewrite He. by exists e.
Qed.

End DocstringsOff.

Section ProducedProofs.
Context {env : Env}.
Variable self : TreeSitterChunker.

Lemma produced_new (content chunk_type lang path : string) (start : nat)
    (end_line : Z) (name parent_context : option string)
    (metadata : option Metadata) :
  chunk_type ∈ chunk_types ->
  (metadata = None \/
   exists b, metadata = Some {[ "has_docstring" := VBool b ]}) ->
  produced lang path
    (new_CodeChunk content chunk_type lang path (Z.of_nat start) end_line
       name parent_context metadata None).
Proof.
  intros Htype Hmeta. unfold produced. simpl.
  split_and!; try done; [lia|].
  destruct Hmeta as [-> | [b ->]]; [by left | right; by exists b].
Qed.

Lemma extract_function_chunk_produced (node : Node) (code_lines : list string)
    (file_path : string) (parent_class : option string)
    (chunks chunks' : list CodeChunk) :
  _extract_function_chunk self node code_lines file_path parent_class chunks
  = Ok chunks' ->
  grows (produced "python" file_path) chunks chunks'.
Proof.
  unfold _extract_function_chunk. intros Hrun.
  apply bind_Ok_inv in Hrun as (func_name & _ & Hrun).
  apply bind_Ok_inv in Hrun as (bound & _ & Hrun).
  apply bind_Ok_inv in Hrun as (has_docstring & _ & Hrun).
  injection Hrun as <-. apply grows_snoc. apply produced_new.
  - unfold chunk_types. destruct (truthy parent_class); set_solver.
  - right. by exists has_docstring.
Qed.

Lemma method_sweep_produced (code_lines : list string) (file_path : string)
    (class_name : string) (cs : list Node) :
  forall chunks chunks',
    for_each
      (fun chunks child =>
         if bool_decide (type child = "function_definition") then
           _extract_function_chunk self child code_lines file_path
             (Some class_name) chunks
         else Ok chunks)
      cs chunks = Ok chunks' ->
    grows (produced "python" file_path) chunks chunks'.
Proof.
  induction cs as [|c cs IH]; intros chunks chunks' Hrun; simpl in Hrun.
  - injection Hrun as <-. apply grows_refl.
  - apply bind_Ok_inv in Hrun as (mid & Hmid & Hrun).
    eapply grows_trans; [|by apply IH].
    destruct (bool_decide (type c = "function_definition")).
    + by eapply extract_function_chunk_produced.
    + injection Hmid as <-. apply grows_refl.
Qed.

Lemma traverse_python_produced (code_lines : list string) (file_path : string)
    (node : Node) :
  forall parent_class chunks chunks',
    traverse_python self code_lines file_path node parent_class chunks
    = Ok chunks' ->
    grows (produced "python" file_path) chunks chunks'.
Proof.
  induction node as [t f s e cs IH] using Node_nested_ind.
  intros parent_class chunks chunks' Hrun. simpl in Hrun.
  apply bind_Ok_inv in Hrun as (mid & Hmid & Hrest).
  eapply grows_trans.
  2: { apply (traverse_children_grows _
                (fun child chunks =>
                   traverse_python self code_lines file_path child
                     parent_class chunks) cs); [|exact Hrest].
       eapply Forall_impl; [exact IH|]. simpl. eauto. }
  clear Hrest IH.
  destruct (bool_decide (t = "class_definition") && chunk_by_classes (config self)).
  - apply bind_Ok_inv in Hmid as (class_name & _ & Hmid).
    eapply grows_trans; [apply grows_snoc|].
    2: { destruct (chunk_by_methods (config self)).
         - by eapply method_sweep_produced.
         - injection Hmid as <-. apply grows_refl. }
    apply produced_new; [unfold chunk_types; set_solver | by left].
  - destruct (bool_decide (t = "function_definition")
              && chunk_by_functions (config self)).
    + by eapply extract_function_chunk_produced.
    + injection Hmid as <-. apply grows_refl.
Qed.

Lemma traverse_javascript_produced (code_lines : list string)
    (file_path language : string) (node : Node) :
  forall parent_class chunks chunks',
    traverse_javascript self code_lines file_path language node parent_class
      chunks = Ok chunks' ->
    grows (produced language file_path) chunks chunks'.
Proof.
  induction node as [t f s e cs IH] using Node_nested_ind.
  intros parent_class chunks chunks' Hrun. simpl in Hrun.
  apply bind_Ok_inv in Hrun as (mid & Hmid & Hrest).
  eapply grows_trans.
  2: { apply (traverse_children_grows _
                (fun child chunks =>
                   traverse_javascript self code_lines file_path language
                     child parent_class chunks) cs); [|exact Hrest].
       eapply Forall_impl; [exact IH|]. simpl. eauto. }
  clear Hrest IH.
  destruct (bool_decide (t ∈ ["function_declaration"; "function"])
            && chunk_by_functions (config self)).
  - apply bind_Ok_inv in Hmid as (text & _ & Hmid).
    injection Hmid as <-. apply grows_snoc.
    apply produced_new; [unfold chunk_types; set_solver | by left].
  - destruct (bool_decide (t = "class_declaration")
              && chunk_by_classes (config self)).
    + apply bind_Ok_inv in Hmid as (class_name & _ & Hmid).
      injection Hmid as <-. apply grows_snoc.
      apply produced_new; [unfold chunk_types; set_solver | by left].
    + injection Hmid as <-. apply grows_refl.
Qed.

Lemma traverse_java_produced (code_lines : list string) (file_path : string)
    (node : Node) :
  forall parent_class chunks chunks',
    traverse_java self code_lines file_path node parent_class chunks
    = Ok chunks' ->
    grows (produced "java" file_path) chunks chunks'.
Proof.
  induction node as [t f s e cs IH] using Node_nested_ind.
  intros parent_class chunks chunks' Hrun. simpl in Hrun.
  apply bind_Ok_inv in Hrun as (mid & Hmid & Hrest).
  eapply grows_trans.
  2: { apply (traverse_children_grows _
                (fun child chunks =>
                   traverse_java self code_lines file_path child parent_class
                     chunks) cs); [|exact Hrest].
       eapply Forall_impl; [exact IH|]. simpl. eauto. }
  clear Hrest IH.
  destruct (bool_decide (t = "class_declaration")
            && chunk_by_classes (config self)).
  - apply bind_Ok_inv in Hmid as (class_name & _ & Hmid).
    injection Hmid as <-. apply grows_snoc.
    apply produced_new; [unfold chunk_types; set_solver | by left].
  - destruct (bool_decide (t = "method_declaration")
              && chunk_by_methods (config self)).
    + apply bind_Ok_inv in Hmid as (method_name & _ & Hmid).
      injection Hmid as <-. apply grows_snoc.
      apply produced_new; [unfold chunk_types; set_solver | by left].
    + injection Hmid as <-. apply grows_refl.
Qed.

Lemma extract_imports_produced (root_node : Node) (code_lines : list string)
    (file_path language : string) :
  Forall (produced language file_path)
    (_extract_imports root_node code_lines file_path language).
Proof.
  unfold _extract_imports. rewrite extract_imports_from. simpl.
  apply Forall_forall. intros c Hc.
  apply list_elem_of_fmap in Hc as (node & -> & _).
  apply produced_new; [unfold chunk_types; set_solver | by left].
Qed.

Lemma groups_produced (file_path language : string) (start : Z)
    (gs : list (list string)) :
  0 <= start ->
  Forall (fun g => g <> []) gs ->
  Forall (produced language file_path)
    (chunks_of_groups file_path language start gs).
Proof.
  intros Hstart Hne. revert start Hstart.
  induction Hne as [|g gs Hg Hgs IH]; intros start Hstart; simpl; [done|].
  constructor.
  - unfold produced, text_block. simpl. split_and!; try done.
    + unfold chunk_types. set_solver.
    + by left.
  - apply IH. unfold len. lia.
Qed.

Lemma chunk_file_produced (fs : Files) (file_path : string)
    (language : option string) (chunks : list CodeChunk) :
  chunk_file self fs file_path language = Ok chunks ->
  Forall (produced (default (_detect_language file_path) language) file_path)
    chunks.
Proof.
  set (resolved := default (_detect_language file_path) language).
  intros Hrun.
  destruct (parsers self !! resolved) as [parser|] eqn:Hparser.
  - destruct (fs !! file_path) as [code|] eqn:Hfile.
    2: { unfold chunk_file, read_file in Hrun.
         replace (match language with
                  | Some language0 => language0
                  | None => _detect_language file_path
                  end) with resolved in Hrun by by destruct language.
         by rewrite Hparser, Hfile in Hrun. }
    unfold chunk_file, read_file in Hrun.
    replace (match language with
             | Some language0 => language0
             | None => _detect_language file_path
             end) with resolved in Hrun by by destruct language.
    rewrite Hparser, Hfile in Hrun. simpl in Hrun.
    apply bind_Ok_inv in Hrun as (all & Hall & Hrun). injection Hrun as <-.
    assert (Hall' : Forall (produced resolved file_path) all).
    { assert (Himports :
        Forall (produced resolved file_path)
          (if include_imports (config self) then
             _extract_imports (parser code) (split_nl code) file_path resolved
           else [])).
      { destruct (include_imports (config self)); [|done].
        apply extract_imports_produced. }
      destruct (bool_decide_reflect (resolved = "python")) as [Hpy|_].
      { apply bind_Ok_inv in Hall as (found & Hfound & Hall).
        injection Hall as <-.
        apply traverse_python_produced in Hfound as (added & -> & Hadded).
        apply Forall_app. split; [done|]. by rewrite Hpy. }
      destruct (bool_decide (resolved ∈ ["javascript"; "typescript"])).
      { apply bind_Ok_inv in Hall as (found & Hfound & Hall).
        injection Hall as <-.
        apply traverse_javascript_produced in Hfound as (added & -> & Hadded).
        by apply Forall_app. }
      destruct (bool_decide_reflect (resolved = "java")) as [Hjava|_].
      { apply bind_Ok_inv in Hall as (found & Hfound & Hall).
        injection Hall as <-.
        apply traverse_java_produced in Hfound as (added & -> & Hadded).
        apply Forall_app. split; [done|]. by rewrite Hjava. }
      by injection Hall as <-. }
    apply Forall_forall. intros c Hc.
    apply list_elem_of_In, filter_In in Hc as [Hc _].
    rewrite Forall_forall in Hall'. by apply Hall', list_elem_of_In.
  - unfold chunk_file in Hrun.
    replace (match language with
             | Some language0 => language0
             | None => _detect_language file_path
             end) with resolved in Hrun by by destruct language.
    rewrite Hparser in Hrun.
    destruct (fs !! file_path) as [text|] eqn:Hfile.
    2: { unfold _fallback_chunking, read_file in Hrun.
         by rewrite Hfile in Hrun. }
    destruct (fallback_groups self file_path resolved fs text Hfile)
      as (gs & Hgs & Hne & _).
    rewrite Hgs in Hrun. injection Hrun as <-.
    by apply groups_produced.
Qed.

(** X3. Every chunk [chunk_file] returns, on the syntax-tree path and on
    the fallback path, carries the path of the file and the language the
    file was taken for, the id generated from its own fields, one of the
    five chunk types, a start line that is not negative, and no metadata
    other than a [has_docstring] flag. *)
Theorem chunk_file_chunks_produced (fs : Files) (file_path : string)
    (language : option string) (chunks : list CodeChunk) :
  chunk_file self fs file_path language = Ok chunks ->
  Forall (produced (default (_detect_language file_path) language) file_path)
    chunks.
Proof. apply chunk_file_produced. Qed.

End ProducedProofs.

(** ** Node text and node content *)

Lemma str_take_drop (n : nat) (s : string) : str_take n s +:+ str_drop n s = s.
Proof.
  revert s. induction n as [|n IH]; intros [|c s]; simpl; try done.
  by rewrite str_app_cons, IH.
Qed.

Lemma str_drop_drop (a b : nat) (s : string) :
  str_drop a (str_drop b s) = str_drop (b + a) s.
Proof.
  revert s. induction b as [|b IH]; intros s; simpl; [done|].
  destruct s as [|c s]; [by destruct a|]. apply IH.
Qed.

Lemma prefix_app (s t : string) : String.prefix s (s +:+ t) = true.
Proof.
  induction s as [|c s IH]; [by destruct t|].
  rewrite str_app_cons. simpl. by destruct (ascii_dec c c).
Qed.

Lemma str_contains_app (sub before after : string) :
  str_contains sub (before +:+ sub +:+ after) = true.
Proof.
  induction before as [|c before IH].
  - rewrite str_app_nil_l. pose proof (prefix_app sub after) as Hp.
    destruct (sub +:+ after); cbn [str_contains]; by rewrite Hp.
  - rewrite str_app_cons. simpl. rewrite IH. apply orb_true_r.
Qed.

Lemma join_prepend (sep p x : string) (l : list string) :
  join sep ((p +:+ x) :: l) = p +:+ join sep (x :: l).
Proof.
  destruct l as [|y l]; [done|]. rewrite !join_cons by done.
  by rewrite str_app_assoc.
Qed.

Lemma join_extend (sep acc line : string) (rest : list string) :
  join sep ((acc +:+ sep +:+ line) :: rest) = join sep (acc :: line :: rest).
Proof.
  rewrite (join_cons sep acc) by done.
  destruct rest as [|y rest]; [done|]. rewrite !join_cons by done.
  by rewrite !str_app_assoc.
Qed.

(** The loop of [_get_node_text] over the rows between the first and the
    last. *)
Lemma node_text_rows (code_lines : list string) (n a : nat) (acc : string) :
  (a + n <= length code_lines)%nat ->
  for_each
    (fun text row =>
       let! line := getitem code_lines row in Ok (text +:+ nl +:+ line))
    (seq a n) acc
  = Ok (join nl (acc :: take n (drop a code_lines))).
Proof.
  revert a acc. induction n as [|n IH]; intros a acc Hlen; simpl.
  - done.
  - destruct (lookup_lt_is_Some_2 code_lines a ltac:(lia)) as [line Hline].
    rewrite (getitem_Some _ _ _ Hline). simpl.
    rewrite IH by lia. rewrite join_extend.
    by rewrite (drop_S _ _ _ Hline).
Qed.

(** X4. For a node whose rows lie in the file, first row not after the
    last, [_get_node_text] returns normally, and the full-line content of
    the node is that text with the part of the first line before the
    start column in front and the part of the last line after the end
    column behind, so the text is part of the content ([text in content]
    holds); a node that starts beyond the last line makes [_get_node_text]
    raise [IndexError], and a missing node gives the empty text. *)
Theorem node_text_within_content (node : Node) (code_lines : list string) :
  ((start_point node).1 <= (end_point node).1 < length code_lines)%nat ->
  (exists text first last,
     code_lines !! (start_point node).1 = Some first /\
     code_lines !! (end_point node).1 = Some last /\
     _get_node_text (Some node) code_lines = Ok text /\
     _get_node_content node code_lines
     = str_take (start_point node).2 first +:+ text +:+
       (if ((start_point node).1 =? (end_point node).1)%nat
        then str_drop (Nat.max (start_point node).2 (end_point node).2) first
        else str_drop (end_point node).2 last) /\
     str_contains text (_get_node_content node code_lines) = true) /\
  (forall other : Node,
     (length code_lines <= (start_point other).1)%nat ->
     _get_node_text (Some other) code_lines = Raise IndexError) /\
  _get_node_text None code_lines = Ok EmptyString.
Proof.
  intros Hrows. split; [|split; [|done]].
  2: { intros other Hout. unfold _get_node_text.
       destruct (start_point other) as [sr sc], (end_point other) as [er ec].
       simpl in Hout.
       assert (Hget : getitem code_lines sr = Raise IndexError).
       { unfold getitem. by rewrite lookup_ge_None_2. }
       destruct (sr =? er)%nat; by rewrite Hget. }
  destruct (start_point node) as [sr sc] eqn:Hsp.
  destruct (end_point node) as [er ec] eqn:Hep. simpl in Hrows. simpl.
  destruct (lookup_lt_is_Some_2 code_lines sr ltac:(lia)) as [first Hfirst].
  destruct (lookup_lt_is_Some_2 code_lines er ltac:(lia)) as [last Hlast].
  assert (Hcontent :
    _get_node_content node code_lines
    = join nl (take (er + 1 - sr) (drop sr code_lines))).
  { unfold _get_node_content. rewrite Hsp, Hep. simpl.
    rewrite slice_nonneg by lia. rewrite Nat2Z.id. do 2 f_equal. lia. }
  assert (Hwithin : forall text after,
    _get_node_content node code_lines = str_take sc first +:+ text +:+ after ->
    str_contains text (_get_node_content node code_lines) = true).
  { intros text after ->. apply str_contains_app. }
  unfold _get_node_text. rewrite Hsp, Hep.
  destruct (Nat.eqb_spec sr er) as [<-|Hne].
  - rewrite (getitem_Some _ _ _ Hfirst). simpl.
    assert (Hline : _get_node_content node code_lines = first).
    { rewrite Hcontent. replace (sr + 1 - sr)%nat with 1%nat by lia.
      by rewrite (drop_S _ _ _ Hfirst). }
    assert (Hsplit :
      _get_node_content node code_lines
      = str_take sc first +:+ str_slice sc ec first +:+
        str_drop (Nat.max sc ec) first).
    { rewrite Hline. unfold str_slice.
      replace (Nat.max sc ec) with (sc + (ec - sc))%nat by lia.
      rewrite <- str_drop_drop, str_take_drop. by rewrite str_take_drop. }
    exists (str_slice sc ec first), first, first.
    split_and!; try done. by eapply Hwithin.
  - rewrite (getitem_Some _ _ _ Hfirst). simpl.
    rewrite node_text_rows by lia. simpl.
    rewrite (getitem_Some _ _ _ Hlast). simpl.
    set (middle := take (er - (sr + 1)) (drop (sr + 1) code_lines)).
    assert (Hlines :
      take (er + 1 - sr) (drop sr code_lines) = first :: middle ++ [last]).
    { rewrite (drop_S _ _ _ Hfirst).
      replace (er + 1 - sr)%nat with (S (er - (sr + 1) + 1)) by lia.
      simpl. f_equal. rewrite take_add_drop. fold middle.
      replace (S sr) with (sr + 1)%nat by lia. f_equal.
      rewrite drop_drop.
      replace (sr + 1 + (er - (sr + 1)))%nat with er by lia.
      by rewrite (drop_S _ _ _ Hlast). }
    assert (Hsplit :
      _get_node_content node code_lines
      = str_take sc first +:+
        (join nl (str_drop sc first :: middle) +:+ nl +:+ str_take ec last)
        +:+ str_drop ec last).
    { rewrite Hcontent, Hlines.
      change (first :: middle ++ [last]) with ((first :: middle) ++ [last]).
      rewrite join_app by done. simpl join at 2.
      rewrite <- (str_take_drop sc first) at 1. rewrite join_prepend.
      rewrite <- (str_take_drop ec last) at 1.
      by rewrite !str_app_assoc. }
    eexists _, first, last. split_and!; try done. by eapply Hwithin.
Qed.

(** ** More properties of the fallback chunker *)

Lemma str_len_nonneg (s : string) : 0 <= str_len s.
Proof. unfold str_len. lia. Qed.

Lemma str_len_join (g : list string) :
  g <> [] -> str_len (join nl g) = total_len g + len g - 1.
Proof.
  induction g as [|x g IH]; [done|]. intros _.
  destruct g as [|y g].
  - simpl. unfold len. simpl. lia.
  - rewrite join_cons by done. rewrite !str_len_app, IH by done.
    change (str_len nl) with 1. unfold len. simpl total_len. simpl length. lia.
Qed.

Lemma windowed_lookup (max_size : Z) (gs : list (list string)) (k : nat)
    (g : list string) :
  windowed max_size gs -> gs !! k = Some g -> (S k < length gs)%nat ->
  flushed max_size g.
Proof.
  revert k. induction gs as [|g0 gs IH]; intros k Hw Hk Hlen; [done|].
  destruct gs as [|g1 gs]; [simpl in Hlen; lia|].
  destruct Hw as [Hg0 Hw]. destruct k as [|k].
  - by injection Hk as <-.
  - apply (IH k); [done | done | simpl in *; lia].
Qed.

(** X5. The fallback chunker returns at least one chunk for every file,
    the empty file included, which comes back as one chunk with empty
    content on line 0; and every chunk but the last has at least
    [max_chunk_size] characters. *)
Theorem fallback_chunk_sizes {env : Env} (self : TreeSitterChunker)
    (fs : Files) (file_path language text : string) :
  fs !! file_path = Some text ->
  exists chunks,
    _fallback_chunking self fs file_path language = Ok chunks /\
    chunks <> [] /\
    (forall k c,
       chunks !! k = Some c -> (S k < length chunks)%nat ->
       max_chunk_size (config self) <= str_len (content c)) /\
    (text = EmptyString ->
     chunks = [text_block file_path language 0 [EmptyString]]).
Proof.
  intros Hfile.
  destruct (fallback_groups self file_path language fs text Hfile)
    as (gs & Hrun & Hne & Hlines & Hw).
  exists (chunks_of_groups file_path language 0 gs).
  split; [done|]. split; [|split].
  - destruct gs as [|g gs]; [|done].
    simpl in Hlines. by destruct (split_nl_nonempty text).
  - intros k c Hk Hlen.
    assert (Hcontents :
      map content (chunks_of_groups file_path language 0 gs)
      = map (join nl) gs) by apply groups_content.
    assert (Hlength :
      length (chunks_of_groups file_path language 0 gs) = length gs).
    { by rewrite <- (length_map content), Hcontents, length_map. }
    assert (Hc : map content (chunks_of_groups file_path language 0 gs) !! k
                 = Some (content c)) by by rewrite list_lookup_fmap, Hk.
    rewrite Hcontents, list_lookup_fmap in Hc.
    destruct (gs !! k) as [g|] eqn:Hg; [|done]. injection Hc as Hc.
    rewrite <- Hc. rewrite Hlength in Hlen.
    destruct (windowed_lookup _ _ _ _ Hw Hg Hlen) as [Hreach _].
    assert (Hg' : g <> []).
    { rewrite Forall_forall in Hne. apply Hne. by eapply list_elem_of_lookup_2. }
    rewrite str_len_join by done.
    destruct g; [done|]. unfold len. simpl length. lia.
  - intros ->. simpl in Hlines.
    destruct gs as [|g gs]; [done|].
    inversion Hne as [|? ? Hg Hgs]; subst.
    destruct g as [|l g]; [done|]. simpl in Hlines.
    injection Hlines as -> Hrest.
    apply app_eq_nil in Hrest as [-> Hrest].
    destruct gs as [|g' gs]; [done|].
    inversion Hgs as [|? ? Hg' _]; subst. simpl in Hrest.
    by apply app_eq_nil in Hrest as [-> _].
Qed.

(** ** More properties of the vector store *)

Section AddChunksEdges.
Context {env : Env} {store : Store}.

(** X6. For a list that is not empty, [add_chunks] with [batch_size = 0]
    raises [ValueError], and with a negative [batch_size] it writes
    nothing to the store and returns 0. *)
Theorem add_chunks_without_positive_batch (collection : Collection)
    (chunk : CodeChunk) (rest : list CodeChunk) (batch_size : Z) :
  batch_size <= 0 ->
  add_chunks collection (chunk :: rest) batch_size
  = if batch_size =? 0 then Raise ValueError else Ok (collection, 0).
Proof.
  intros Hsize. unfold add_chunks, range.
  destruct (Z.eqb_spec batch_size 0) as [->|Hne]; [done|].
  rewrite (proj2 (Z.ltb_ge 0 batch_size)) by lia. simpl.
  set (n := (0 - len (chunk :: rest) - batch_size - 1) / - batch_size).
  assert (Hn : n <= 0).
  { assert (n < 1); [|lia]. apply Z.div_lt_upper_bound; [lia|].
    unfold len. simpl length. lia. }
  by replace (Z.to_nat n) with 0%nat by lia.
Qed.

End AddChunksEdges.

Section RoundTrip.
Context {env : Env} {store : Store}.

Lemma chunk_metadata_fixed (chunk : CodeChunk) :
  Forall (fun key => metadata chunk !! key = None) fixed_keys ->
  chunk_metadata chunk !! "chunk_type" = Some (VStr (chunk_type chunk)) /\
  chunk_metadata chunk !! "language" = Some (VStr (language chunk)) /\
  chunk_metadata chunk !! "file_path" = Some (VStr (file_path chunk)) /\
  chunk_metadata chunk !! "start_line" = Some (VInt (start_line chunk)) /\
  chunk_metadata chunk !! "end_line" = Some (VInt (end_line chunk)) /\
  chunk_metadata chunk !! "name" = Some (VStr (or_empty (name chunk))) /\
  chunk_metadata chunk !! "parent_context"
  = Some (VStr (or_empty (parent_context chunk))).
Proof.
  intros Hfree. unfold chunk_metadata.
  repeat (apply Forall_cons in Hfree as [Hkey Hfree];
          rewrite (lookup_union_r _ _ _ Hkey); clear Hkey).
  split_and!; reflexivity.
Qed.

Lemma or_empty_idemp (o : option string) :
  or_empty (Some (or_empty o)) = or_empty o.
Proof. by destruct o as [[|c s]|]. Qed.

Lemma chunk_of_stored_record (c : CodeChunk) :
  Forall (fun key => metadata c !! key = None) fixed_keys ->
  chunk_of_record (record_of_chunk c)
  = Some (Ok {| content := content c;
                chunk_type := chunk_type c;
                language := language c;
                file_path := file_path c;
                start_line := start_line c;
                end_line := end_line c;
                name := Some (or_empty (name c));
                parent_context := Some (or_empty (parent_context c));
                metadata := ∅;
                chunk_id := chunk_id c |}).
Proof.
  intros Hc.
  destruct (chunk_metadata_fixed c Hc)
    as (Hct & Hlang & Hfp & Hsl & Hel & Hname & Hparent).
  unfold chunk_of_record, get_str, get_int, get_opt_str.
  change (rec_metadata (record_of_chunk c)) with (chunk_metadata c).
  cbv zeta. by rewrite Hct, Hlang, Hfp, Hsl, Hel, Hname, Hparent.
Qed.

(** X7. Exporting the record stored for a chunk and importing it again
    gives a chunk with the same id, content, type, language, path and
    lines; a missing name or parent context comes back as the empty
    string and the chunk's own metadata is dropped.  Stored again, that
    chunk has the metadata of the first record without the chunk's own
    entries, and a second round trip changes nothing. *)
Theorem export_import_round_trip (chunk : CodeChunk) :
  Forall (fun key => metadata chunk !! key = None) fixed_keys ->
  let imported :=
    {| content := content chunk;
       chunk_type := chunk_type chunk;
       language := language chunk;
       file_path := file_path chunk;
       start_line := start_line chunk;
       end_line := end_line chunk;
       name := Some (or_empty (name chunk));
       parent_context := Some (or_empty (parent_context chunk));
       metadata := ∅;
       chunk_id := chunk_id chunk |} in
  chunk_of_record (record_of_chunk chunk) = Some (Ok imported) /\
  chunk_metadata chunk = metadata chunk ∪ chunk_metadata imported /\
  chunk_of_record (record_of_chunk imported) = Some (Ok imported).
Proof.
  intros Hfree imported.
  pose proof chunk_of_stored_record as Hround.
  split; [by apply Hround|]. split.
  - unfold chunk_metadata, imported. simpl.
    by rewrite !or_empty_idemp, (left_id_L ∅ (∪)).
  - rewrite Hround.
    + unfold imported. simpl. by rewrite !or_empty_idemp.
    + unfold imported. simpl. apply Forall_forall. intros key _.
      apply lookup_empty.
Qed.

End RoundTrip.

Lemma for_each_typed_app {A S} (body : S -> A -> option (result S))
    (l1 l2 : list A) (st : S) :
  for_each_typed body (l1 ++ l2) st
  = bind_typed (for_each_typed body l1 st) (for_each_typed body l2).
Proof.
  revert st. induction l1 as [|x l1 IH]; intros st; simpl.
  - done.
  - destruct (body st x) as [[st'|e]|]; simpl; [apply IH | done | done].
Qed.

Section ImportEdges.
Context {env : Env} {store : Store}.

Lemma chunk_of_record_without_required (key : string) (record : ChunkRecord) :
  exported_schema record -> key ∈ required_keys ->
  chunk_of_record (without_key key record) = Some (Raise KeyError).
Proof.
  intros ((ct & Hct) & (lang & Hlang) & (fp & Hfp) & (sl & Hsl) & (el & Hel)
          & _) Hkey.
  unfold chunk_of_record, get_str, get_int, get_opt_str, without_key.
  cbn [rec_metadata rec_content rec_id].
  unfold required_keys in Hkey.
  repeat (apply elem_of_cons in Hkey as [->|Hkey]);
    [| | | | | by apply elem_of_nil in Hkey];
    rewrite ?lookup_delete_eq, ?lookup_delete_ne by done;
    rewrite ?Hct, ?Hlang, ?Hfp, ?Hsl, ?Hel; simpl;
    rewrite ?lookup_delete_eq, ?lookup_delete_ne by done;
    rewrite ?Hct, ?Hlang, ?Hfp, ?Hsl, ?Hel; simpl; done.
Qed.

(** X8. If the records of the file follow the exported schema up to one
    that lacks one of the five keys read with [metadata[key]], then
    [import_chunks] raises [KeyError], whatever comes after that record;
    a record that only lacks [name] or [parent_context], which are read
    with [metadata.get], is imported with that field missing. *)
Theorem import_missing_key (collection : Collection) (key : string)
    (before after : list ChunkRecord) (record : ChunkRecord) :
  Forall exported_schema before ->
  exported_schema record ->
  (key ∈ required_keys ->
   import_chunks collection (before ++ without_key key record :: after)
   = Some (Raise KeyError)) /\
  (key ∈ ["name"; "parent_context"] ->
   exists chunk,
     chunk_of_record (without_key key record) = Some (Ok chunk) /\
     chunk_id chunk = rec_id record /\
     (key = "name" -> name chunk = None) /\
     (key = "parent_context" -> parent_context chunk = None)).
Proof.
  intros Hbefore Hrecord. split.
  - intros Hkey. unfold import_chunks. rewrite for_each_typed_app.
    destruct (import_loop before Hbefore) as (chunks & _ & Hloop).
    rewrite Hloop. simpl.
    by rewrite (chunk_of_record_without_required key record).
  - intros Hkey.
    destruct Hrecord as ((ct & Hct) & (lang & Hlang) & (fp & Hfp) & (sl & Hsl)
                         & (el & Hel) & Hname & Hparent).
    unfold chunk_of_record, get_str, get_int, get_opt_str, without_key.
    cbn [rec_metadata rec_content rec_id].
    apply elem_of_cons in Hkey as [->|Hkey];
      [|apply elem_of_cons in Hkey as [->|Hkey];
        [|by apply elem_of_nil in Hkey]].
    + rewrite lookup_delete_eq, !lookup_delete_ne by done.
      rewrite Hct, Hlang, Hfp, Hsl, Hel. simpl.
      destruct Hparent as [-> | (pc & ->)]; simpl;
        eexists; split_and!; try reflexivity; done.
    + rewrite lookup_delete_eq, !lookup_delete_ne by done.
      rewrite Hct, Hlang, Hfp, Hsl, Hel. simpl.
      destruct Hname as [-> | (nm & ->)]; simpl;
        eexists; split_and!; try reflexivity; done.
Qed.

End ImportEdges.

(** ** Indexing a code base *)

Section IndexingProofs.
Context {env : Env} {store : Store} {tree : FileTree}.
Variable chunker : TreeSitterChunker.

Lemma found_files_concat (code_path : string) (exts : list string)
    (acc : list string) :
  fold_left (fun code_files ext => code_files ++ rglob code_path ("*" +:+ ext))
    exts acc
  = acc ++ concat (map (fun ext => rglob code_path ("*" +:+ ext)) exts).
Proof.
  revert acc. induction exts as [|ext exts IH]; intros acc; simpl.
  - by rewrite app_nil_r.
  - by rewrite IH, app_assoc.
Qed.

Lemma index_loop_from (fs : Files) (code_files : list string)
    (all_chunks : list CodeChunk) (stats : IndexStats) :
  fold_left (index_step chunker fs) code_files (all_chunks, stats)
  = (all_chunks ++ chunked chunker fs code_files,
     {| files_processed :=
          files_processed stats + len code_files
          - len (failed_files chunker fs code_files);
        chunks_created :=
          chunks_created stats + len (chunked chunker fs code_files);
        errors := errors stats + len (failed_files chunker fs code_files) |}).
Proof.
  revert all_chunks stats.
  induction code_files as [|f rest IH]; intros all_chunks stats.
  - simpl. rewrite app_nil_r. destruct stats. unfold len. simpl.
    f_equal. f_equal; lia.
  - cbn [fold_left]. unfold index_step at 2, failed_files, chunked.
    cbn [map concat List.filter].
    destruct (chunk_file chunker fs f None) as [chunks|e]; cbn [raised].
    + rewrite IH. cbn [files_processed chunks_created errors].
      unfold failed_files, chunked. rewrite app_assoc, len_app.
      unfold len. cbn [length]. f_equal. f_equal; lia.
    + rewrite IH. cbn [files_processed chunks_created errors].
      unfold failed_files, chunked. unfold len. cbn [length app].
      f_equal. f_equal; lia.
Qed.

Lemma chunked_produced (fs : Files) (code_files : list string) :
  Forall
    (fun c =>
       exists f,
         f ∈ code_files /\
         raised (chunk_file chunker fs f None) = false /\
         produced (_detect_language f) f c)
    (chunked chunker fs code_files).
Proof.
  unfold chunked. induction code_files as [|f rest IH]; simpl; [done|].
  apply Forall_app. split.
  - destruct (chunk_file chunker fs f None) as [chunks|e] eqn:Hrun; [|done].
    pose proof (chunk_file_produced chunker fs f None chunks Hrun) as Hall.
    eapply Forall_impl; [exact Hall|]. intros c Hc. exists f.
    split; [set_solver|]. by rewrite Hrun.
  - eapply Forall_impl; [exact IH|]. intros c (f' & Hin & Hok & Hc).
    exists f'. split; [set_solver|done].
Qed.

Lemma add_chunks_default_batch (collection : Collection)
    (chunks : list CodeChunk) (added : Collection) (n : Z) :
  add_chunks collection chunks 100 = Ok (added, n) -> n = len chunks.
Proof.
  destruct chunks as [|c rest].
  - by intros [= _ <-].
  - destruct (add_chunks_nonempty collection c rest 100 ltac:(lia))
      as (batches & _ & _ & ->).
    destruct (for_each add_one batches collection) as [written|e]; simpl;
      [by intros [= _ <-] | done].
Qed.

(** X9. [index_codebase] counts an exception of [chunk_file] and goes
    on: [errors] is the number of files [chunk_file] failed on,
    [files_processed] the number of the others and [chunks_created] the
    number of their chunks, each built for a file of the list with the
    language detected from its name. These chunks go to [add_chunks] in
    one call, which is outside the [try]: if it returns, it reports
    [chunks_created] chunks as added and the statistics are returned; if
    it raises, as for two chunks with one id in a batch, [index_codebase]
    raises the same exception and returns no statistics. *)
Theorem index_codebase_accounting (collection : Collection) (fs : Files)
    (code_path : string) (file_extensions exclude_dirs : option (list string)) :
  let code_files :=
    find_code_files code_path
      (default default_file_extensions file_extensions)
      (default default_exclude_dirs exclude_dirs) in
  let failed := failed_files chunker fs code_files in
  let all_chunks := chunked chunker fs code_files in
  let stats :=
    {| files_processed := len code_files - len failed;
       chunks_created := len all_chunks;
       errors := len failed |} in
  index_codebase chunker collection fs code_path file_extensions exclude_dirs
  = (let! added := add_chunks collection all_chunks 100 in
     Ok (stats, added.1)) /\
  (forall added n,
     add_chunks collection all_chunks 100 = Ok (added, n) ->
     n = chunks_created stats /\
     index_codebase chunker collection fs code_path file_extensions
       exclude_dirs
     = Ok (stats, added)) /\
  (forall e,
     add_chunks collection all_chunks 100 = Raise e ->
     index_codebase chunker collection fs code_path file_extensions
       exclude_dirs
     = Raise e) /\
  Forall
    (fun c =>
       exists f,
         f ∈ code_files /\
         raised (chunk_file chunker fs f None) = false /\
         produced (_detect_language f) f c)
    all_chunks.
Proof.
  intros code_files failed all_chunks stats.
  assert (Hrun :
    index_codebase chunker collection fs code_path file_extensions exclude_dirs
    = (let! added := add_chunks collection all_chunks 100 in
       Ok (stats, added.1))).
  { unfold index_codebase, index_loop. fold code_files.
    rewrite index_loop_from. fold all_chunks failed. cbn [app].
    unfold stats. by rewrite Z.add_0_l, !(Z.add_0_l (len _)). }
  split; [exact Hrun|]. split; [|split; [|apply chunked_produced]].
  - intros added n Hadd. split.
    + exact (add_chunks_default_batch _ _ _ _ Hadd).
    + by rewrite Hrun, Hadd.
  - intros e Hadd. by rewrite Hrun, Hadd.
Qed.

(** X10. The files [index_codebase] goes through are the files found
    for one of the extensions that have none of the excluded names among
    their parts, whether as a directory or as the file's own name. *)
Theorem code_files_found_and_kept (code_path : string)
    (file_extensions exclude_dirs : list string) (f : string) :
  f ∈ find_code_files code_path file_extensions exclude_dirs <->
  (exists ext, ext ∈ file_extensions /\ f ∈ rglob code_path ("*" +:+ ext)) /\
  (forall excluded, excluded ∈ exclude_dirs -> excluded ∉ parts f).
Proof.
  unfold find_code_files. rewrite found_files_concat. cbn [app].
  rewrite list_elem_of_In, filter_In, in_concat, negb_true_iff.
  split.
  - intros [(l & Hl & Hf) Hkeep]. apply in_map_iff in Hl as (ext & <- & Hext).
    split.
    + exists ext. by rewrite !list_elem_of_In.
    + intros excluded Hex Hpart.
      assert (Hany : existsb (fun excluded => bool_decide (excluded ∈ parts f))
                       exclude_dirs = true); [|congruence].
      apply existsb_exists. exists excluded.
      split; [by apply list_elem_of_In|]. by apply bool_decide_eq_true.
  - intros [(ext & Hext & Hf) Hkeep]. split.
    + exists (rglob code_path ("*" +:+ ext)).
      split; [|by apply list_elem_of_In].
      apply in_map_iff. exists ext. split; [done|by apply list_elem_of_In].
    + apply not_true_is_false. intros Hany.
      apply existsb_exists in Hany as (excluded & Hex & Hpart).
      apply bool_decide_eq_true in Hpart.
      by apply (Hkeep excluded); [apply list_elem_of_In|].
Qed.

Lemma find_code_files_none (code_path : string)
    (file_extensions exclude_dirs : list string) :
  (forall ext f,
     ext ∈ file_extensions -> f ∈ rglob code_path ("*" +:+ ext) ->
     exists excluded, excluded ∈ exclude_dirs /\ excluded ∈ parts f) ->
  find_code_files code_path file_extensions exclude_dirs = [].
Proof.
  intros Hall. unfold find_code_files. rewrite found_files_concat. cbn [app].
  induction file_extensions as [|ext exts IH]; [done|].
  cbn [map concat]. rewrite List.filter_app.
  rewrite IH by (intros ext' f' Hext; apply Hall; set_solver).
  rewrite app_nil_r.
  assert (Hext : forall f, f ∈ rglob code_path ("*" +:+ ext) ->
                 exists excluded, excluded ∈ exclude_dirs /\ excluded ∈ parts f)
    by (intros f; apply Hall; set_solver).
  induction (rglob code_path ("*" +:+ ext)) as [|f fs IHfs]; [done|].
  cbn [List.filter].
  destruct (Hext f ltac:(set_solver)) as (excluded & Hex & Hpart).
  assert (Hany : existsb (fun excluded => bool_decide (excluded ∈ parts f))
                   exclude_dirs = true).
  { apply existsb_exists. exists excluded.
    split; [by apply list_elem_of_In|]. by apply bool_decide_eq_true. }
  rewrite Hany. cbn [negb]. apply IHfs. intros f' Hf'. apply Hext. set_solver.
Qed.

(** X11. If every file found has an excluded name among its parts, as
    when the root itself lies under a directory called [build],
    [index_codebase] indexes nothing: all three counters are 0 and the
    collection is left as it was. *)
Theorem excluded_root_indexes_nothing (collection : Collection) (fs : Files)
    (code_path : string) (file_extensions exclude_dirs : option (list string)) :
  (forall ext f,
     ext ∈ default default_file_extensions file_extensions ->
     f ∈ rglob code_path ("*" +:+ ext) ->
     exists excluded,
       excluded ∈ default default_exclude_dirs exclude_dirs /\
       excluded ∈ parts f) ->
  index_codebase chunker collection fs code_path file_extensions exclude_dirs
  = Ok ({| files_processed := 0; chunks_created := 0; errors := 0 |},
        collection).
Proof.
  intros Hall. unfold index_codebase.
  by rewrite (find_code_files_none _ _ _ Hall).
Qed.

End IndexingProofs.

(** ** The context of a prompt *)

Lemma str_len_join_nl (l : list string) :
  str_len (join nl l) = total_len l + Z.max 0 (len l - 1).
Proof.
  induction l as [|x l IH]; [done|].
  destruct l as [|y l].
  - unfold len. simpl. lia.
  - rewrite join_cons by done. rewrite !str_len_app, IH.
    change (str_len nl) with 1. unfold len. simpl. unfold len. simpl. lia.
Qed.

Section BuildContextProofs.
Variable format_3f : float -> string.

Lemma context_loop_spec (rest : list SearchHit) (max_chars : Z) :
  forall (k : nat) (context_parts : list string) (current_chars : Z)
         (parts : list string),
    context_loop format_3f (enumerate_from (Z.of_nat k + 1) rest) max_chars
      context_parts current_chars
    = Ok parts ->
    exists added,
      parts = context_parts ++ added /\
      (forall j text,
         added !! j = Some text ->
         exists chunk,
           rest !! j = Some chunk /\
           chunk_text format_3f (Z.of_nat (k + j) + 1) chunk = Ok text) /\
      (added <> [] -> current_chars + total_len added <= max_chars) /\
      ((length added < length rest)%nat ->
       exists chunk text,
         rest !! length added = Some chunk /\
         chunk_text format_3f (Z.of_nat (k + length added) + 1) chunk
         = Ok text /\
         max_chars < current_chars + total_len added + str_len text).
Proof.
  induction rest as [|chunk rest IH]; intros k context_parts current_chars parts.
  - simpl. intros [= <-]. exists []. rewrite app_nil_r.
    split_and!; [done|done|done|simpl; lia].
  - cbn [enumerate_from context_loop]. intros Hrun.
    apply bind_Ok_inv in Hrun as (text & Htext & Hrun).
    destruct (Z.ltb_spec max_chars (current_chars + str_len text)) as [Hout|Hfit].
    + injection Hrun as <-. exists []. rewrite app_nil_r.
      split_and!; [done|done|done|].
      intros _. exists chunk, text. simpl.
      rewrite Nat.add_0_r. split_and!; [done|done|lia].
    + replace (Z.of_nat k + 1 + 1) with (Z.of_nat (S k) + 1) in Hrun by lia.
      apply IH in Hrun as (added & -> & Hparts & Hbudget & Hnext).
      exists (text :: added). split; [by rewrite <- app_assoc|].
      split_and!.
      * intros [|j] t Hj.
        -- injection Hj as <-. exists chunk. by rewrite Nat.add_0_r.
        -- destruct (Hparts j t Hj) as (c & Hc & Ht). exists c.
           split; [done|]. by replace (k + S j)%nat with (S k + j)%nat by lia.
      * intros _. simpl. destruct added as [|t added]; [simpl; lia|].
        specialize (Hbudget ltac:(done)). lia.
      * intros Hless. simpl in Hless.
        destruct (Hnext ltac:(lia)) as (c & t & Hc & Ht & Hout).
        exists c, t. simpl.
        replace (k + S (length added))%nat with (S k + length added)%nat by lia.
        split_and!; [done|done|lia].
Qed.

(** X12. When [_build_context] returns, the text is the parts written
    for a leading run of the chunks, numbered from 1, joined by line
    feeds; the lengths of the parts add up to at most [max_chars], the
    joining line feeds are not counted, so the text is one character
    longer for every part after the first; and when chunks are left over,
    the first of them is one whose part no longer fitted. *)
Theorem build_context_budget (chunks : list SearchHit) (max_chars : Z)
    (context : string) :
  _build_context format_3f chunks max_chars = Ok context ->
  exists parts,
    context = join nl parts /\
    (forall j text,
       parts !! j = Some text ->
       exists chunk,
         chunks !! j = Some chunk /\
         chunk_text format_3f (Z.of_nat j + 1) chunk = Ok text) /\
    (parts <> [] -> total_len parts <= max_chars) /\
    str_len context = total_len parts + Z.max 0 (len parts - 1) /\
    ((length parts < length chunks)%nat ->
     exists chunk text,
       chunks !! length parts = Some chunk /\
       chunk_text format_3f (len parts + 1) chunk = Ok text /\
       max_chars < total_len parts + str_len text).
Proof.
  unfold _build_context. intros Hrun.
  apply bind_Ok_inv in Hrun as (parts & Hloop & [= <-]).
  apply (context_loop_spec chunks max_chars 0) in Hloop
    as (added & -> & Hparts & Hbudget & Hnext).
  exists added. cbn [app]. split_and!.
  - done.
  - exact Hparts.
  - intros Hne. specialize (Hbudget Hne). lia.
  - apply str_len_join_nl.
  - intros Hless. destruct (Hnext Hless) as (c & t & Hc & Ht & Hout).
    exists c, t. split_and!; [done|exact Ht|lia].
Qed.

End BuildContextProofs.

(** ** Chunk types and parents per language *)

Section KindsProofs.
Context {env : Env}.
Variable self : TreeSitterChunker.

Lemma extract_function_chunk_kind (node : Node) (code_lines : list string)
    (file_path : string) (parent_class : option string)
    (chunks chunks' : list CodeChunk) :
  _extract_function_chunk self node code_lines file_path parent_class chunks
  = Ok chunks' ->
  grows
    (fun c =>
       chunk_type c ∈ ["class"; "function"; "method"] /\
       (chunk_type c = "method" <-> truthy (parent_context c) = true))
    chunks chunks'.
Proof.
  unfold _extract_function_chunk. intros Hrun.
  apply bind_Ok_inv in Hrun as (func_name & _ & Hrun).
  apply bind_Ok_inv in Hrun as (bound & _ & Hrun).
  apply bind_Ok_inv in Hrun as (has_docstring & _ & Hrun).
  injection Hrun as <-. apply grows_snoc. simpl.
  destruct (truthy parent_class); split; try set_solver; by split.
Qed.

Lemma method_sweep_kind (code_lines : list string) (file_path : string)
    (class_name : string) (cs : list Node) :
  forall chunks chunks',
    for_each
      (fun chunks child =>
         if bool_decide (type child = "function_definition") then
           _extract_function_chunk self child code_lines file_path
             (Some class_name) chunks
         else Ok chunks)
      cs chunks = Ok chunks' ->
    grows
      (fun c =>
         chunk_type c ∈ ["class"; "function"; "method"] /\
         (chunk_type c = "method" <-> truthy (parent_context c) = true))
      chunks chunks'.
Proof.
  induction cs as [|c cs IH]; intros chunks chunks' Hrun; simpl in Hrun.
  - injection Hrun as <-. apply grows_refl.
  - apply bind_Ok_inv in Hrun as (mid & Hmid & Hrun).
    eapply grows_trans; [|by apply IH].
    destruct (bool_decide (type c = "function_definition")).
    + by eapply extract_function_chunk_kind.
    + injection Hmid as <-. apply grows_refl.
Qed.

Lemma traverse_python_kind (code_lines : list string) (file_path : string)
    (node : Node) :
  forall parent_class chunks chunks',
    traverse_python self code_lines file_path node parent_class chunks
    = Ok chunks' ->
    grows
      (fun c =>
         chunk_type c ∈ ["class"; "function"; "method"] /\
         (chunk_type c = "method" <-> truthy (parent_context c) = true))
      chunks chunks'.
Proof.
  induction node as [t f s e cs IH] using Node_nested_ind.
  intros parent_class chunks chunks' Hrun. simpl in Hrun.
  apply bind_Ok_inv in Hrun as (mid & Hmid & Hrest).
  eapply grows_trans.
  2: { apply (traverse_children_grows _
                (fun child chunks =>
                   traverse_python self code_lines file_path child
                     parent_class chunks) cs); [|exact Hrest].
       eapply Forall_impl; [exact IH|]. simpl. eauto. }
  clear Hrest IH.
  destruct (bool_decide (t = "class_definition") && chunk_by_classes (config self)).
  - apply bind_Ok_inv in Hmid as (class_name & _ & Hmid).
    eapply grows_trans; [apply grows_snoc|].
    2: { destruct (chunk_by_methods (config self)).
         - by eapply method_sweep_kind.
         - injection Hmid as <-. apply grows_refl. }
    simpl. split; [set_solver|]. by split.
  - destruct (bool_decide (t = "function_definition")
              && chunk_by_functions (config self)).
    + by eapply extract_function_chunk_kind.
    + injection Hmid as <-. apply grows_refl.
Qed.

Lemma traverse_javascript_kind (code_lines : list string)
    (file_path language : string) (node : Node) :
  forall chunks chunks',
    traverse_javascript self code_lines file_path language node None chunks
    = Ok chunks' ->
    grows
      (fun c => chunk_type c ∈ ["function"; "class"] /\ parent_context c = None)
      chunks chunks'.
Proof.
  induction node as [t f s e cs IH] using Node_nested_ind.
  intros chunks chunks' Hrun. simpl in Hrun.
  apply bind_Ok_inv in Hrun as (mid & Hmid & Hrest).
  eapply grows_trans.
  2: { apply (traverse_children_grows _
                (fun child chunks =>
                   traverse_javascript self code_lines file_path language
                     child None chunks) cs); [|exact Hrest].
       eapply Forall_impl; [exact IH|]. simpl. eauto. }
  clear Hrest IH.
  destruct (bool_decide (t ∈ ["function_declaration"; "function"])
            && chunk_by_functions (config self)).
  - apply bind_Ok_inv in Hmid as (text & _ & Hmid).
    injection Hmid as <-. apply grows_snoc. simpl. split; [set_solver|done].
  - destruct (bool_decide (t = "class_declaration")
              && chunk_by_classes (config self)).
    + apply bind_Ok_inv in Hmid as (class_name & _ & Hmid).
      injection Hmid as <-. apply grows_snoc. simpl. split; [set_solver|done].
    + injection Hmid as <-. apply grows_refl.
Qed.

Lemma traverse_java_kind (code_lines : list string) (file_path : string)
    (node : Node) :
  forall chunks chunks',
    traverse_java self code_lines file_path node None chunks = Ok chunks' ->
    grows
      (fun c => chunk_type c ∈ ["class"; "method"] /\ parent_context c = None)
      chunks chunks'.
Proof.
  induction node as [t f s e cs IH] using Node_nested_ind.
  intros chunks chunks' Hrun. simpl in Hrun.
  apply bind_Ok_inv in Hrun as (mid & Hmid & Hrest).
  eapply grows_trans.
  2: { apply (traverse_children_grows _
                (fun child chunks =>
                   traverse_java self code_lines file_path child None chunks)
                cs); [|exact Hrest].
       eapply Forall_impl; [exact IH|]. simpl. eauto. }
  clear Hrest IH.
  destruct (bool_decide (t = "class_declaration")
            && chunk_by_classes (config self)).
  - apply bind_Ok_inv in Hmid as (class_name & _ & Hmid).
    injection Hmid as <-. apply grows_snoc. simpl. split; [set_solver|done].
  - destruct (bool_decide (t = "method_declaration")
              && chunk_by_methods (config self)).
    + apply bind_Ok_inv in Hmid as (method_name & _ & Hmid).
      injection Hmid as <-. apply grows_snoc. simpl. split; [set_solver|done].
    + injection Hmid as <-. apply grows_refl.
Qed.

Lemma extract_imports_kind (root_node : Node) (code_lines : list string)
    (file_path language : string) :
  Forall
    (fun c =>
       chunk_type c = "import" /\ parent_context c = None /\
       language ∈ ["python"; "javascript"; "java"])
    (_extract_imports root_node code_lines file_path language).
Proof.
  unfold _extract_imports. rewrite extract_imports_from. simpl.
  apply Forall_forall. intros c Hc.
  apply list_elem_of_fmap in Hc as (node & -> & Hnode).
  apply list_elem_of_In, filter_In in Hnode as [_ Hnode].
  unfold is_import in Hnode. apply bool_decide_eq_true in Hnode.
  split_and!; [done|done|]. unfold import_types in Hnode.
  repeat case_bool_decide; set_solver.
Qed.

(** X13. On the syntax-tree path the chunk types depend on the language:
    Python gives imports, classes, functions and methods, JavaScript
    imports, functions and classes, TypeScript functions and classes
    only, Java imports, classes and methods, and a language with a parser
    but none of these names gives no chunk at all. No chunk of
    JavaScript, TypeScript or Java names a parent, so a Java method never
    records its class; a Python chunk is a method exactly when it names a
    non-empty parent class. *)
Theorem parsed_chunk_kinds (fs : Files) (file_path : string)
    (language : option string) (parser : string -> Node)
    (chunks : list CodeChunk) :
  let resolved := default (_detect_language file_path) language in
  parsers self !! resolved = Some parser ->
  chunk_file self fs file_path language = Ok chunks ->
  Forall
    (fun c =>
       chunk_type c ∈ language_kinds resolved /\ parent_recorded resolved c)
    chunks /\
  (resolved ∉ ["python"; "javascript"; "typescript"; "java"] -> chunks = []).
Proof.
  intros resolved Hparser Hrun.
  assert (Hall :
    Forall
      (fun c =>
         chunk_type c ∈ language_kinds resolved /\ parent_recorded resolved c)
      chunks).
  { unfold chunk_file in Hrun.
    replace (match language with
             | Some language0 => language0
             | None => _detect_language file_path
             end) with resolved in Hrun by by destruct language.
    rewrite Hparser in Hrun. clearbody resolved.
    apply bind_Ok_inv in Hrun as (code & _ & Hrun). simpl in Hrun.
    apply bind_Ok_inv in Hrun as (all & Hall & Hrun). injection Hrun as <-.
    assert (Hall' :
      Forall
        (fun c =>
           chunk_type c ∈ language_kinds resolved /\
           parent_recorded resolved c)
        all).
    { assert (Himports :
        Forall
          (fun c =>
             chunk_type c ∈ language_kinds resolved /\
             parent_recorded resolved c)
          (if include_imports (config self) then
             _extract_imports (parser code) (split_nl code) file_path resolved
           else [])).
      { destruct (include_imports (config self)); [|done].
        eapply Forall_impl; [apply extract_imports_kind|].
        intros c (Htype & Hparent & Hlang). simpl in Hlang.
        unfold language_kinds, parent_recorded. rewrite Htype, Hparent.
        repeat case_bool_decide; subst; try set_solver.
        all: by split. }
      unfold language_kinds, parent_recorded in *.
      destruct (bool_decide_reflect (resolved = "python")) as [Hpy|Hpy].
      { apply bind_Ok_inv in Hall as (found & Hfound & Hall).
        injection Hall as <-.
        apply traverse_python_kind in Hfound as (added & -> & Hadded).
        apply Forall_app. split; [done|].
        eapply Forall_impl; [exact Hadded|]. simpl.
        intros c [Htype Hparent]. split; [set_solver|done]. }
      destruct (bool_decide_reflect (resolved ∈ ["javascript"; "typescript"]))
        as [Hjs|Hjs].
      { apply bind_Ok_inv in Hall as (found & Hfound & Hall).
        injection Hall as <-.
        apply traverse_javascript_kind in Hfound as (added & -> & Hadded).
        apply Forall_app. split; [done|].
        eapply Forall_impl; [exact Hadded|]. simpl.
        intros c [Htype Hparent]. split; [|done].
        repeat case_bool_decide; set_solver. }
      destruct (bool_decide_reflect (resolved = "java")) as [Hjava|Hjava].
      { apply bind_Ok_inv in Hall as (found & Hfound & Hall).
        injection Hall as <-.
        apply traverse_java_kind in Hfound as (added & -> & Hadded).
        apply Forall_app. split; [done|].
        eapply Forall_impl; [exact Hadded|]. simpl.
        intros c [Htype Hparent]. split; [|done].
        repeat case_bool_decide; set_solver. }
      by injection Hall as <-. }
    apply Forall_forall. intros c Hc.
    apply list_elem_of_In, filter_In in Hc as [Hc _].
    rewrite Forall_forall in Hall'. by apply Hall', list_elem_of_In. }
  split; [exact Hall|].
  intros Hother. destruct chunks as [|c rest]; [done|].
  apply Forall_cons in Hall as [[Htype _] _].
  unfold language_kinds in Htype.
  repeat case_bool_decide; set_solver.
Qed.

End KindsProofs.

(** ** Statistics *)

Lemma key_eqb_sym (a b : value) : key_eqb a b = key_eqb b a.
Proof.
  destruct a, b; simpl; try done;
    try (apply bool_decide_ext; split; congruence);
    try apply Z.eqb_sym.
Qed.

Lemma key_eqb_trans (a b c : value) :
  key_eqb a b = true -> key_eqb a c = key_eqb b c.
Proof.
  destruct a as [s|i|[]], b as [t|j|[]], c as [u|k|[]]; simpl; try done;
    intros Hab;
    try apply bool_decide_eq_true in Hab; try apply Z.eqb_eq in Hab;
    subst; try done;
    repeat case_bool_decide; try congruence;
    repeat match goal with
           | |- context [?x =? ?y] => destruct (Z.eqb_spec x y)
           end; try done; lia.
Qed.

Lemma count_get_set (d : list (value * Z)) (k k' : value) (n default : Z) :
  count_get (count_set d k n) k' default
  = if key_eqb k k' then n else count_get d k' default.
Proof.
  induction d as [|[k0 n0] d IH]; simpl; [done|].
  destruct (key_eqb k0 k) eqn:Hk0; simpl.
  - rewrite (key_eqb_trans k0 k k' Hk0). by destruct (key_eqb k k').
  - rewrite IH. destruct (key_eqb k0 k') eqn:Hk0'; [|done].
    destruct (key_eqb k k') eqn:Hkk'; [|done].
    rewrite (key_eqb_trans k0 k' k Hk0'), key_eqb_sym in Hk0. congruence.
Qed.

Lemma count_set_sum (d : list (value * Z)) (k : value) (n : Z) :
  foldr (fun entry total => entry.2 + total) 0 (count_set d k n)
  = foldr (fun entry total => entry.2 + total) 0 d - count_get d k 0 + n.
Proof.
  induction d as [|[k0 n0] d IH]; simpl; [lia|].
  destruct (key_eqb k0 k); simpl; [lia|]. rewrite IH. lia.
Qed.

Lemma count_set_positive (d : list (value * Z)) (k : value) (n : Z) :
  0 < n -> Forall (fun entry => 0 < entry.2) d ->
  Forall (fun entry => 0 < entry.2) (count_set d k n).
Proof.
  intros Hn Hd. induction Hd as [|[k0 n0] d H0 Hd IH]; simpl.
  - by constructor.
  - destruct (key_eqb k0 k); by constructor.
Qed.

Lemma count_get_nonneg (d : list (value * Z)) (k : value) :
  Forall (fun entry => 0 < entry.2) d -> 0 <= count_get d k 0.
Proof.
  intros Hd. induction Hd as [|[k0 n0] d H0 Hd IH]; simpl; [done|].
  destruct (key_eqb k0 k); simpl in *; lia.
Qed.

Lemma count_set_keys (d : list (value * Z)) (k k0 : value) (n : Z) :
  key_eqb k0 k = false ->
  Forall (fun entry => key_eqb k0 entry.1 = false) d ->
  Forall (fun entry => key_eqb k0 entry.1 = false) (count_set d k n).
Proof.
  intros Hk Hd. induction Hd as [|[k1 n1] d H1 Hd IH]; simpl.
  - by constructor.
  - destruct (key_eqb k1 k); by constructor.
Qed.

Lemma count_set_distinct (d : list (value * Z)) (k : value) (n : Z) :
  distinct_keys d -> distinct_keys (count_set d k n).
Proof.
  induction d as [|[k0 n0] d IH]; simpl.
  - done.
  - intros [Hk0 Hd]. destruct (key_eqb k0 k) eqn:Hk; simpl; [done|].
    split; [by apply count_set_keys | by apply IH].
Qed.

Lemma histogram_from (key : string) (metadatas : list Metadata) :
  forall counts,
    Forall (fun entry => 0 < entry.2) counts ->
    distinct_keys counts ->
    let result :=
      fold_left
        (fun counts metadata =>
           let v := default (VStr "unknown") (metadata !! key) in
           count_set counts v (count_get counts v 0 + 1))
        metadatas counts in
    (forall v,
       count_get result v 0
       = count_get counts v 0
         + len (List.filter
                  (fun metadata =>
                     key_eqb (default (VStr "unknown") (metadata !! key)) v)
                  metadatas)) /\
    foldr (fun entry total => entry.2 + total) 0 result
    = foldr (fun entry total => entry.2 + total) 0 counts + len metadatas /\
    Forall (fun entry => 0 < entry.2) result /\
    distinct_keys result.
Proof.
  induction metadatas as [|m ms IH]; intros counts Hpos Hdistinct.
  - simpl. unfold len. simpl. split_and!; try done; intros; lia.
  - cbn [fold_left]. set (v0 := default (VStr "unknown") (m !! key)).
    pose proof (count_get_nonneg counts v0 Hpos) as Hnonneg.
    destruct (IH (count_set counts v0 (count_get counts v0 0 + 1)))
      as (Hget & Hsum & Hpos' & Hdistinct').
    { apply count_set_positive; [lia|done]. }
    { by apply count_set_distinct. }
    split_and!; try done.
    + intros v. rewrite Hget, count_get_set. cbn [List.filter]. fold v0.
      destruct (key_eqb v0 v) eqn:Hv.
      * assert (Hsame : count_get counts v0 0 = count_get counts v 0).
        { clear -Hv. induction counts as [|[k n] d IHd]; simpl; [done|].
          rewrite (key_eqb_sym k v0), (key_eqb_trans v0 v k Hv),
            (key_eqb_sym v k).
          by destruct (key_eqb k v). }
        rewrite Hsame. unfold len. cbn [length]. lia.
      * done.
    + etrans; [exact Hsum|]. rewrite count_set_sum. unfold len.
      cbn [length]. lia.
Qed.

(** X14. [get_statistics] reports the count it was given and, for a
    sample that is not empty, two tallies of the sample: under each key
    the number of sampled metadatas with that value of [chunk_type] (of
    [language]), a metadata without the key counting as [unknown]; the
    counts are positive and add up to the size of the sample, not to
    [total_chunks], and no key is listed twice. For an empty sample both
    tallies are left out. *)
Theorem statistics_tally_sample (collection_name embedding_model : string)
    (count : Z) (sample_metadatas : list Metadata) :
  let stats :=
    get_statistics collection_name embedding_model count sample_metadatas in
  total_chunks stats = count /\
  match stat_chunk_types stats, stat_languages stats with
  | Some types, Some languages =>
      sample_metadatas <> [] /\
      tallies "chunk_type" sample_metadatas types /\
      tallies "language" sample_metadatas languages
  | None, None => sample_metadatas = []
  | _, _ => False
  end.
Proof.
  destruct sample_metadatas as [|m ms]; [done|].
  cbn [get_statistics total_chunks stat_chunk_types stat_languages].
  split; [done|]. split; [done|].
  split.
  - destruct (histogram_from "chunk_type" (m :: ms) [] ltac:(done) ltac:(done))
      as (Hget & Hsum & Hpos & Hdistinct).
    unfold tallies, histogram. split_and!; [|exact Hsum|exact Hpos|exact Hdistinct].
    intros v. exact (Hget v).
  - destruct (histogram_from "language" (m :: ms) [] ltac:(done) ltac:(done))
      as (Hget & Hsum & Hpos & Hdistinct).
    unfold tallies, histogram. split_and!; [|exact Hsum|exact Hpos|exact Hdistinct].
    intros v. exact (Hget v).
Qed.

(** ** Which parsers the constructor registers *)

Section ParserPrefix.
Context {Lang : Type}.
Variable load_language : string -> result Lang.
Variable make_parser : Lang -> result (string -> Node).

Lemma parsers_loop_prefix (languages : list (string * Lang)) :
  forall parsers : gmap string (string -> Node),
  exists n,
    forall k,
      is_Some (parsers_loop make_parser languages parsers !! k) <->
      is_Some (parsers !! k) \/ k ∈ take n (map fst languages).
Proof.
  induction languages as [|[lang_name lang] rest IH]; intros parsers.
  - exists 0%nat. intros k. simpl. split; [by left|].
    intros [Hk|Hk]; [done|]. by apply elem_of_nil in Hk.
  - simpl. destruct (make_parser lang) as [parser|e].
    + destruct (IH (<[lang_name := parser]> parsers)) as (n & Hn).
      exists (S n). intros k. rewrite Hn. simpl.
      rewrite elem_of_cons.
      destruct (decide (k = lang_name)) as [->|Hne].
      * rewrite lookup_insert_eq. split; [intros _|intros _; left; by eexists].
        right. by left.
      * rewrite lookup_insert_ne by done. naive_solver.
    + exists 0%nat. intros k. simpl. split; [by left|].
      intros [Hk|Hk]; [done|]. by apply elem_of_nil in Hk.
Qed.

Lemma load_languages_all (names : list string)
    (acc languages : list (string * Lang)) :
  for_each
    (fun languages lang_name =>
       let! lang := load_language lang_name in
       Ok (languages ++ [(lang_name, lang)]))
    names acc = Ok languages ->
  map fst languages = map fst acc ++ names /\
  forall name, name ∈ names -> exists lang, load_language name = Ok lang.
Proof.
  revert acc. induction names as [|n names IH]; intros acc Hrun; simpl in Hrun.
  - injection Hrun as <-. rewrite app_nil_r. split; [done|].
    intros name Hname. by apply elem_of_nil in Hname.
  - destruct (load_language n) as [lang|] eqn:Hload; simpl in Hrun; [|done].
    destruct (IH _ Hrun) as [Hnames Hall]. split.
    + by rewrite Hnames, map_app, <- app_assoc.
    + intros name Hname. apply elem_of_cons in Hname as [->|Hname]; eauto.
Qed.

(** X15. The languages with a parser after [_initialize_parsers] are a
    leading run of python, javascript, java: the loop that creates the
    parsers stops at the first failure and keeps what it has, so Java is
    never registered without JavaScript, nor JavaScript without Python.
    If loading any one grammar fails, no parser is registered at all. *)
Theorem parsers_are_leading_run :
  exists n,
    (forall k,
       is_Some (_initialize_parsers load_language make_parser !! k) <->
       k ∈ take n grammar_names) /\
    ((exists name e, name ∈ grammar_names /\ load_language name = Raise e) ->
     _initialize_parsers load_language make_parser = ∅ /\ n = 0%nat).
Proof.
  unfold _initialize_parsers.
  destruct (for_each _ grammar_names []) as [languages|e] eqn:Hload.
  - apply load_languages_all in Hload as [Hnames Hall]. simpl in Hnames.
    destruct (parsers_loop_prefix languages ∅) as (n & Hn).
    exists n. split.
    + intros k. rewrite Hn, Hnames, lookup_empty. split; [|by right].
      intros [Hk|Hk]; [by destruct Hk | done].
    + intros (name & e & Hname & Hfail).
      destruct (Hall name Hname) as (lang & Hok). congruence.
  - exists 0%nat. split; [|done].
    intros k. rewrite lookup_empty. simpl. split.
    + by intros [? ?].
    + intros Hk. by apply elem_of_nil in Hk.
Qed.

End ParserPrefix.

(** ** The searches of the pipeline *)

Section PipelineSearchProofs.
Context {env : Env} {store : Store}.
Variables (config : ChromaDBConfig.t) (collection : Collection).

(** X16. The pipeline's searches are the vector store's: with a
    non-empty language [find_similar_code] is [search_by_language], with
    [function] or [class] as chunk type [search_by_functionality] is
    [search_functions] or [search_classes], and an empty string as
    filter is no filter. [query] tests its arguments for truth, so a
    [top_k] of 0 retrieves as many chunks as the configuration says, as
    if it had not been given, while [find_similar_code] passes the 0 on:
    it asks the store for 0 results, and when the store raises on that
    request, as ChromaDB does, so does [find_similar_code]. *)
Theorem pipeline_searches_delegate (text : string) (top_k : Z) :
  (forall language,
     language <> EmptyString ->
     find_similar_code config collection text top_k (Some language)
     = search_by_language config collection language text top_k) /\
  search_by_functionality config collection text (Some "function") top_k
  = search_functions config collection text top_k /\
  search_by_functionality config collection text (Some "class") top_k
  = search_classes config collection text top_k /\
  find_similar_code config collection text top_k (Some EmptyString)
  = find_similar_code config collection text top_k None /\
  (forall language_filter,
     query_retrieved_chunks config collection text (Some 0) language_filter
     = search config collection text (Some (ChromaDBConfig.top_k config))
         (filter_if_given "language" language_filter) None) /\
  (forall language e,
     collection_query collection [text] 0 (filter_if_given "language" language)
     = Raise e ->
     find_similar_code config collection text 0 language = Raise e).
Proof.
  split_and!; try done.
  - intros [|c language] Hne; [done|]. done.
  - intros language e Hquery. unfold find_similar_code, search.
    simpl. change (0 * 2) with 0. by rewrite Hquery.
Qed.

End PipelineSearchProofs.

(** ** From the chunker to the store and back *)

Section ChunkedRoundTrip.
Context {env : Env} {store : Store}.
Variable self : TreeSitterChunker.

(** X17. A chunk that [chunk_file] built can be stored, exported and
    imported again: the import succeeds, the chunk that comes back has
    the same content and the same id, and that id is still the one its
    own fields generate; what is lost is the [has_docstring] flag, which
    the store keeps in the record but the import does not read. *)
Theorem chunked_chunks_round_trip (fs : Files) (path : string)
    (lang : option string) (chunks : list CodeChunk) :
  chunk_file self fs path lang = Ok chunks ->
  Forall
    (fun c =>
       exists imported,
         chunk_of_record (record_of_chunk c) = Some (Ok imported) /\
         content imported = content c /\
         chunk_id imported = chunk_id c /\
         chunk_id imported
         = _generate_id (language imported) (chunk_type imported)
             (file_path imported) (start_line imported)
             (content imported) /\
         metadata imported = ∅ /\
         rec_metadata (record_of_chunk c) !! "has_docstring"
         = metadata c !! "has_docstring")
    chunks.
Proof.
  intros Hrun. apply (chunk_file_produced self) in Hrun.
  eapply Forall_impl; [exact Hrun|]. clear Hrun.
  intros c (_ & _ & Hid & _ & _ & Hmeta).
  assert (Hfree : Forall (fun key => metadata c !! key = None) fixed_keys).
  { apply Forall_forall. intros key Hkey.
    destruct Hmeta as [-> | [b ->]]; [apply lookup_empty|].
    apply lookup_singleton_ne. unfold fixed_keys in Hkey.
    intros <-. set_solver. }
  eexists. split; [by apply chunk_of_stored_record|]. simpl.
  split_and!; try done.
  unfold chunk_metadata.
  destruct (metadata c !! "has_docstring") as [v|] eqn:Hflag.
  - by apply lookup_union_Some_l.
  - apply lookup_union_None. split; [done|]. reflexivity.
Qed.

End ChunkedRoundTrip.

(** ** The properties above on the samples *)

Section MoreOnSamples.
#[local] Existing Instance sample_env.
#[local] Existing Instance sample_store.
#[local] Existing Instance sample_tree.

Lemma unloaded_language_falls_back_witness :
("typescript" ∉ grammar_names) /\
  chunk_file
    (new_TreeSitterChunker sample_load_language sample_make_parser
       default_config)
    {[ "a.ts" := "let x = 1" ]} "a.ts" (Some "typescript")
  = _fallback_chunking
      (new_TreeSitterChunker sample_load_language sample_make_parser
         default_config)
      {[ "a.ts" := "let x = 1" ]} "a.ts" "typescript".
Proof.
  assert (Hother : "typescript" ∉ grammar_names).
  { intros Hin. unfold grammar_names in Hin.
    repeat (apply elem_of_cons in Hin as [Hin|Hin]; [discriminate Hin|]).
    by apply elem_of_nil in Hin. }
  split; [exact Hother|].
  exact (unloaded_language_falls_back sample_load_language sample_make_parser
           default_config {[ "a.ts" := "let x = 1" ]} "a.ts"
           (Some "typescript") Hother).
Defined.

Lemma docstrings_off_raises_witness :
  include_docstrings (config plain_docstring_chunker) = false /\
  exists e,
    chunk_file plain_docstring_chunker {[ "b.py" := class_code ]} "b.py"
      (Some "python")
    = Raise e.
Proof.
  assert (Hoff : include_docstrings (config plain_docstring_chunker) = false)
    by reflexivity.
  split; [exact Hoff|].
  destruct (docstrings_off_raises plain_docstring_chunker Hoff)
    as (_ & _ & Hfile).
  apply (Hfile eq_refl {[ "b.py" := class_code ]} "b.py"
           (fun _ : string => class_tree) class_code); reflexivity.
Defined.

Lemma chunk_file_chunks_produced_witness :
  exists chunks,
    chunk_file class_chunker {[ "b.py" := class_code ]} "b.py" None
    = Ok chunks /\
    Forall (produced "python" "b.py") chunks.
Proof.
  destruct (chunk_file class_chunker {[ "b.py" := class_code ]} "b.py" None)
    as [chunks|e] eqn:Hrun; [|vm_compute in Hrun; discriminate Hrun].
  exists chunks. split; [reflexivity|].
  exact (chunk_file_chunks_produced class_chunker
           {[ "b.py" := class_code ]} "b.py" None chunks Hrun).
Defined.

Lemma node_text_within_content_witness :
  ((start_point method_node).1 <= (end_point method_node).1
   < length (split_nl class_code))%nat /\
  exists text,
    _get_node_text (Some method_node) (split_nl class_code) = Ok text /\
    str_contains text (_get_node_content method_node (split_nl class_code))
    = true.
Proof.
  assert (Hrows :
    ((start_point method_node).1 <= (end_point method_node).1
     < length (split_nl class_code))%nat) by (vm_compute; lia).
  split; [exact Hrows|].
  destruct (node_text_within_content method_node (split_nl class_code) Hrows)
    as ((text & first & last & _ & _ & Htext & _ & Hin) & _).
  exists text. split; [exact Htext | exact Hin].
Defined.

Lemma fallback_chunk_sizes_witness :
  ({[ "notes.txt" := "hi" ]} : Files) !! "notes.txt" = Some "hi" /\
  exists chunks,
    _fallback_chunking plain_chunker {[ "notes.txt" := "hi" ]} "notes.txt"
      "unknown"
    = Ok chunks /\
    chunks <> [].
Proof.
  assert (Hfile :
    ({[ "notes.txt" := "hi" ]} : Files) !! "notes.txt" = Some "hi")
    by reflexivity.
  split; [exact Hfile|].
  destruct (fallback_chunk_sizes plain_chunker {[ "notes.txt" := "hi" ]}
              "notes.txt" "unknown" "hi" Hfile)
    as (chunks & Hrun & Hne & _).
  exists chunks. split; [exact Hrun | exact Hne].
Defined.

Lemma add_chunks_without_positive_batch_witness :
  -1 <= 0 /\
  add_chunks (store := sample_store) []
    (new_CodeChunk "def f(): pass" "function" "python" "a.py" 0 0 (Some "f")
       None None None :: [])
    (-1)
  = Ok ([], 0).
Proof.
  assert (Hsize : -1 <= 0) by lia.
  split; [exact Hsize|].
  exact (add_chunks_without_positive_batch (store := sample_store) []
           (new_CodeChunk "def f(): pass" "function" "python" "a.py" 0 0
              (Some "f") None None None)
           [] (-1) Hsize).
Defined.

Lemma export_import_round_trip_witness :
  Forall
    (fun key =>
       metadata
         (new_CodeChunk "def f(): pass" "function" "python" "a.py" 0 0
            (Some "f") None None None) !! key = None)
    fixed_keys /\
  exists imported,
    chunk_of_record
      (record_of_chunk
         (new_CodeChunk "def f(): pass" "function" "python" "a.py" 0 0
            (Some "f") None None None))
    = Some (Ok imported) /\
    name imported = Some "f" /\
    parent_context imported = Some EmptyString.
Proof.
  assert (Hfree :
    Forall
      (fun key =>
         metadata
           (new_CodeChunk "def f(): pass" "function" "python" "a.py" 0 0
              (Some "f") None None None) !! key = None)
      fixed_keys) by (repeat constructor).
  split; [exact Hfree|].
  destruct (export_import_round_trip _ Hfree) as (Hround & _).
  eexists. split; [exact Hround|]. split; reflexivity.
Defined.

Lemma import_missing_key_witness :
  Forall exported_schema [sample_record "A" "python"] /\
  exported_schema (sample_record "B" "java") /\
  import_chunks (store := sample_store) []
    ([sample_record "A" "python"]
     ++ without_key "language" (sample_record "B" "java") :: [])
  = Some (Raise KeyError).
Proof.
  assert (Hrecord : forall id lang, exported_schema (sample_record id lang)).
  { intros id lang.
    repeat split; try (eexists; reflexivity); right; eexists; reflexivity. }
  assert (Hbefore : Forall exported_schema [sample_record "A" "python"])
    by (constructor; [apply Hrecord | constructor]).
  split; [exact Hbefore|]. split; [apply Hrecord|].
  destruct (import_missing_key (store := sample_store) [] "language" [sample_record "A" "python"] []
              (sample_record "B" "java") Hbefore (Hrecord "B" "java"))
    as [Hraise _].
  apply Hraise. unfold required_keys.
  apply elem_of_cons. right. apply elem_of_cons. by left.
Defined.

Lemma excluded_root_indexes_nothing_witness :
  (forall ext f,
     ext ∈ default default_file_extensions (Some [".js"]) ->
     f ∈ rglob "repo" ("*" +:+ ext) ->
     exists excluded,
       excluded ∈ default default_exclude_dirs None /\ excluded ∈ parts f) /\
  index_codebase (store := sample_store) class_chunker [] {[ "b.py" := class_code ]} "repo"
    (Some [".js"]) None
  = Ok ({| files_processed := 0; chunks_created := 0; errors := 0 |}, []).
Proof.
  assert (Hall :
    forall ext f,
      ext ∈ default default_file_extensions (Some [".js"]) ->
      f ∈ rglob "repo" ("*" +:+ ext) ->
      exists excluded,
        excluded ∈ default default_exclude_dirs None /\ excluded ∈ parts f).
  { intros ext f Hext Hf. simpl in Hext.
    apply list_elem_of_singleton in Hext. subst ext.
    change (f ∈ ["repo/node_modules/x.js"]) in Hf.
    apply list_elem_of_singleton in Hf. subst f.
    exists "node_modules". split.
    - apply elem_of_cons. by left.
    - change ("node_modules" ∈ ["repo"; "node_modules"; "x.js"]).
      apply elem_of_cons. right. apply elem_of_cons. by left. }
  split; [exact Hall|].
  exact (excluded_root_indexes_nothing (store := sample_store)
           class_chunker []
           {[ "b.py" := class_code ]} "repo" (Some [".js"]) None Hall).
Defined.

Lemma build_context_budget_witness :
  exists context,
    _build_context sample_format_3f [sample_hit "A" 1; sample_hit "B" 2] 150
    = Ok context /\
    exists parts,
      context = join nl parts /\
      (parts <> [] -> total_len parts <= 150) /\
      str_len context = total_len parts + Z.max 0 (len parts - 1).
Proof.
  destruct (_build_context sample_format_3f
              [sample_hit "A" 1; sample_hit "B" 2] 150)
    as [context|e] eqn:Hrun; [|vm_compute in Hrun; discriminate Hrun].
  exists context. split; [reflexivity|].
  destruct (build_context_budget sample_format_3f _ _ _ Hrun)
    as (parts & Hjoin & _ & Hbudget & Hlen & _).
  exists parts. split; [exact Hjoin|]. split; [exact Hbudget | exact Hlen].
Defined.

Lemma parsed_chunk_kinds_witness :
  parsers class_chunker !! default (_detect_language "b.py") None
  = Some (fun _ : string => class_tree) /\
  exists chunks,
    chunk_file class_chunker {[ "b.py" := class_code ]} "b.py" None
    = Ok chunks /\
    Forall
      (fun c =>
         chunk_type c ∈ language_kinds "python" /\ parent_recorded "python" c)
      chunks.
Proof.
  assert (Hparser :
    parsers class_chunker !! default (_detect_language "b.py") None
    = Some (fun _ : string => class_tree)) by reflexivity.
  split; [exact Hparser|].
  destruct (chunk_file class_chunker {[ "b.py" := class_code ]} "b.py" None)
    as [chunks|e] eqn:Hrun; [|vm_compute in Hrun; discriminate Hrun].
  exists chunks. split; [reflexivity|].
  exact (proj1 (parsed_chunk_kinds class_chunker {[ "b.py" := class_code ]}
                  "b.py" None (fun _ : string => class_tree) chunks
                  Hparser Hrun)).
Defined.

Lemma chunked_chunks_round_trip_witness :
  exists chunks,
    chunk_file class_chunker {[ "b.py" := class_code ]} "b.py" None
    = Ok chunks /\
    Forall
      (fun c =>
         exists imported,
           chunk_of_record (record_of_chunk c) = Some (Ok imported) /\
           chunk_id imported = chunk_id c)
      chunks.
Proof.
  destruct (chunk_file class_chunker {[ "b.py" := class_code ]} "b.py" None)
    as [chunks|e] eqn:Hrun; [|vm_compute in Hrun; discriminate Hrun].
  exists chunks. split; [reflexivity|].
  eapply Forall_impl;
    [exact (chunked_chunks_round_trip class_chunker
              {[ "b.py" := class_code ]} "b.py" None chunks Hrun)|].
  intros c (imported & Hround & _ & Hid & _). exists imported.
  split; [exact Hround | exact Hid].
Defined.

Lemma index_codebase_accounting_witness :
  (exists written,
     index_codebase (store := sample_store) (tree := sample_tree)
       class_chunker [] {[ "repo/b.py" := class_code ]} "repo"
       (Some [".py"]) None
     = Ok ({| files_processed := 1; chunks_created := 2; errors := 1 |},
           written)) /\
  index_codebase (store := sample_store) (tree := js_file_tree) js_chunker []
    {[ "repo/a.js" := js_function_code ]} "repo" (Some [".js"]) None
  = Raise DuplicateIDError.
Proof.
  split.
  - destruct (index_codebase_accounting (store := sample_store)
                (tree := sample_tree) class_chunker []
                {[ "repo/b.py" := class_code ]} "repo" (Some [".py"]) None)
      as (Hrun & _).
    rewrite Hrun. vm_compute. eexists. reflexivity.
  - destruct (index_codebase_accounting (store := sample_store)
                (tree := js_file_tree) js_chunker []
                {[ "repo/a.js" := js_function_code ]} "repo" (Some [".js"])
                None)
      as (_ & _ & Hraise & _).
    apply Hraise. vm_compute. reflexivity.
Defined.

Lemma pipeline_searches_delegate_witness :
  @collection_query sample_store sample_collection ["baz method"] 0
    (filter_if_given "language" None)
  = Raise TypeError /\
  find_similar_code (store := sample_store) ChromaDBConfig.default
    sample_collection "baz method" 0 None
  = Raise TypeError /\
  (let! hits :=
     query_retrieved_chunks (store := sample_store) ChromaDBConfig.default
       sample_collection "baz method" (Some 0) None in
   Ok (map hit_chunk_id hits))
  = Ok ["A"; "C"].
Proof.
  assert (Hquery :
    @collection_query sample_store sample_collection ["baz method"]
      0 (filter_if_given "language" None)
    = Raise TypeError) by reflexivity.
  split; [exact Hquery|].
  destruct (pipeline_searches_delegate (store := sample_store)
              ChromaDBConfig.default sample_collection "baz method" 0)
    as (_ & _ & _ & _ & Hdefault & Hzero).
  split; [exact (Hzero None TypeError Hquery)|].
  rewrite Hdefault. vm_compute. reflexivity.
Defined.

End MoreOnSamples.
